(** * Listing normalisation and scoring engine of the accommodation agent

    A shallow embedding of the computational core of
    [accommodation_agent.py] and [advanced_accommodation_agent.py]:
    the price parser, the parsing of result cards and property pages, the
    construction of detailed listings, the value and location scores, the
    ranking by overall score, the recommendations, the market aggregator
    and the booking assistant; and of the amenity selection of
    [cli_interface.py].

    Python [float]s are kept abstract behind the class [PyFloat].  Two
    instances are given: exact rational arithmetic ([Q]), in which the
    general theorems are proved, and IEEE binary64 ([PrimFloat.float]), in
    which the source's arithmetic is evaluated bit for bit on concrete
    inputs.

    Texts that the program scans character by character (with [\d],
    [str.split], [str.strip], [float] or [int]) are sequences of Unicode
    code points, and what the Unicode database says of a character beyond
    ASCII is a parameter ([Interpreter]).  Texts that the program only
    stores, prints or searches for an ASCII word are kept as [string]s. *)

From Stdlib Require Import ZArith QArith Qminmax Lqa Lia Bool List.
From Stdlib Require Import String Ascii Permutation Sorted.
From Stdlib Require Import PrimFloat SpecFloat FloatOps DecimalString.
Import ListNotations.

Set Warnings "-inexact-float".

(** ** Exceptions and fallible computations *)

Module Py.

Inductive exn : Type :=
  | ZeroDivisionError
  | ValueError
  | TypeError
  | WebDriverException.

Inductive result (A : Type) : Type :=
  | Ok (a : A)
  | Raise (e : exn).

Arguments Ok {A} a.
Arguments Raise {A} e.

Definition bind {A B} (m : result A) (k : A -> result B) : result B :=
  match m with
  | Ok a => k a
  | Raise e => Raise e
  end.

(** [try: body except: handler] with a handler that ignores the
    exception. *)
Definition try_except {A} (body : result A) (handler : A) : A :=
  match body with
  | Ok a => a
  | Raise _ => handler
  end.

End Py.
Import Py.

Declare Scope py_scope.
Delimit Scope py_scope with py.
Notation "x <- m ;; k" := (bind m (fun x => k))
  (at level 61, m at next level, right associativity) : py_scope.

(** ** Python floats *)

Class PyFloat (F : Type) : Type := {
  (** [float(n)] of an [int] *)
  of_int : Z -> F;
  (** [float(s)] of a decimal numeral [s] with the digits of [m], the last
      [k] of them after the point: [m / 10^k], rounded once *)
  of_decimal : Z -> nat -> F;
  fadd : F -> F -> F;
  fsub : F -> F -> F;
  fmul : F -> F -> F;
  fdiv : F -> F -> F;
  fltb : F -> F -> bool;
  fleb : F -> F -> bool;
  feqb : F -> F -> bool
}.

(** Exact arithmetic. *)
#[export] Instance Q_PyFloat : PyFloat Q := {
  of_int := inject_Z;
  of_decimal := fun m k => Qdiv (inject_Z m) (inject_Z (10 ^ Z.of_nat k));
  fadd := Qplus;
  fsub := Qminus;
  fmul := Qmult;
  fdiv := Qdiv;
  fltb := fun x y => negb (Qle_bool y x);
  fleb := Qle_bool;
  feqb := Qeq_bool
}.

(** IEEE 754 binary64, the representation of CPython's [float].  The
    conversion from [int] rounds to the nearest double, ties to even; it
    is exact below [2^53] in absolute value.  (Beyond the largest double
    Python raises [OverflowError]; the lengths and literals converted here
    are far from it.) *)
Definition float_of_Z (z : Z) : float :=
  SF2Prim (binary_normalize prec emax z 0 false).

Definition SF_of_Z (z : Z) : spec_float :=
  match z with
  | Z0 => S754_zero false
  | Zpos p => S754_finite false p 0
  | Zneg p => S754_finite true p 0
  end.

(** The double nearest to [m / 10^k], ties to even: the quotient of the
    two integers is rounded once, as [float] rounds a decimal numeral
    (infinity beyond the largest double). *)
Definition float_of_decimal (m : Z) (k : nat) : float :=
  SF2Prim (SFdiv prec emax (SF_of_Z m) (SF_of_Z (10 ^ Z.of_nat k))).

#[export] Instance binary64_PyFloat : PyFloat float := {
  of_int := float_of_Z;
  of_decimal := float_of_decimal;
  fadd := PrimFloat.add;
  fsub := PrimFloat.sub;
  fmul := PrimFloat.mul;
  fdiv := PrimFloat.div;
  fltb := PrimFloat.ltb;
  fleb := PrimFloat.leb;
  feqb := PrimFloat.eqb
}.

Section Arithmetic.
Context {F : Type} `{PyFloat F}.

(** A decimal literal [m * 10^-k], such as [0.4 = dec 4 1]. *)
Definition dec (m : Z) (k : nat) : F :=
  fdiv (of_int m) (of_int (10 ^ Z.of_nat k)).

(** Truth value of a float: [bool(x)] is [x != 0]. *)
Definition truthy (x : F) : bool := negb (feqb x (of_int 0)).

(** [a / b] on floats. *)
Definition py_div (a b : F) : result F :=
  if feqb b (of_int 0) then Raise ZeroDivisionError else Ok (fdiv a b).

(** [a / b] on ints (true division). *)
Definition py_truediv_int (a b : Z) : result F :=
  if (b =? 0)%Z then Raise ZeroDivisionError
  else Ok (fdiv (of_int a) (of_int b)).

(** [max(a, b)]: the first argument is kept unless the second is
    strictly greater. *)
Definition py_max (a b : F) : F := if fltb a b then b else a.

(** [min(xs)] and [max(xs)] over a list; [ValueError] when empty. *)
Definition py_min_list (xs : list F) : result F :=
  match xs with
  | [] => Raise ValueError
  | x :: rest => Ok (fold_left (fun m y => if fltb y m then y else m) rest x)
  end.

Definition py_max_list (xs : list F) : result F :=
  match xs with
  | [] => Raise ValueError
  | x :: rest => Ok (fold_left (fun m y => if fltb m y then y else m) rest x)
  end.

End Arithmetic.

(** ** Data model *)

Module SearchCriteria.
Record t (F : Type) : Type := mk {
  location : string;
  check_in : string;
  check_out : string;
  guests : Z;
  max_price_per_night : F;
  property_type : string;
  amenities : list string
  }.
Arguments mk {F}.
Arguments location {F}.
Arguments check_in {F}.
Arguments check_out {F}.
Arguments guests {F}.
Arguments max_price_per_night {F}.
Arguments property_type {F}.
Arguments amenities {F}.

(** [__post_init__]: a missing amenity list becomes the default one. *)
Definition default_amenities : list string :=
  ["kitchen"; "wifi"; "air_conditioning"]%string.

Definition init {F} (location check_in check_out : string) (guests : Z)
    (max_price_per_night : F) (property_type : option string)
    (amenities : option (list string)) : t F :=
  mk location check_in check_out guests max_price_per_night
     (match property_type with Some p => p | None => "entire_place"%string end)
     (match amenities with Some a => a | None => default_amenities end).
End SearchCriteria.

Module PropertyListing.
Record t (F : Type) : Type := mk {
  platform : string;
  title : string;
  price_per_night : F;
  total_price : F;
  location : string;
  rating : option F;
  review_count : option Z;
  amenities : list string;
  url : string;
  property_type : string;
  host_name : option string;
  instant_book : bool;
  cancellation_policy : option string
  }.
Arguments mk {F}.
Arguments platform {F}.
Arguments title {F}.
Arguments price_per_night {F}.
Arguments total_price {F}.
Arguments location {F}.
Arguments rating {F}.
Arguments review_count {F}.
Arguments amenities {F}.
Arguments url {F}.
Arguments property_type {F}.
Arguments host_name {F}.
Arguments instant_book {F}.
Arguments cancellation_policy {F}.

Definition with_price {F} (l : t F) (p : F) : t F :=
  mk (platform l) (title l) p (total_price l) (location l) (rating l)
     (review_count l) (amenities l) (url l) (property_type l)
     (host_name l) (instant_book l) (cancellation_policy l).
End PropertyListing.

(** [DetailedPropertyListing(PropertyListing)]: the inherited fields are
  the [base] component. *)
Module DetailedPropertyListing.
Record t (F : Type) : Type := mk {
  base : PropertyListing.t F;
  description : option string;
  bedrooms : option Z;
  bathrooms : option Z;
  max_guests : option Z;
  square_meters : option F;
  cleaning_fee : option F;
  service_fee : option F;
  taxes : option F;
  security_deposit : option F;
  weekly_discount : option F;
  monthly_discount : option F;
  availability_calendar : option (list (string * string));
  minimum_stay : option Z;
  maximum_stay : option Z;
  host_rating : option F;
  host_response_time : option string;
  host_response_rate : option F;
  host_verification : option (list string);
  property_features : option (list string);
  house_rules : option (list string);
  cancellation_policy_details : option string;
  value_score : option F;
  location_score : option F;
  overall_score : option F
  }.
Arguments mk {F}.
Arguments base {F}.
Arguments description {F}.
Arguments bedrooms {F}.
Arguments bathrooms {F}.
Arguments max_guests {F}.
Arguments square_meters {F}.
Arguments cleaning_fee {F}.
Arguments service_fee {F}.
Arguments taxes {F}.
Arguments security_deposit {F}.
Arguments weekly_discount {F}.
Arguments monthly_discount {F}.
Arguments availability_calendar {F}.
Arguments minimum_stay {F}.
Arguments maximum_stay {F}.
Arguments host_rating {F}.
Arguments host_response_time {F}.
Arguments host_response_rate {F}.
Arguments host_verification {F}.
Arguments property_features {F}.
Arguments house_rules {F}.
Arguments cancellation_policy_details {F}.
Arguments value_score {F}.
Arguments location_score {F}.
Arguments overall_score {F}.

(** Inherited attributes. *)
Definition platform {F} (d : t F) := PropertyListing.platform (base d).
Definition title {F} (d : t F) := PropertyListing.title (base d).
Definition price_per_night {F} (d : t F) :=
  PropertyListing.price_per_night (base d).
Definition location {F} (d : t F) := PropertyListing.location (base d).
Definition rating {F} (d : t F) := PropertyListing.rating (base d).
Definition amenities {F} (d : t F) := PropertyListing.amenities (base d).

(** All optional fields at their default [None]. *)
Definition of_base {F} (b : PropertyListing.t F) : t F :=
  mk b None None None None None None None None None None None None None
     None None None None None None None None None None None.

Definition with_base {F} (d : t F) (b : PropertyListing.t F) : t F :=
  mk b (description d) (bedrooms d) (bathrooms d) (max_guests d)
     (square_meters d) (cleaning_fee d) (service_fee d) (taxes d)
     (security_deposit d) (weekly_discount d) (monthly_discount d)
     (availability_calendar d) (minimum_stay d) (maximum_stay d)
     (host_rating d) (host_response_time d) (host_response_rate d)
     (host_verification d) (property_features d) (house_rules d)
     (cancellation_policy_details d) (value_score d) (location_score d)
     (overall_score d).

(** Assignment of the three analysis attributes. *)
Definition set_scores {F} (d : t F) (v l o : F) : t F :=
  mk (base d) (description d) (bedrooms d) (bathrooms d) (max_guests d)
     (square_meters d) (cleaning_fee d) (service_fee d) (taxes d)
     (security_deposit d) (weekly_discount d) (monthly_discount d)
     (availability_calendar d) (minimum_stay d) (maximum_stay d)
     (host_rating d) (host_response_time d) (host_response_rate d)
     (host_verification d) (property_features d) (house_rules d)
     (cancellation_policy_details d) (Some v) (Some l) (Some o).

Definition with_price {F} (d : t F) (p : F) : t F :=
  with_base d (PropertyListing.with_price (base d) p).
End DetailedPropertyListing.

(** ** Scoring policy *)

Section Scoring.
Context {F : Type} `{PyFloat F}.
Local Open Scope py_scope.

Local Notation "x + y" := (fadd x y) : py_scope.
Local Notation "x - y" := (fsub x y) : py_scope.
Local Notation "x * y" := (fmul x y) : py_scope.

(** [len([a for a in criteria.amenities if a in listing.amenities])] *)
Definition matching_amenities (wanted have : list string) : list string :=
  filter (fun a => existsb (String.eqb a) have) wanted.

Definition len {A} (l : list A) : Z := Z.of_nat (List.length l).

Definition nonempty {A} (l : list A) : bool :=
  match l with [] => false | _ :: _ => true end.

Definition calculate_value_score (listing : DetailedPropertyListing.t F)
    (criteria : SearchCriteria.t F) : result F :=
  let score := dec 0 1 in
  (* Price score (lower is better) *)
  score <-
    (if fltb (of_int 0) (DetailedPropertyListing.price_per_night listing)
     then
       ratio <- py_div (DetailedPropertyListing.price_per_night listing)
                       (SearchCriteria.max_price_per_night criteria) ;;
       let price_score :=
         py_max (of_int 0) (of_int 100 - ratio * of_int 100) in
       Ok (score + price_score * dec 4 1)
     else Ok score) ;;
  (* Amenities score *)
  score <-
    (if nonempty (DetailedPropertyListing.amenities listing) then
       ratio <- py_truediv_int
                  (len (matching_amenities
                          (SearchCriteria.amenities criteria)
                          (DetailedPropertyListing.amenities listing)))
                  (len (SearchCriteria.amenities criteria)) ;;
       let amenity_score := ratio * of_int 100 in
       Ok (score + amenity_score * dec 3 1)
     else Ok score) ;;
  (* Rating score *)
  let score :=
    match DetailedPropertyListing.rating listing with
    | Some rating =>
        if truthy rating then
          let rating_score := fdiv rating (dec 50 1) * of_int 100 in
          score + rating_score * dec 2 1
        else score
    | None => score
    end in
  (* Host score *)
  let score :=
    match DetailedPropertyListing.host_rating listing with
    | Some host_rating =>
        if truthy host_rating then
          let host_score := fdiv host_rating (dec 50 1) * of_int 100 in
          score + host_score * dec 1 1
        else score
    | None => score
    end in
  Ok score.

End Scoring.


(** ** Python strings as sequences of code points *)

Module Unicode.

Definition char : Type := N.
Definition str : Type := list char.
Bind Scope N_scope with char.

(** The text of an ASCII literal. *)
Definition of_string (s : string) : str :=
  map N_of_ascii (list_ascii_of_string s).

Definition comma : char := 44%N.
Definition point : char := 46%N.
Definition plus_sign : char := 43%N.
Definition minus_sign : char := 45%N.
Definition underscore : char := 95%N.

Definition between (lo hi c : char) : bool := ((lo <=? c) && (c <=? hi))%N.

(** [c.isspace()], the characters on which [str.split()] and
    [str.strip()] act: the ASCII controls 9 to 13 and 28 to 31, the
    space, and U+0085, U+00A0, U+1680, U+2000 to U+200A, U+2028, U+2029,
    U+202F, U+205F and U+3000. *)
Definition is_space (c : char) : bool :=
  (between 9 13 c || between 28 32 c || (c =? 133) || (c =? 160)
   || (c =? 5760) || between 8192 8202 c || (c =? 8232) || (c =? 8233)
   || (c =? 8239) || (c =? 8287) || (c =? 12288))%N.

(** The white space that [int] skips around a numeral: the same without
    the separators 28 to 31, which [int] rejects. *)
Definition is_int_space (c : char) : bool :=
  is_space c && negb (between 28 31 c)%N.

(** The value of a decimal digit. *)
Inductive digit : Type := D0 | D1 | D2 | D3 | D4 | D5 | D6 | D7 | D8 | D9.

Definition digit_to_Z (d : digit) : Z :=
  match d with
  | D0 => 0 | D1 => 1 | D2 => 2 | D3 => 3 | D4 => 4
  | D5 => 5 | D6 => 6 | D7 => 7 | D8 => 8 | D9 => 9
  end.

Definition digit_of_N (n : N) : digit :=
  match n with
  | 0 => D0 | 1 => D1 | 2 => D2 | 3 => D3 | 4 => D4
  | 5 => D5 | 6 => D6 | 7 => D7 | 8 => D8 | _ => D9
  end%N.

End Unicode.

(** What the interpreter adds to the language: its Unicode database, of
    which the program uses the decimal digits (general category Nd, the
    characters that [\d] matches and that [float] and [int] read), and the
    limit on the number of digits that [int] converts
    ([sys.get_int_max_str_digits()], 0 for no limit). *)
Class Interpreter : Type := {
  (** [unicodedata.decimal(c)] for a character beyond ASCII *)
  unicode_decimal : Unicode.char -> option Unicode.digit;
  int_max_str_digits : nat
}.

(** The decimal digits of Unicode 14.0, the database of CPython 3.11:
    every script has its ten digits in a row, from its digit zero. *)
Definition unicode_14_zeros : list Unicode.char :=
  [1632; 1776; 1984; 2406; 2534; 2662; 2790; 2918; 3046; 3174; 3302;
   3430; 3558; 3664; 3792; 3872; 4160; 4240; 6112; 6160; 6470; 6608;
   6784; 6800; 6992; 7088; 7232; 7248; 42528; 43216; 43264; 43472;
   43504; 43600; 44016; 65296; 66720; 68912; 69734; 69872; 69942;
   70096; 70384; 70736; 70864; 71248; 71360; 71472; 71904; 72016;
   72784; 73040; 73120; 92768; 92864; 93008; 120782; 120792; 120802;
   120812; 120822; 123200; 123632; 125264; 130032]%N.

Definition unicode_14_decimal (c : Unicode.char) : option Unicode.digit :=
  match find (fun zero => Unicode.between zero (zero + 9)%N c)
             unicode_14_zeros with
  | Some zero => Some (Unicode.digit_of_N (c - zero))
  | None => None
  end.

Definition cpython_3_11 : Interpreter := {|
  unicode_decimal := unicode_14_decimal;
  int_max_str_digits := 4300
|}.

(** ** Text primitives *)

Module Text.

Definition in_range (lo hi : nat) (c : ascii) : bool :=
  (lo <=? nat_of_ascii c)%nat && (nat_of_ascii c <=? hi)%nat.

Definition is_upper : ascii -> bool := in_range 65 90.

Definition lower_char (c : ascii) : ascii :=
  if is_upper c then ascii_of_nat (nat_of_ascii c + 32) else c.

(** [s.lower()] *)
Fixpoint lower (s : string) : string :=
  match s with
  | EmptyString => EmptyString
  | String c s' => String (lower_char c) (lower s')
  end.

(** [needle in haystack] *)
Fixpoint contains (needle haystack : string) : bool :=
  String.prefix needle haystack ||
  match haystack with
  | EmptyString => false
  | String _ rest => contains needle rest
  end.

Section Scanning.
Import Unicode.
Context {I : Interpreter}.

(** The decimal digit value of a character, if it is a decimal digit. *)
Definition decimal (c : char) : option Z :=
  if (c <? 128)%N
  then if (between 48 57 c)%N then Some (Z.of_N c - 48)%Z else None
  else option_map digit_to_Z (unicode_decimal c).

(** The class [\d] of a [str] pattern. *)
Definition is_digit (c : char) : bool :=
  match decimal c with Some _ => true | None => false end.

Definition digit_value (c : char) : Z :=
  match decimal c with Some d => d | None => 0%Z end.

(** [needle in haystack] *)
Fixpoint starts_with (needle haystack : str) : bool :=
  match needle, haystack with
  | [], _ => true
  | a :: needle', b :: haystack' => (a =? b)%N && starts_with needle' haystack'
  | _ :: _, [] => false
  end.

Fixpoint has (needle haystack : str) : bool :=
  starts_with needle haystack ||
  match haystack with
  | [] => false
  | _ :: rest => has needle rest
  end.

(** [s.replace(old, '')] for a one-character [old] *)
Fixpoint remove_char (old : char) (s : str) : str :=
  match s with
  | [] => []
  | c :: s' =>
      if (c =? old)%N then remove_char old s' else c :: remove_char old s'
  end.

(** Longest prefix whose characters satisfy [p], and the remainder. *)
Fixpoint span (p : char -> bool) (s : str) : str * str :=
  match s with
  | [] => ([], [])
  | c :: s' =>
      if p c then let (run, rest) := span p s' in (c :: run, rest)
      else ([], s)
  end.

Fixpoint all_chars (p : char -> bool) (s : str) : bool :=
  match s with
  | [] => true
  | c :: s' => p c && all_chars p s'
  end.

Definition is_empty (s : str) : bool :=
  match s with [] => true | _ :: _ => false end.

(** Value of a string of decimal digits, most significant first. *)
Fixpoint digits_to_Z (acc : Z) (s : str) : Z :=
  match s with
  | [] => acc
  | c :: s' => digits_to_Z (10 * acc + digit_value c) s'
  end.

(** The class [[\d,]]. *)
Definition price_char (c : char) : bool :=
  is_digit c || (c =? comma)%N.

(** [s] is empty or starts with a character outside [p]. *)
Definition starts_outside (p : char -> bool) (s : str) : bool :=
  match s with
  | [] => true
  | c :: _ => negb (p c)
  end.

(** The regular expression [[\d,]+\.?\d*] tried at the start of [s]: every
    quantifier is greedy and the parts after the first may match the empty
    string, so the first attempt of the matcher succeeds. *)
Definition match_price_at (s : str) : option str :=
  let (run, rest) := span price_char s in
  if is_empty run then None
  else match rest with
       | c :: rest' =>
           if (c =? point)%N
           then let (frac, _) := span is_digit rest' in
                Some (run ++ point :: frac)
           else Some run
       | [] => Some run
       end.

(** [re.search(r'[\d,]+\.?\d*', s)]: the leftmost match, if any. *)
Fixpoint re_search_price (s : str) : option str :=
  match match_price_at s with
  | Some m => Some m
  | None =>
      match s with
      | [] => None
      | _ :: s' => re_search_price s'
      end
  end.

End Scanning.

End Text.

(** ** Price parser *)

Section PriceParser.
Context {F : Type} `{PyFloat F} {I : Interpreter}.
Local Open Scope py_scope.

(** [float(s)] for [s] over the alphabet of the price pattern (decimal
    digits of any script, comma, point), to which [extract_price] applies
    it: [digits], [digits.], [digits.digits] and [.digits] are numerals,
    read by the values of their digits; anything else over this alphabet
    is a [ValueError]. *)
Definition float_of_str (s : Unicode.str) : result F :=
  let (int_part, rest) := Text.span Text.is_digit s in
  match rest with
  | [] =>
      if Text.is_empty int_part then Raise ValueError
      else Ok (of_decimal (Text.digits_to_Z 0 int_part) 0)
  | c :: frac =>
      if (c =? Unicode.point)%N
         && Text.all_chars Text.is_digit frac
         && negb (Text.is_empty int_part && Text.is_empty frac)
      then Ok (of_decimal (Text.digits_to_Z 0 (int_part ++ frac))
                          (List.length frac))
      else Raise ValueError
  end.

(** The body of the [try] block of [extract_price]. *)
Definition extract_price_body (price_text : Unicode.str) : result F :=
  match Text.re_search_price (Text.remove_char Unicode.comma price_text) with
  | Some price_match => float_of_str price_match
  | None => Ok (dec 0 1)
  end.

Definition extract_price (price_text : Unicode.str) : F :=
  try_except (extract_price_body price_text) (dec 0 1).

End PriceParser.

(** ** Listing normaliser: attaching the detailed attributes *)

(** The dictionary built by [extract_detailed_property_info]: each key it
    may set is either absent ([None]) or bound.  ['description'] may be
    bound to Python's [None]. *)
Module DetailedInfo.
Record t (F : Type) : Type := mk {
  description : option (option string);
  bedrooms : option Z;
  bathrooms : option Z;
  max_guests : option Z;
  cleaning_fee : option F;
  service_fee : option F;
  taxes : option F;
  security_deposit : option F;
  host_name : option string;
  host_rating : option F;
  host_response_time : option string;
  property_features : option (list string);
  house_rules : option (list string)
}.
Arguments mk {F}.
Arguments description {F}.
Arguments bedrooms {F}.
Arguments bathrooms {F}.
Arguments max_guests {F}.
Arguments cleaning_fee {F}.
Arguments service_fee {F}.
Arguments taxes {F}.
Arguments security_deposit {F}.
Arguments host_name {F}.
Arguments host_rating {F}.
Arguments host_response_time {F}.
Arguments property_features {F}.
Arguments house_rules {F}.

(** The empty dictionary. *)
Definition empty {F} : t F :=
  mk None None None None None None None None None None None None None.
End DetailedInfo.

Section Normaliser.
Context {F : Type} `{PyFloat F}.
Local Open Scope py_scope.

(** [DetailedPropertyListing(platform=listing.platform, ...,
    host_name=listing.host_name, ..., **detailed_info)].  The thirteen
    inherited attributes are passed by keyword from [listing]; a key of
    [detailed_info] that repeats one of them (only ['host_name'] can) is a
    [TypeError]; the attributes not bound by [detailed_info] take their
    default [None]. *)
Definition construct_detailed (listing : PropertyListing.t F)
    (detailed_info : DetailedInfo.t F) : result (DetailedPropertyListing.t F) :=
  match DetailedInfo.host_name detailed_info with
  | Some _ => Raise TypeError
  | None =>
      Ok (DetailedPropertyListing.mk
            listing
            (match DetailedInfo.description detailed_info with
             | Some d => d
             | None => None
             end)
            (DetailedInfo.bedrooms detailed_info)
            (DetailedInfo.bathrooms detailed_info)
            (DetailedInfo.max_guests detailed_info)
            None
            (DetailedInfo.cleaning_fee detailed_info)
            (DetailedInfo.service_fee detailed_info)
            (DetailedInfo.taxes detailed_info)
            (DetailedInfo.security_deposit detailed_info)
            None None None None None
            (DetailedInfo.host_rating detailed_info)
            (DetailedInfo.host_response_time detailed_info)
            None None
            (DetailedInfo.property_features detailed_info)
            (DetailedInfo.house_rules detailed_info)
            None None None None)
  end.

(** [get_detailed_property_info].  [page] is the outcome of loading the
    property page and reading it with [extract_detailed_property_info]: an
    exception of the driver, or the dictionary read.  Only the inherited
    attributes of [listing] are read, so the function applies to a
    [DetailedPropertyListing] through its [base]. *)
Definition get_detailed_property_info (page : result (DetailedInfo.t F))
    (listing : PropertyListing.t F) : DetailedPropertyListing.t F :=
  try_except
    (detailed_info <- page ;;
     detailed_listing <- construct_detailed listing detailed_info ;;
     Ok detailed_listing)
    (DetailedPropertyListing.of_base listing).

End Normaliser.

(** ** Location score *)

Section Location.
Context {F : Type} `{PyFloat F}.

Definition calculate_location_score (listing : DetailedPropertyListing.t F)
    (criteria : SearchCriteria.t F) : F :=
  let score := dec 0 1 in
  let place := Text.lower (DetailedPropertyListing.location listing) in
  (* Distance score (assuming closer to Bar is better) *)
  if Text.contains "bar" place then fadd score (of_int 80)
  else if Text.contains "sutomore" place || Text.contains "petrovac" place
       then fadd score (of_int 60)
       else fadd score (of_int 40).

End Location.

(** ** Sorting

    [sorted] and [list.sort] are stable and compare with [<] only.
    [before a b] says that [a] must come strictly before [b]; an element
    is inserted after the elements that must come before it and in front of
    everything else, so elements that are not ordered by [before] keep
    their input order.  With [reverse=True] Python keeps the input order of
    equal keys as well, so a descending sort is the instance
    [before a b := key b < key a]. *)

Section Sorting.
Context {A : Type}.
Variable before : A -> A -> bool.

Fixpoint insert_stable (x : A) (l : list A) : list A :=
  match l with
  | [] => [x]
  | y :: l' => if before y x then y :: insert_stable x l' else x :: l
  end.

Definition py_sorted (l : list A) : list A :=
  fold_right insert_stable [] l.

End Sorting.

(** ** Ranking and cohorts of [analyze_search_results] *)

Section Ranking.
Context {F : Type} `{PyFloat F}.
Local Open Scope py_scope.

(** Body of the scoring loop. *)
Definition score_listing (criteria : SearchCriteria.t F)
    (listing : DetailedPropertyListing.t F)
    : result (DetailedPropertyListing.t F) :=
  value <- calculate_value_score listing criteria ;;
  let place := calculate_location_score listing criteria in
  Ok (DetailedPropertyListing.set_scores listing value place
        (fdiv (fadd value place) (of_int 2))).

Fixpoint score_listings (criteria : SearchCriteria.t F)
    (listings : list (DetailedPropertyListing.t F))
    : result (list (DetailedPropertyListing.t F)) :=
  match listings with
  | [] => Ok []
  | listing :: rest =>
      scored <- score_listing criteria listing ;;
      others <- score_listings criteria rest ;;
      Ok (scored :: others)
  end.

(** [lambda x: x.overall_score or 0] *)
Definition overall_key (x : DetailedPropertyListing.t F) : F :=
  match DetailedPropertyListing.overall_score x with
  | Some s => if truthy s then s else of_int 0
  | None => of_int 0
  end.

(** The orders of [sorted(xs, key=key)] and of
    [xs.sort(key=key, reverse=True)]. *)
Definition ascending_by {A} (key : A -> F) (a b : A) : bool :=
  fltb (key a) (key b).

Definition descending_by {A} (key : A -> F) (a b : A) : bool :=
  fltb (key b) (key a).

(** [detailed_listings.sort(key=lambda x: x.overall_score or 0,
    reverse=True)] *)
Definition sort_by_overall_score
    (detailed_listings : list (DetailedPropertyListing.t F))
    : list (DetailedPropertyListing.t F) :=
  py_sorted (descending_by overall_key) detailed_listings.

(** [sorted(listings, key=lambda x: x.price_per_night)[:5]] *)
Definition top_listings (listings : list (PropertyListing.t F))
    : list (PropertyListing.t F) :=
  firstn 5 (py_sorted (ascending_by PropertyListing.price_per_night) listings).

Definition budget_options (criteria : SearchCriteria.t F)
    (detailed_listings : list (DetailedPropertyListing.t F)) :=
  let budget_threshold :=
    fmul (SearchCriteria.max_price_per_night criteria) (dec 8 1) in
  filter (fun l => fleb (DetailedPropertyListing.price_per_night l)
                        budget_threshold)
         detailed_listings.

Definition premium_options (criteria : SearchCriteria.t F)
    (detailed_listings : list (DetailedPropertyListing.t F)) :=
  let premium_threshold :=
    fmul (SearchCriteria.max_price_per_night criteria) (dec 12 1) in
  filter (fun l => fleb premium_threshold
                        (DetailedPropertyListing.price_per_night l))
         detailed_listings.

Definition best_value
    (detailed_listings : list (DetailedPropertyListing.t F)) :=
  firstn 5 detailed_listings.

Record cohorts : Type := mk_cohorts {
  ranked : list (DetailedPropertyListing.t F);
  best_value_properties : list (DetailedPropertyListing.t F);
  budget : list (DetailedPropertyListing.t F);
  premium : list (DetailedPropertyListing.t F)
}.

(** The first loop of [analyze_search_results]: the pages of the five
    cheapest listings of every platform are visited, in the order of the
    dictionary.  [pages] is the outcome of each visit. *)
Definition collect_detailed
    (pages : PropertyListing.t F -> result (DetailedInfo.t F))
    (results : list (string * list (PropertyListing.t F)))
    : list (DetailedPropertyListing.t F) :=
  flat_map
    (fun entry =>
       map (fun listing => get_detailed_property_info (pages listing) listing)
           (top_listings (snd entry)))
    results.

(** Scoring, ranking and categorisation of the detailed listings. *)
Definition rank_and_classify (criteria : SearchCriteria.t F)
    (detailed_listings : list (DetailedPropertyListing.t F))
    : result cohorts :=
  scored <- score_listings criteria detailed_listings ;;
  let sorted_listings := sort_by_overall_score scored in
  Ok (mk_cohorts sorted_listings
        (best_value sorted_listings)
        (budget_options criteria sorted_listings)
        (premium_options criteria sorted_listings)).

End Ranking.

(** ** Market aggregator *)

(** Dictionaries keep insertion order: association lists in which a key
    occurs once. *)
Module Dict.

Fixpoint get {V} (k : string) (d : list (string * V)) : option V :=
  match d with
  | [] => None
  | (k', v) :: rest => if String.eqb k k' then Some v else get k rest
  end.

Fixpoint set {V} (k : string) (v : V) (d : list (string * V))
    : list (string * V) :=
  match d with
  | [] => [(k, v)]
  | (k', v') :: rest =>
      if String.eqb k k' then (k, v) :: rest else (k', v') :: set k v rest
  end.

End Dict.

Module PlatformStats.
Record t (F : Type) : Type := mk {
  count : Z;
  avg_price : F;
  prices : list F
}.
Arguments mk {F}.
Arguments count {F}.
Arguments avg_price {F}.
Arguments prices {F}.
End PlatformStats.

Section MarketInsights.
Context {F : Type} `{PyFloat F}.
Local Open Scope py_scope.

(** NumPy is outside the repository: its reductions are parameters. *)
Variables np_mean np_median np_std : list F -> F.

Inductive insight : Type :=
| PriceDistribution (min max median std : F)
| PlatformComparison (platform_stats : list (string * PlatformStats.t F))
| PopularAmenities (top : list (string * Z)).

(** First loop over the listings: count and prices per platform. *)
Definition add_platform (stats : list (string * PlatformStats.t F))
    (listing : DetailedPropertyListing.t F) :=
  let platform := DetailedPropertyListing.platform listing in
  let entry :=
    match Dict.get platform stats with
    | Some e => e
    | None => PlatformStats.mk 0 (of_int 0) []
    end in
  Dict.set platform
    (PlatformStats.mk (PlatformStats.count entry + 1)%Z
       (PlatformStats.avg_price entry)
       (PlatformStats.prices entry
          ++ [DetailedPropertyListing.price_per_night listing]))
    stats.

Definition set_avg_price (entry : string * PlatformStats.t F) :=
  (fst entry,
   PlatformStats.mk (PlatformStats.count (snd entry))
     (np_mean (PlatformStats.prices (snd entry)))
     (PlatformStats.prices (snd entry))).

(** [amenity_counts[amenity] = amenity_counts.get(amenity, 0) + 1] *)
Definition count_amenity (counts : list (string * Z)) (amenity : string) :=
  Dict.set amenity
    (match Dict.get amenity counts with Some n => n | None => 0%Z end + 1)%Z
    counts.

Definition popular_amenities
    (listings : list (DetailedPropertyListing.t F)) : list (string * Z) :=
  let amenity_counts :=
    fold_left
      (fun counts listing =>
         fold_left count_amenity (DetailedPropertyListing.amenities listing)
                   counts)
      listings [] in
  firstn 10 (py_sorted (fun a b => (snd b <? snd a)%Z) amenity_counts).

Definition generate_market_insights
    (listings : list (DetailedPropertyListing.t F))
    (criteria : SearchCriteria.t F) : result (list (string * insight)) :=
  let insights := [] in
  if negb (nonempty listings) then Ok insights
  else
    (* Price distribution *)
    let prices :=
      filter (fun p => fltb (of_int 0) p)
             (map DetailedPropertyListing.price_per_night listings) in
    lowest <- py_min_list prices ;;
    highest <- py_max_list prices ;;
    let insights :=
      Dict.set "price_distribution"
        (PriceDistribution lowest highest (np_median prices) (np_std prices))
        insights in
    (* Platform comparison *)
    let platform_stats := fold_left add_platform listings [] in
    let platform_stats := map set_avg_price platform_stats in
    let insights :=
      Dict.set "platform_comparison" (PlatformComparison platform_stats)
               insights in
    (* Amenity analysis *)
    let insights :=
      Dict.set "popular_amenities"
        (PopularAmenities (popular_amenities listings)) insights in
    Ok insights.

End MarketInsights.

(** ** Reference quantities used in the statements *)

(** What each block of [calculate_value_score] adds to the running total,
    in exact arithmetic. *)
Module Contribution.

Definition price_points (l : DetailedPropertyListing.t Q)
    (c : SearchCriteria.t Q) : Q :=
  let p := DetailedPropertyListing.price_per_night l in
  if fltb 0 p
  then Qmax 0 (100 - (p / SearchCriteria.max_price_per_night c) * 100) * (2#5)
  else 0.

Definition amenity_points (l : DetailedPropertyListing.t Q)
    (c : SearchCriteria.t Q) : Q :=
  if nonempty (DetailedPropertyListing.amenities l)
  then inject_Z (len (matching_amenities
                        (SearchCriteria.amenities c)
                        (DetailedPropertyListing.amenities l)))
       / inject_Z (len (SearchCriteria.amenities c)) * 100 * (3#10)
  else 0.

Definition rating_points (l : DetailedPropertyListing.t Q) : Q :=
  match DetailedPropertyListing.rating l with
  | Some r => r / 5 * 100 * (1#5)
  | None => 0
  end.

Definition host_points (l : DetailedPropertyListing.t Q) : Q :=
  match DetailedPropertyListing.host_rating l with
  | Some r => r / 5 * 100 * (1#10)
  | None => 0
  end.

(** The amenity block divides by [len(criteria.amenities)] exactly when
    the listing has amenities. *)
Definition amenity_block_safe (l : DetailedPropertyListing.t Q)
    (c : SearchCriteria.t Q) : Prop :=
  DetailedPropertyListing.amenities l = [] \/ SearchCriteria.amenities c <> [].

End Contribution.

(** ** Inputs of the worked examples *)

Module Examples.

Definition listing {F} (platform title : string) (price : F) (place : string)
    (rating : option F) (amenities : list string)
    : DetailedPropertyListing.t F :=
  DetailedPropertyListing.of_base
    (PropertyListing.mk platform title price price place rating None
       amenities "https://example.org/rooms/1" "apartment" None false None).

(** The criteria of [main]: budget 40, default amenities. *)
Definition criteria {F} `{PyFloat F} : SearchCriteria.t F :=
  SearchCriteria.init "Bar, Montenegro" "2024-09-01" "2024-09-15" 2
    (dec 400 1) None None.

(** The same search with an empty amenity list. *)
Definition criteria_no_amenities {F} `{PyFloat F} : SearchCriteria.t F :=
  SearchCriteria.init "Bar, Montenegro" "2024-09-01" "2024-09-15" 2
    (dec 400 1) None (Some []).

Definition L1 {F} `{PyFloat F} : DetailedPropertyListing.t F :=
  listing "Airbnb" "L1" (dec 350 1) "Bar" (Some (dec 45 1))
          ["kitchen"; "wifi"]%string.

Definition L2 {F} `{PyFloat F} : DetailedPropertyListing.t F :=
  listing "Booking.com" "L2" (dec 500 1) "Bar" (Some (dec 40 1))
          ["kitchen"; "wifi"; "air_conditioning"]%string.

(** A listing whose price text could not be parsed. *)
Definition unpriced {F} `{PyFloat F} : DetailedPropertyListing.t F :=
  listing "Airbnb" "Studio" (dec 0 1) "Bar" None [].

(** Two scored listings with the same overall score. *)
Definition scored {F} `{PyFloat F} (title : string) (price overall : F)
    : DetailedPropertyListing.t F :=
  DetailedPropertyListing.set_scores
    (listing "Airbnb" title price "Bar" None []) (of_int 100) (of_int 80)
    overall.

(** A search for Budva and a listing there. *)
Definition criteria_budva {F} `{PyFloat F} : SearchCriteria.t F :=
  SearchCriteria.init "Budva, Montenegro" "2024-09-01" "2024-09-15" 2
    (dec 400 1) None None.

Definition in_budva {F} `{PyFloat F} : DetailedPropertyListing.t F :=
  listing "Airbnb" "Old town flat" (dec 350 1) "Budva, Montenegro" None [].

Definition A {F} `{PyFloat F} := scored "A" (of_int 30) (of_int 90).
Definition B {F} `{PyFloat F} := scored "B" (of_int 25) (of_int 90).




End Examples.

(** ** The location policy in the words of the specification *)

Module Spec.

(** Text up to the first comma. *)
Fixpoint before_comma (s : string) : string :=
  match s with
  | EmptyString => EmptyString
  | String c s' =>
      if Ascii.eqb c ","%char then EmptyString else String c (before_comma s')
  end.

(** "The search's primary locale token (derived from criteria.location)":
    the leading component of the search location, in lower case, so that
    the search for "Bar, Montenegro" has the token "bar". *)
Definition primary_locale_token {F} (criteria : SearchCriteria.t F) : string :=
  Text.lower (before_comma (SearchCriteria.location criteria)).

Definition nearby_locale_tokens : list string :=
  ["sutomore"; "petrovac"]%string.

(** "Listing location text containing the search's primary locale token
    scores 80; containing any of a small fixed set of nearby-locale tokens
    scores 60; otherwise 40." *)
Definition location_score (listing : DetailedPropertyListing.t Q)
    (criteria : SearchCriteria.t Q) : Q :=
  let place := Text.lower (DetailedPropertyListing.location listing) in
  if Text.contains (primary_locale_token criteria) place then 80
  else if existsb (fun token => Text.contains token place)
                  nearby_locale_tokens
       then 60
       else 40.

End Spec.

(** ** Price texts in the words of the specification

    "A single well-formed number (optionally with thousands separators and
    a currency symbol)": an integer part, written as plain digits or in
    groups of three separated by commas, and optionally a point followed by
    at least one digit; around it, text without digits.  A digit is a
    decimal digit of any script. *)

Module PriceText.
Section Words.
Import Unicode.
Context {I : Interpreter}.

Definition no_digit (s : str) : bool :=
  Text.all_chars (fun c => negb (Text.is_digit c)) s.

(** A sequence of blocks [,ddd]. *)
Fixpoint groups_of_three (s : str) : bool :=
  match s with
  | [] => true
  | sep :: a :: b :: c :: rest =>
      (sep =? comma)%N
      && Text.is_digit a && Text.is_digit b && Text.is_digit c
      && groups_of_three rest
  | _ => false
  end.

(** [d+] or [d{1,3}(,ddd)*] *)
Definition integer_part (s : str) : bool :=
  let (lead, rest) := Text.span Text.is_digit s in
  negb (Text.is_empty lead)
  && (Text.is_empty rest
      || ((List.length lead <=? 3)%nat && groups_of_three rest)).

Definition fraction_part (frac : option str) : bool :=
  match frac with
  | None => true
  | Some f => negb (Text.is_empty f) && Text.all_chars Text.is_digit f
  end.

Definition well_formed_number (int_part : str) (frac : option str) : bool :=
  integer_part int_part && fraction_part frac.

Definition number_text (int_part : str) (frac : option str) : str :=
  match frac with
  | None => int_part
  | Some f => int_part ++ point :: f
  end.

Fixpoint count_digits (s : str) : nat :=
  match s with
  | [] => O
  | c :: s' =>
      if Text.is_digit c then S (count_digits s') else count_digits s'
  end.

(** Positional value of the digits of the integer part; the separators
    carry no value. *)
Fixpoint integer_value (s : str) : Z :=
  match s with
  | [] => 0
  | c :: s' =>
      if Text.is_digit c
      then Text.digit_value c * 10 ^ Z.of_nat (count_digits s')
           + integer_value s'
      else integer_value s'
  end.

(** Value of the digits after the point: tenths, hundredths, ... *)
Fixpoint fraction_value (s : str) : Q :=
  match s with
  | [] => 0
  | c :: s' => (inject_Z (Text.digit_value c) + fraction_value s') / 10
  end.

Definition number_value (int_part : str) (frac : option str) : Q :=
  inject_Z (integer_value int_part)
  + match frac with
    | None => 0
    | Some f => fraction_value f
    end.

(** The same number as a count of units of the last decimal place, and
    the number of decimal places. *)
Definition decimal_places (frac : option str) : nat :=
  match frac with
  | None => O
  | Some f => List.length f
  end.

Definition scaled_value (int_part : str) (frac : option str) : Z :=
  match frac with
  | None => integer_value int_part
  | Some f =>
      integer_value int_part * 10 ^ Z.of_nat (List.length f)
      + integer_value f
  end.

End Words.
End PriceText.

(** ** Further reference notions *)

Module Listing.

(** The listing with another rating. *)
Definition with_rating {F} (d : DetailedPropertyListing.t F)
    (r : option F) : DetailedPropertyListing.t F :=
  let b := DetailedPropertyListing.base d in
  DetailedPropertyListing.with_base d
    (PropertyListing.mk
       (PropertyListing.platform b) (PropertyListing.title b)
       (PropertyListing.price_per_night b) (PropertyListing.total_price b)
       (PropertyListing.location b) r (PropertyListing.review_count b)
       (PropertyListing.amenities b) (PropertyListing.url b)
       (PropertyListing.property_type b) (PropertyListing.host_name b)
       (PropertyListing.instant_book b)
       (PropertyListing.cancellation_policy b)).

(** A rating, when there is one, lies between 0 and 5. *)
Definition rating_in_range (r : option Q) : Prop :=
  match r with
  | Some x => (0 <= x <= 5)%Q
  | None => True
  end.

End Listing.

(** What the scoring loop of [analyze_search_results] makes of a listing
    that can be scored. *)
Definition scored_from {F} `{PyFloat F} (criteria : SearchCriteria.t F)
    (l s : DetailedPropertyListing.t F) : Prop :=
  exists v,
    calculate_value_score l criteria = Ok v
    /\ s = DetailedPropertyListing.set_scores l v
             (calculate_location_score l criteria)
             (fdiv (fadd v (calculate_location_score l criteria)) (of_int 2)).

(** The quantities the market aggregator reports on. *)
Module Market.

(** The prices that enter the price distribution. *)
Definition positive_prices {F} `{PyFloat F}
    (listings : list (DetailedPropertyListing.t F)) : list F :=
  filter (fun p => fltb (of_int 0) p)
         (map DetailedPropertyListing.price_per_night listings).

(** The listings of one platform, in their order. *)
Definition listings_of {F} (platform : string)
    (listings : list (DetailedPropertyListing.t F))
    : list (DetailedPropertyListing.t F) :=
  filter (fun l => String.eqb platform (DetailedPropertyListing.platform l))
         listings.

(** All amenity entries of all listings, repetitions included. *)
Definition all_amenities {F} (listings : list (DetailedPropertyListing.t F))
    : list string :=
  flat_map DetailedPropertyListing.amenities listings.

Definition occurrences (a : string) (xs : list string) : Z :=
  Z.of_nat (count_occ string_dec xs a).

(** The entry of a platform: none when it has no listing, else the number
    of its listings, the mean of their prices and the prices. *)
Definition platform_entry {F} (platform : string)
    (listings : list (DetailedPropertyListing.t F)) (avg : list F -> F)
    : option (PlatformStats.t F) :=
  match listings_of platform listings with
  | [] => None
  | mine =>
      Some (PlatformStats.mk (len mine)
              (avg (map DetailedPropertyListing.price_per_night mine))
              (map DetailedPropertyListing.price_per_night mine))
  end.

(** The count recorded for a key, 0 when there is none. *)
Definition count_of (a : string) (d : list (string * Z)) : Z :=
  match Dict.get a d with Some n => n | None => 0%Z end.

End Market.

(** Runs of digits and commas as they occur in price texts, well grouped
    or not. *)
Module PriceRun.
Section Runs.
Import Unicode.
Context {I : Interpreter}.

(** A non-empty string of digits and commas that starts with a digit. *)
Definition digit_led (s : str) : bool :=
  match s with
  | [] => false
  | c :: _ => Text.is_digit c
  end
  && Text.all_chars Text.price_char s.

(** The characters that can continue a number: digit, comma, point. *)
Definition number_char (c : char) : bool :=
  Text.price_char c || (c =? point)%N.

End Runs.
End PriceRun.

(** ** Scraped elements

    What the scrapers read from a page is an input of the model: an
    element that is not found ([find_element] raises) is [None], an
    element that is found is its text.  [float] in its full syntax,
    [str.lower] and the formatting of floats in f-strings are built into
    Python; they are parameters. *)

Class PyBuiltins (F : Type) : Type := {
  py_float : Unicode.str -> result F;
  str_lower : Unicode.str -> Unicode.str;
  str_float : F -> string;
  format_0f : F -> string
}.

Module Scan.
Import Unicode.

Fixpoint drop_while (p : char -> bool) (s : str) : str :=
  match s with
  | [] => []
  | c :: s' => if p c then drop_while p s' else s
  end.

(** The string without the characters of [p] at its end. *)
Fixpoint rstrip (p : char -> bool) (s : str) : str :=
  match s with
  | [] => []
  | c :: s' =>
      match rstrip p s' with
      | [] => if p c then [] else [c]
      | rest => c :: rest
      end
  end.

(** [s.strip()] *)
Definition strip (s : str) : str :=
  rstrip is_space (drop_while is_space s).

(** [s.split()[0]]; [None] stands for the [IndexError] of an empty
    split. *)
Definition first_token (s : str) : option str :=
  let (token, _) :=
    Text.span (fun c => negb (is_space c)) (drop_while is_space s) in
  if Text.is_empty token then None else Some token.

(** [s.split(sep)] for a one-character separator: always at least one
    piece. *)
Fixpoint split_on (sep : char) (s : str) : list str :=
  match s with
  | [] => [[]]
  | c :: s' =>
      if (c =? sep)%N then [] :: split_on sep s'
      else match split_on sep s' with
           | piece :: pieces => (c :: piece) :: pieces
           | [] => [[c]]
           end
  end.

Section Digits.
Context {I : Interpreter}.

(** [re.search(r'\d+', s)]: the first maximal run of digits. *)
Fixpoint first_digits (s : str) : option str :=
  match s with
  | [] => None
  | c :: s' =>
      if Text.is_digit c then Some (fst (Text.span Text.is_digit s))
      else first_digits s'
  end.

(** Digits with single underscores between them: their value and their
    number. *)
Fixpoint digits_with_underscores (acc : Z) (count : nat) (after_digit : bool)
    (s : str) : option (Z * nat) :=
  match s with
  | [] => if after_digit then Some (acc, count) else None
  | c :: s' =>
      if Text.is_digit c
      then digits_with_underscores (10 * acc + Text.digit_value c) (S count)
             true s'
      else if (c =? underscore)%N && after_digit
           then digits_with_underscores acc count false s'
           else None
  end.

(** More digits than [int] converts. *)
Definition too_many_digits (count : nat) : bool :=
  (0 <? int_max_str_digits)%nat && (int_max_str_digits <? count)%nat.

(** [int(s)] in base 10: white space around, an optional sign, then
    digits of any script; anything else is a [ValueError]. *)
Definition py_int (s : str) : result Z :=
  let unsigned (digits : str) (sign : Z) : result Z :=
    match digits_with_underscores 0 0 false digits with
    | Some (n, count) =>
        if too_many_digits count then Raise ValueError else Ok (sign * n)%Z
    | None => Raise ValueError
    end in
  match rstrip is_int_space (drop_while is_int_space s) with
  | [] => Raise ValueError
  | c :: digits =>
      if (c =? plus_sign)%N then unsigned digits 1%Z
      else if (c =? minus_sign)%N then unsigned digits (-1)%Z
      else unsigned (c :: digits) 1%Z
  end.

End Digits.

End Scan.

(** A result card: the elements [parse_booking_card] and
    [parse_airbnb_card] look for. *)
Module Card.
Record t : Type := mk {
  title : option string;
  price : option Unicode.str;
  address : option string;
  review_score : option Unicode.str;
  link : option string
}.
End Card.

Section Scrapers.
Context {F : Type} `{PyFloat F} `{PyBuiltins F} {I : Interpreter}.
Local Open Scope py_scope.

(** [card.find_element(...).text] *)
Definition find_text {A : Type} (element : option A) : result A :=
  match element with
  | Some text => Ok text
  | None => Raise WebDriverException
  end.

(** [try: rating = float(element.text.split()[0]) except: rating = None] *)
Definition parse_rating (element : option Unicode.str) : option F :=
  match element with
  | None => None
  | Some text =>
      match Scan.first_token text with
      | None => None
      | Some token =>
          match py_float token with
          | Ok rating => Some rating
          | Raise _ => None
          end
      end
  end.

(** The body shared by the two card parsers, which differ in the
    selectors, the platform name and the property type. *)
Definition parse_card (platform property_type : string) (card : Card.t)
    : option (PropertyListing.t F) :=
  try_except
    (title <- find_text (Card.title card) ;;
     price_text <- find_text (Card.price card) ;;
     let price_per_night := extract_price price_text in
     location <- find_text (Card.address card) ;;
     let rating := parse_rating (Card.review_score card) in
     url <- find_text (Card.link card) ;;
     Ok (Some (PropertyListing.mk platform title price_per_night
                 price_per_night location rating None [] url property_type
                 None false None)))
    None.

Definition parse_booking_card : Card.t -> option (PropertyListing.t F) :=
  parse_card "Booking.com" "apartment".

Definition parse_airbnb_card : Card.t -> option (PropertyListing.t F) :=
  parse_card "Airbnb" "entire_place".

(** [extract_booking_results] and [extract_airbnb_results]: the first 20
    cards are parsed and those that give a listing are kept; when no card
    shows up in time the list is empty. *)
Definition extract_results (parse : Card.t -> option (PropertyListing.t F))
    (cards : result (list Card.t)) : list (PropertyListing.t F) :=
  try_except
    (property_cards <- cards ;;
     Ok (flat_map
           (fun card =>
              match parse card with
              | Some listing => [listing]
              | None => []
              end)
           (firstn 20 property_cards)))
    [].

Definition extract_booking_results := extract_results parse_booking_card.
Definition extract_airbnb_results := extract_results parse_airbnb_card.

(** [search_accommodations]: both platforms, Booking.com first.  The cards
    of a platform are [Raise] when the search of that platform fails. *)
Definition search_accommodations (booking airbnb : result (list Card.t))
    : list (string * list (PropertyListing.t F)) :=
  let results := [] in
  let results := Dict.set "booking_com" (extract_booking_results booking)
                          results in
  let results := Dict.set "airbnb" (extract_airbnb_results airbnb) results in
  results.

End Scrapers.

(** A property page: the elements [extract_detailed_property_info] looks
    for.  [find_elements] gives the texts of the elements found, or fails
    with the driver. *)
Module HostProfile.
Record t : Type := mk {
  name : option string;
  rating : option Unicode.str;
  response_time : option string
}.
End HostProfile.

Module PropertyPage.
Record t : Type := mk {
  description : option string;
  property_details : result (list Unicode.str);
  price_breakdown : result (list Unicode.str);
  host_profile : option HostProfile.t;
  amenities : result (list string);
  house_rules : result (list string)
}.
End PropertyPage.

Section PageReader.
Context {F : Type} `{PyFloat F} `{PyBuiltins F} {I : Interpreter}.

(** [int(re.search(r'\d+', text).group())]; [None] stands for the
    exception raised: [AttributeError] when there is no digit,
    [ValueError] when [int] refuses the digits for their number. *)
Definition search_int (text : Unicode.str) : option Z :=
  match Scan.first_digits text with
  | Some digits =>
      match Scan.py_int digits with
      | Ok n => Some n
      | Raise _ => None
      end
  | None => None
  end.

(** The loop over the property details, on the keys ['bedrooms'],
    ['bathrooms'] and ['max_guests'].  An exception leaves the loop; what
    was assigned before stays. *)
Fixpoint read_details (elements : list Unicode.str)
    (found : option Z * option Z * option Z)
    : option Z * option Z * option Z :=
  match elements with
  | [] => found
  | element :: rest =>
      let '(bedrooms, bathrooms, max_guests) := found in
      let text := str_lower element in
      if Text.has (Unicode.of_string "bedroom") text then
        match search_int text with
        | Some n => read_details rest (Some n, bathrooms, max_guests)
        | None => found
        end
      else if Text.has (Unicode.of_string "bathroom") text then
        match search_int text with
        | Some n => read_details rest (bedrooms, Some n, max_guests)
        | None => found
        end
      else if Text.has (Unicode.of_string "guest") text then
        match search_int text with
        | Some n => read_details rest (bedrooms, bathrooms, Some n)
        | None => found
        end
      else read_details rest found
  end.

(** The loop over the price breakdown, on the keys ['cleaning_fee'],
    ['service_fee'], ['taxes'] and ['security_deposit']. *)
Fixpoint read_fees (elements : list Unicode.str)
    (found : option F * option F * option F * option F)
    : option F * option F * option F * option F :=
  match elements with
  | [] => found
  | element :: rest =>
      let '(cleaning, service, taxes, deposit) := found in
      let text := str_lower element in
      if Text.has (Unicode.of_string "cleaning") text then
        read_fees rest (Some (extract_price text), service, taxes, deposit)
      else if Text.has (Unicode.of_string "service") text then
        read_fees rest (cleaning, Some (extract_price text), taxes, deposit)
      else if Text.has (Unicode.of_string "tax") text then
        read_fees rest (cleaning, service, Some (extract_price text), deposit)
      else if Text.has (Unicode.of_string "deposit") text then
        read_fees rest (cleaning, service, taxes, Some (extract_price text))
      else read_fees rest found
  end.

(** The host block: without the profile or without the name in it nothing
    is assigned; with the name, the rating and the response time are
    tried in turn. *)
Definition read_host (profile : option HostProfile.t)
    : option string * option F * option string :=
  match profile with
  | None => (None, None, None)
  | Some host_section =>
      match HostProfile.name host_section with
      | None => (None, None, None)
      | Some host_name =>
          (Some host_name,
           parse_rating (HostProfile.rating host_section),
           HostProfile.response_time host_section)
      end
  end.

(** [[elem.text for elem in find_elements(...)]], [[]] on an exception. *)
Definition read_list {A : Type} (elements : result (list A)) : list A :=
  try_except elements [].

(** [extract_detailed_property_info]: every block sits in its own
    [try ... except], so the dictionary is always returned; the blocks
    assign disjoint keys. *)
Definition extract_detailed_property_info (page : PropertyPage.t)
    : DetailedInfo.t F :=
  let '(bedrooms, bathrooms, max_guests) :=
    read_details (read_list (PropertyPage.property_details page))
                 (None, None, None) in
  let '(cleaning_fee, service_fee, taxes, security_deposit) :=
    read_fees (read_list (PropertyPage.price_breakdown page))
              (None, None, None, None) in
  let '(host_name, host_rating, host_response_time) :=
    read_host (PropertyPage.host_profile page) in
  DetailedInfo.mk
    (Some (PropertyPage.description page))
    bedrooms bathrooms max_guests
    cleaning_fee service_fee taxes security_deposit
    host_name host_rating host_response_time
    (Some (read_list (PropertyPage.amenities page)))
    (Some (read_list (PropertyPage.house_rules page))).

(** The page of a listing as [get_detailed_property_info] sees it: the
    navigation fails, or the page is read. *)
Definition visit (page : result PropertyPage.t) : result (DetailedInfo.t F) :=
  match page with
  | Ok p => Ok (extract_detailed_property_info p)
  | Raise e => Raise e
  end.

End PageReader.

(** ** Recommendations and the analysis as a whole *)

Module SearchAnalysis.
Record t (F : Type) (I : Type) : Type := mk {
  total_properties_found : Z;
  average_price_per_night : F;
  price_range : F * F;
  best_value_properties : list (DetailedPropertyListing.t F);
  budget_options : list (DetailedPropertyListing.t F);
  premium_options : list (DetailedPropertyListing.t F);
  recommendations : list string;
  market_insights : list (string * I)
}.
Arguments mk {F I}.
Arguments total_properties_found {F I}.
Arguments average_price_per_night {F I}.
Arguments price_range {F I}.
Arguments best_value_properties {F I}.
Arguments budget_options {F I}.
Arguments premium_options {F I}.
Arguments recommendations {F I}.
Arguments market_insights {F I}.
End SearchAnalysis.

Section Recommendations.
Context {F : Type} `{PyFloat F} `{PyBuiltins F}.
Variables np_mean np_median np_std : list F -> F.
Local Open Scope py_scope.
Local Open Scope string_scope.

(** [str(n)] for a length. *)
Definition str_len {A} (l : list A) : string :=
  NilEmpty.string_of_uint (Nat.to_uint (List.length l)).

(** [max(x :: rest, key=key)]: the first of the greatest. *)
Definition py_max_by {A} (key : A -> F) (x : A) (rest : list A) : A :=
  fold_left (fun best y => if fltb (key best) (key y) then y else best)
            rest x.

(** [lambda x: x.value_score or 0] *)
Definition value_key (x : DetailedPropertyListing.t F) : F :=
  match DetailedPropertyListing.value_score x with
  | Some s => if truthy s then s else of_int 0
  | None => of_int 0
  end.

Definition no_properties_message : string :=
  "No properties found matching your criteria. Consider expanding your search area or adjusting your budget.".

Definition above_budget_message (avg_price : F) : string :=
  "Average price ($" ++ format_0f avg_price
  ++ ") is above your budget. Consider traveling in shoulder season or expanding your search area.".

Definition best_value_message (best_value : DetailedPropertyListing.t F)
    : string :=
  "Best value option: " ++ DetailedPropertyListing.title best_value
  ++ " at $" ++ str_float (DetailedPropertyListing.price_per_night best_value)
  ++ "/night".

Definition bar_area_message (bar_properties : list (DetailedPropertyListing.t F))
    : string :=
  "Found " ++ str_len bar_properties
  ++ " properties in Bar area - ideal for your location preference".

Definition instant_book_message
    (instant_book_properties : list (DetailedPropertyListing.t F)) : string :=
  str_len instant_book_properties
  ++ " properties offer instant booking for immediate confirmation".

Definition generate_recommendations
    (listings : list (DetailedPropertyListing.t F))
    (criteria : SearchCriteria.t F) : list string :=
  match listings with
  | [] => [no_properties_message]
  | first :: others =>
      (* Price analysis *)
      let avg_price := np_mean (Market.positive_prices listings) in
      let recommendations :=
        if fltb (SearchCriteria.max_price_per_night criteria) avg_price
        then [above_budget_message avg_price] else [] in
      (* Best value recommendations *)
      let best_value := py_max_by value_key first others in
      let recommendations :=
        (recommendations ++ [best_value_message best_value])%list in
      (* Location recommendations *)
      let bar_properties :=
        filter (fun l => Text.contains "bar"
                           (Text.lower (DetailedPropertyListing.location l)))
               listings in
      let recommendations :=
        if nonempty bar_properties
        then (recommendations ++ [bar_area_message bar_properties])%list
        else recommendations in
      (* Booking recommendations *)
      let instant_book_properties :=
        filter (fun l => PropertyListing.instant_book
                           (DetailedPropertyListing.base l))
               listings in
      if nonempty instant_book_properties
      then (recommendations
            ++ [instant_book_message instant_book_properties])%list
      else recommendations
  end.

(** [analyze_search_results].  [pages] is the outcome of visiting the page
    of a listing. *)
Definition analyze_search_results
    (pages : PropertyListing.t F -> result (DetailedInfo.t F))
    (results : list (string * list (PropertyListing.t F)))
    (criteria : SearchCriteria.t F)
    : result (SearchAnalysis.t F (@insight F)) :=
  let all_listings := flat_map snd results in
  let detailed_listings := collect_detailed pages results in
  (* Calculate scores for detailed listings *)
  detailed_listings <- score_listings criteria detailed_listings ;;
  (* Sort by overall score *)
  let detailed_listings := sort_by_overall_score detailed_listings in
  (* Calculate statistics *)
  let prices :=
    filter (fun p => fltb (of_int 0) p)
           (map PropertyListing.price_per_night all_listings) in
  let avg_price := if nonempty prices then np_mean prices else of_int 0 in
  price_range <-
    (if nonempty prices
     then lowest <- py_min_list prices ;;
          highest <- py_max_list prices ;;
          Ok (lowest, highest)
     else Ok (of_int 0, of_int 0)) ;;
  (* Categorize properties *)
  let budget := budget_options criteria detailed_listings in
  let premium := premium_options criteria detailed_listings in
  let best := best_value detailed_listings in
  (* Generate recommendations *)
  let recommendations := generate_recommendations detailed_listings criteria in
  (* Market insights *)
  market_insights <-
    generate_market_insights np_mean np_median np_std detailed_listings
                             criteria ;;
  Ok (SearchAnalysis.mk (len all_listings) avg_price price_range best budget
        premium recommendations market_insights).

End Recommendations.

(** ** Sample inputs of the further properties *)

Module Samples.

(** [s.lower()] on ASCII text. *)
Definition ascii_lower (s : Unicode.str) : Unicode.str :=
  map (fun c => if (Unicode.between 65 90 c)%N then (c + 32)%N else c) s.

(** Built-ins for the examples: [float] on plain numerals, [lower] on
    ASCII text, and formats that print the integer part. *)
Definition builtins : PyBuiltins Q := {|
  py_float := float_of_str (I := cpython_3_11);
  str_lower := ascii_lower;
  str_float := fun x => NilEmpty.string_of_int (Z.to_int (Qnum x / QDen x));
  format_0f := fun x => NilEmpty.string_of_int (Z.to_int (Qnum x / QDen x))
|}.

Definition np_zero : list Q -> Q := fun _ => 0%Q.

Definition card : Card.t :=
  Card.mk (Some "Sea view flat"%string)
          (Some (Unicode.of_string "US$35 per night"))
          (Some "Bar, Montenegro"%string)
          (Some (Unicode.of_string "4.5 (12 reviews)"))
          (Some "https://example.org/rooms/7"%string).

(** A card whose price text holds no number. *)
Definition card_without_price : Card.t :=
  Card.mk (Some "Old town studio"%string)
          (Some (Unicode.of_string "Price on request"))
          (Some "Bar, Montenegro"%string) None
          (Some "https://example.org/rooms/8"%string).

Definition page : PropertyPage.t :=
  PropertyPage.mk (Some "Bright flat near the beach"%string)
    (Ok (map Unicode.of_string ["2 bedrooms"; "1 bathroom"; "4 guests"]%string))
    (Ok (map Unicode.of_string ["Cleaning fee $20"; "Service fee $5"]%string))
    (Some (HostProfile.mk (Some "Ana"%string)
             (Some (Unicode.of_string "4.9 rating")) None))
    (Ok ["Wifi"; "Kitchen"]%string)
    (Ok ["No smoking"]%string).

Definition listing_of (c : Card.t) : PropertyListing.t Q :=
  match parse_airbnb_card (H0 := builtins) (I := cpython_3_11) c with
  | Some l => l
  | None => DetailedPropertyListing.base (Examples.unpriced (F:=Q))
  end.

(** Price texts: a signed number, a number that starts with its point, and
    a price in Arabic-Indic digits. *)
Definition signed_price : Unicode.str := Unicode.of_string "-5.50".
Definition pointed_price : Unicode.str := Unicode.of_string "$.99".
Definition arabic_indic_price : Unicode.str := [1635; 1637]%N.

End Samples.

(** ** Command line: the amenity selection *)

Module Cli.
Section Selection.
Context {I : Interpreter}.

Definition available_amenities : list string :=
  ["kitchen"; "wifi"; "air_conditioning"; "parking"; "washer";
   "dryer"; "tv"; "balcony"; "garden"; "pool"; "beach_access";
   "restaurant"; "gym"; "spa"; "pet_friendly"]%string.

Definition default_selection : list string :=
  ["kitchen"; "wifi"; "air_conditioning"]%string.

(** [[int(x.strip()) - 1 for x in user_input.split(",")]] *)
Fixpoint selected_indices (pieces : list Unicode.str) : result (list Z) :=
  match pieces with
  | [] => Ok []
  | x :: rest =>
      bind (Scan.py_int (Scan.strip x)) (fun n =>
      bind (selected_indices rest) (fun others =>
      Ok ((n - 1)%Z :: others)))
  end.

(** [[available_amenities[i] for i in selected_indices
      if 0 <= i < len(available_amenities)]] *)
Definition amenities_at (indices : list Z) : list string :=
  flat_map
    (fun i =>
       if ((0 <=? i) && (i <? len available_amenities))%Z
       then match nth_error available_amenities (Z.to_nat i) with
            | Some amenity => [amenity]
            | None => []
            end
       else [])
    indices.

(** [select_amenities], as a function of the line the user types. *)
Definition select_amenities (line : Unicode.str) : list string :=
  let user_input := Scan.strip line in
  if Text.is_empty user_input then default_selection
  else
    try_except
      (bind (selected_indices (Scan.split_on Unicode.comma user_input))
         (fun indices =>
       let selected_amenities := amenities_at indices in
       Ok (if nonempty selected_amenities then selected_amenities
           else default_selection)))
      default_selection.

End Selection.
End Cli.

(** ** Booking assistant *)

Section BookingAssistant.
Context {F : Type} `{PyFloat F} `{PyBuiltins F}.
Local Open Scope string_scope.

Definition newline : string := String (ascii_of_nat 10) EmptyString.

Definition str_nat (n : nat) : string :=
  NilEmpty.string_of_uint (Nat.to_uint n).

(** The listings of the best-value cohort within the budget. *)
Definition within_budget (criteria : SearchCriteria.t F)
    (best_value_properties : list (DetailedPropertyListing.t F))
    : list (DetailedPropertyListing.t F) :=
  filter (fun l => fleb (DetailedPropertyListing.price_per_night l)
                        (SearchCriteria.max_price_per_night criteria))
         best_value_properties.

Definition top_recommendation (top_choice : DetailedPropertyListing.t F)
    : list string :=
  ["🎯 TOP RECOMMENDATION: " ++ DetailedPropertyListing.title top_choice;
   "   Price: $"
     ++ str_float (DetailedPropertyListing.price_per_night top_choice)
     ++ "/night";
   "   Location: " ++ DetailedPropertyListing.location top_choice;
   match DetailedPropertyListing.rating top_choice with
   | Some rating =>
       if truthy rating then "   Rating: " ++ str_float rating ++ "/5"
       else "   Rating: N/A"
   | None => "   Rating: N/A"
   end;
   "   Book here: "
     ++ PropertyListing.url (DetailedPropertyListing.base top_choice);
   if PropertyListing.instant_book (DetailedPropertyListing.base top_choice)
   then "   ✅ Instant booking available!"
   else "   ⏳ Contact host required"].

(** [for i, option in enumerate(options, start)] *)
Fixpoint alternative_lines (start : nat)
    (options : list (DetailedPropertyListing.t F)) : list string :=
  match options with
  | [] => []
  | option :: rest =>
      ("   " ++ str_nat start ++ ". " ++ DetailedPropertyListing.title option
       ++ " - $"
       ++ str_float (DetailedPropertyListing.price_per_night option)
       ++ "/night")
      :: alternative_lines (S start) rest
  end.

Definition booking_tips : list string :=
  [newline ++ "💡 BOOKING TIPS:";
   "   • Book at least 2-3 months in advance for best availability";
   "   • Contact hosts directly for longer stay discounts";
   "   • Check cancellation policies before booking";
   "   • Consider travel insurance for peace of mind"].

(** [automated_booking_assistant]: the lines it prints and returns. *)
Definition automated_booking_assistant {I : Type}
    (analysis : SearchAnalysis.t F I) (criteria : SearchCriteria.t F)
    : list string :=
  let recommendations := [] in
  (* Find best options within budget *)
  let budget_options :=
    within_budget criteria (SearchAnalysis.best_value_properties analysis) in
  let recommendations :=
    match budget_options with
    | top_choice :: _ => (recommendations ++ top_recommendation top_choice)%list
    | [] => recommendations
    end in
  (* Alternative options *)
  let recommendations :=
    if (1 <? List.length budget_options)%nat
    then (recommendations
          ++ [(newline ++ "🔍 ALTERNATIVE OPTIONS:")%string]
          ++ alternative_lines 1 (firstn 3 (skipn 1 budget_options)))%list
    else recommendations in
  (* Booking tips *)
  (recommendations ++ booking_tips)%list.

End BookingAssistant.

(** * Verification *)

Import Contribution Examples PriceText.

(** ** Exact arithmetic: the comparisons of the [Q] instance *)

Section ExactComparisons.
Local Open Scope Q_scope.

Lemma fltb_Q_true (x y : Q) : fltb x y = true <-> x < y.
Proof.
  cbn. rewrite negb_true_iff. split; intro Hc.
  - apply Qnot_le_lt. intro Hle. apply Qle_bool_iff in Hle. congruence.
  - destruct (Qle_bool y x) eqn:E; [|reflexivity].
    apply Qle_bool_iff in E. exfalso. apply (Qlt_not_le _ _ Hc E).
Qed.

Lemma fltb_Q_false (x y : Q) : fltb x y = false <-> y <= x.
Proof.
  cbn. rewrite negb_false_iff. apply Qle_bool_iff.
Qed.

Lemma feqb_Q_true (x y : Q) : feqb x y = true <-> x == y.
Proof. cbn. apply Qeq_bool_iff. Qed.

Lemma feqb_Q_false (x y : Q) : feqb x y = false <-> ~ x == y.
Proof.
  cbn. split; intro Hc.
  - intro E. apply Qeq_bool_iff in E. congruence.
  - destruct (Qeq_bool x y) eqn:E; [|reflexivity].
    apply Qeq_bool_iff in E. contradiction.
Qed.

Lemma truthy_Q_false (x : Q) : truthy x = false -> x == 0.
Proof.
  unfold truthy. rewrite negb_false_iff. intro E. now apply feqb_Q_true in E.
Qed.

Lemma py_max_Qmax (a b : Q) : py_max a b == Qmax a b.
Proof.
  unfold py_max. destruct (fltb a b) eqn:E.
  - apply fltb_Q_true in E. symmetry. apply Q.max_r. now apply Qlt_le_weak.
  - apply fltb_Q_false in E. symmetry. now apply Q.max_l.
Qed.

End ExactComparisons.

(** Replaces the literals of the source by their rational values. *)
Ltac q_consts :=
  repeat match goal with
  | |- context [@dec Q ?i ?m ?k] =>
      let v := eval vm_compute in (@dec Q i m k) in
      change (@dec Q i m k) with v
  | |- context [@of_int Q ?i ?z] =>
      let v := eval vm_compute in (@of_int Q i z) in
      change (@of_int Q i z) with v
  end;
  cbn [fadd fsub fmul fdiv Q_PyFloat].

(** ** Value score *)

Section ValueScore.
Local Open Scope Q_scope.

Local Abbreviation listing := (DetailedPropertyListing.t Q).
Local Abbreviation criteria := (SearchCriteria.t Q).
Local Abbreviation price := DetailedPropertyListing.price_per_night.
Local Abbreviation max_price := SearchCriteria.max_price_per_night.

(** The price block: it faults only on a zero budget. *)
Lemma price_block (l : listing) (c : criteria) :
  (0 < price l -> ~ max_price c == 0) ->
  exists s,
    (if fltb (of_int 0) (price l)
     then bind (py_div (price l) (max_price c))
            (fun ratio =>
               Ok (fadd (dec 0 1)
                     (fmul (py_max (of_int 0)
                              (fsub (of_int 100) (fmul ratio (of_int 100))))
                           (dec 4 1))))
     else Ok (dec 0 1)) = Ok s
    /\ s == price_points l c.
Proof.
  intro Hm. unfold price_points. change (of_int 0) with (0:Q).
  destruct (fltb 0 (price l)) eqn:Ep.
  - unfold py_div. apply fltb_Q_true in Ep. specialize (Hm Ep).
    apply feqb_Q_false in Hm. change (of_int 0) with (0:Q).
    rewrite Hm. cbn [bind].
    eexists; split; [reflexivity|].
    rewrite py_max_Qmax. q_consts.
    generalize (Qmax 0 (100 - price l / max_price c * 100)).
    intro x. lra.
  - eexists; split; [reflexivity|]. q_consts. lra.
Qed.

Lemma len_zero_nil {A} (xs : list A) : (len xs =? 0)%Z = true -> xs = [].
Proof.
  intro E. apply Z.eqb_eq in E. unfold len in E.
  destruct xs; [reflexivity | discriminate].
Qed.

(** The amenity block: skipped for a listing without amenities, a division
    by [len(criteria.amenities)] otherwise. *)
Lemma amenity_block (l : listing) (c : criteria) (s : Q) :
  amenity_block_safe l c ->
  exists s',
    (if nonempty (DetailedPropertyListing.amenities l)
     then bind (py_truediv_int
                  (len (matching_amenities (SearchCriteria.amenities c)
                          (DetailedPropertyListing.amenities l)))
                  (len (SearchCriteria.amenities c)))
            (fun ratio =>
               Ok (fadd s (fmul (fmul ratio (of_int 100)) (dec 3 1))))
     else Ok s) = Ok s'
    /\ s' == s + amenity_points l c.
Proof.
  intro Ha. unfold amenity_points.
  destruct (nonempty (DetailedPropertyListing.amenities l)) eqn:En.
  - unfold py_truediv_int.
    destruct (len (SearchCriteria.amenities c) =? 0)%Z eqn:Ez.
    + exfalso. destruct Ha as [Ha | Ha].
      * rewrite Ha in En. discriminate.
      * apply Ha. now apply len_zero_nil.
    + cbn [bind]. eexists; split; [reflexivity|].
      cbn [fdiv of_int Q_PyFloat].
      generalize
        (inject_Z (len (matching_amenities (SearchCriteria.amenities c)
                          (DetailedPropertyListing.amenities l)))
         / inject_Z (len (SearchCriteria.amenities c))).
      intro x. change (inject_Z 100) with (100:Q). q_consts. lra.
  - eexists; split; [reflexivity|]. lra.
Qed.

(** The score is the sum of what the four blocks add. *)
Lemma value_score_decomposition (l : listing) (c : criteria) :
  (0 < price l -> ~ max_price c == 0) ->
  amenity_block_safe l c ->
  exists v,
    calculate_value_score l c = Ok v
    /\ v == price_points l c + amenity_points l c
            + rating_points l + host_points l.
Proof.
  intros Hm Ha. unfold calculate_value_score.
  destruct (price_block l c Hm) as (s1 & -> & Hs1). cbn [bind].
  destruct (amenity_block l c s1 Ha) as (s2 & -> & Hs2). cbn [bind].
  eexists; split; [reflexivity|].
  rewrite <- Hs1, <- Hs2. clear Hs1 Hs2 Ha Hm.
  unfold rating_points, host_points.
  destruct (DetailedPropertyListing.rating l) as [r|];
    destruct (DetailedPropertyListing.host_rating l) as [h|];
    try destruct (truthy r) eqn:Er; try destruct (truthy h) eqn:Eh;
    try (apply truthy_Q_false in Er); try (apply truthy_Q_false in Eh);
    q_consts; try rewrite Er; try rewrite Eh; field.
Qed.

(** With amenities on the listing and none in the criteria the amenity
    block divides by zero. *)
Lemma value_score_amenity_fault (l : listing) (c : criteria) :
  (0 < price l -> ~ max_price c == 0) ->
  DetailedPropertyListing.amenities l <> [] ->
  SearchCriteria.amenities c = [] ->
  calculate_value_score l c = Raise ZeroDivisionError.
Proof.
  intros Hm Hl Hc. unfold calculate_value_score.
  destruct (price_block l c Hm) as (s1 & -> & _). cbn [bind].
  destruct (DetailedPropertyListing.amenities l) as [|a rest];
    [contradiction|].
  rewrite Hc. reflexivity.
Qed.

End ValueScore.

Section ValueScoreClaims.
Local Open Scope Q_scope.

Local Abbreviation listing := (DetailedPropertyListing.t Q).
Local Abbreviation criteria := (SearchCriteria.t Q).
Local Abbreviation price := DetailedPropertyListing.price_per_night.
Local Abbreviation max_price := SearchCriteria.max_price_per_night.
Local Abbreviation with_price := DetailedPropertyListing.with_price.

Lemma price_points_antitone (l : listing) (c : criteria) (p1 p2 : Q) :
  0 < max_price c -> 0 < p1 -> p1 <= p2 ->
  price_points (with_price l p2) c <= price_points (with_price l p1) c.
Proof.
  intros Hm H1 H12. unfold price_points. cbn.
  assert (H2 : 0 < p2) by (eapply Qlt_le_trans; eassumption).
  apply fltb_Q_true in H1, H2. cbn in H1, H2. rewrite H1, H2.
  assert (Hq : p1 / max_price c <= p2 / max_price c).
  { unfold Qdiv. apply Qmult_le_compat_r; [assumption|].
    apply Qinv_le_0_compat. now apply Qlt_le_weak. }
  assert (Hx : Qmax 0 (100 - p2 / max_price c * 100)
               <= Qmax 0 (100 - p1 / max_price c * 100)).
  { apply Q.max_le_compat_l. lra. }
  lra.
Qed.

Lemma positive_budget_nonzero (c : criteria) (p : Q) :
  0 < max_price c -> 0 < p -> ~ max_price c == 0.
Proof. intros Hm _ E. rewrite E in Hm. now apply Qlt_irrefl in Hm. Qed.

(** C1 (as amended).  A listing whose price is 0 fails the guard
    [listing.price_per_night > 0]: the price block is skipped, nothing is
    added for the price, and the value score is the sum of the amenity,
    rating and host contributions alone.  The budget plays no role. *)
Theorem zero_price_adds_no_price_points (l : listing) (c : criteria) :
  price l == 0 ->
  amenity_block_safe l c ->
  exists v,
    calculate_value_score l c = Ok v
    /\ v == amenity_points l c + rating_points l + host_points l.
Proof.
  intros Hp Ha.
  destruct (value_score_decomposition l c) as (v & Hv & Hd); [|assumption|].
  - intro Hpos. rewrite Hp in Hpos. now apply Qlt_irrefl in Hpos.
  - exists v. split; [assumption|]. rewrite Hd. unfold price_points.
    assert (E : fltb 0 (price l) = false).
    { apply fltb_Q_false. rewrite Hp. apply Qle_refl. }
    rewrite E. lra.
Qed.

Lemma zero_price_adds_no_price_points_witness :
  price (with_price (F:=Q) L1 0) == 0
  /\ exists v,
       calculate_value_score (with_price L1 0) Examples.criteria = Ok v
       /\ v == amenity_points (with_price L1 0) Examples.criteria
               + rating_points (with_price (F:=Q) L1 0)
               + host_points (with_price (F:=Q) L1 0).
Proof.
  split; [reflexivity|].
  apply (zero_price_adds_no_price_points (with_price L1 0) Examples.criteria).
  - reflexivity.
  - right. discriminate.
Defined.

(** C1 (as stated) fails: listing L1 with its price set to 0, under a
    budget of 40, scores 38, the sum of its amenity (20) and rating (18)
    contributions, and not 40 + 38. *)
Lemma zero_price_not_maximal :
  0 < max_price (Examples.criteria (F:=Q))
  /\ price (with_price (F:=Q) L1 0) == 0
  /\ exists v,
       calculate_value_score (with_price L1 0) Examples.criteria = Ok v
       /\ v == 38
       /\ ~ v == 100 * (2#5)
                 + (amenity_points (with_price L1 0) Examples.criteria
                    + rating_points (with_price (F:=Q) L1 0)
                    + host_points (with_price (F:=Q) L1 0))
       /\ calculate_value_score (F:=float) (with_price L1 0%float)
            Examples.criteria
          = Ok 38%float.
Proof.
  split; [reflexivity|]. split; [reflexivity|].
  eexists. split; [vm_compute; reflexivity|].
  split; [reflexivity|]. split; [|vm_compute; reflexivity].
  intro E. discriminate E.
Qed.

(** C2.  Under a budget of 40 and the amenities kitchen, wifi and
    air_conditioning, L1 (price 35, kitchen and wifi, rating 4.5) scores
    exactly 43 and L2 (price 50, all three amenities, rating 4.0) scores
    exactly 46, so the dearer L2 has the higher value score; this holds in
    exact arithmetic and bit for bit in binary64. *)
Theorem worked_example_L1_L2 :
  (exists v1 v2 : Q,
     calculate_value_score L1 Examples.criteria = Ok v1
     /\ calculate_value_score L2 Examples.criteria = Ok v2
     /\ v1 == 43 /\ v2 == 46 /\ v1 < v2
     /\ price (L1 (F:=Q)) < price (L2 (F:=Q)))
  /\ calculate_value_score (F:=float) L1 Examples.criteria = Ok 43%float
  /\ calculate_value_score (F:=float) L2 Examples.criteria = Ok 46%float
  /\ PrimFloat.ltb 43 46 = true.
Proof.
  split.
  - do 2 eexists.
    split; [vm_compute; reflexivity|]. split; [vm_compute; reflexivity|].
    repeat split; reflexivity.
  - repeat split; vm_compute; reflexivity.
Qed.

(** C3 (as amended).  Under a positive budget, for two listings that
    differ only in their prices [0 < p1 <= p2], the value score at [p1] is
    at least the value score at [p2]; the only other outcome is that both
    evaluations stop in the amenity block, the listing having amenities and
    the criteria none. *)
Theorem value_score_antitone_in_positive_price
    (l : listing) (c : criteria) (p1 p2 : Q) :
  0 < max_price c -> 0 < p1 -> p1 <= p2 ->
  (amenity_block_safe l c
   /\ exists v1 v2,
        calculate_value_score (with_price l p1) c = Ok v1
        /\ calculate_value_score (with_price l p2) c = Ok v2
        /\ v2 <= v1)
  \/ (DetailedPropertyListing.amenities l <> []
      /\ SearchCriteria.amenities c = []
      /\ calculate_value_score (with_price l p1) c = Raise ZeroDivisionError
      /\ calculate_value_score (with_price l p2) c = Raise ZeroDivisionError).
Proof.
  intros Hm H1 H12.
  assert (H2 : 0 < p2) by (eapply Qlt_le_trans; eassumption).
  assert (Hsafe : amenity_block_safe l c
                  \/ (DetailedPropertyListing.amenities l <> []
                      /\ SearchCriteria.amenities c = [])).
  { unfold amenity_block_safe.
    destruct (DetailedPropertyListing.amenities l) as [|a la];
      [left; left; reflexivity|].
    destruct (SearchCriteria.amenities c) as [|b lc].
    - right. split; [discriminate | reflexivity].
    - left. right. discriminate. }
  destruct Hsafe as [Ha | [Hl Hc]].
  - left. split; [assumption|].
    destruct (value_score_decomposition (with_price l p1) c)
      as (v1 & Hv1 & Hd1);
      [intros _; now apply (positive_budget_nonzero c p1) | exact Ha |].
    destruct (value_score_decomposition (with_price l p2) c)
      as (v2 & Hv2 & Hd2);
      [intros _; now apply (positive_budget_nonzero c p2) | exact Ha |].
    exists v1, v2. repeat split; try assumption.
    rewrite Hd1, Hd2.
    pose proof (price_points_antitone l c p1 p2 Hm H1 H12) as Hp.
    change (amenity_points (with_price l p1) c) with (amenity_points l c).
    change (amenity_points (with_price l p2) c) with (amenity_points l c).
    change (rating_points (with_price l p1)) with (rating_points l).
    change (rating_points (with_price l p2)) with (rating_points l).
    change (host_points (with_price l p1)) with (host_points l).
    change (host_points (with_price l p2)) with (host_points l).
    lra.
  - right. repeat split; try assumption.
    + apply value_score_amenity_fault;
        [intros _; now apply (positive_budget_nonzero c p1) | exact Hl | exact Hc].
    + apply value_score_amenity_fault;
        [intros _; now apply (positive_budget_nonzero c p2) | exact Hl | exact Hc].
Qed.

Lemma value_score_antitone_in_positive_price_witness :
  0 < max_price (Examples.criteria (F:=Q)) /\ 0 < 35 /\ 35 <= 50
  /\ ((amenity_block_safe L1 Examples.criteria
       /\ exists v1 v2,
            calculate_value_score (with_price L1 35) Examples.criteria = Ok v1
            /\ calculate_value_score (with_price L1 50) Examples.criteria
               = Ok v2
            /\ v2 <= v1)
      \/ (DetailedPropertyListing.amenities (L1 (F:=Q)) <> []
          /\ SearchCriteria.amenities (Examples.criteria (F:=Q)) = []
          /\ calculate_value_score (with_price L1 35) Examples.criteria
             = Raise ZeroDivisionError
          /\ calculate_value_score (with_price L1 50) Examples.criteria
             = Raise ZeroDivisionError)).
Proof.
  split; [reflexivity|]. split; [reflexivity|].
  split; [unfold Qle; simpl; lia|].
  apply (value_score_antitone_in_positive_price L1 Examples.criteria 35 50).
  - reflexivity.
  - reflexivity.
  - unfold Qle; simpl; lia.
Defined.

(** C3 (as stated) fails at [p1 = 0]: the listing without price scores 0,
    the same listing at price 10 scores 30 under a budget of 40. *)
Lemma value_score_rises_from_zero_price :
  0 < max_price (Examples.criteria (F:=Q)) /\ 0 <= 0 /\ 0 <= 10
  /\ exists v1 v2,
       calculate_value_score (with_price unpriced 0) Examples.criteria = Ok v1
       /\ calculate_value_score (with_price unpriced 10) Examples.criteria
          = Ok v2
       /\ v1 == 0 /\ v2 == 30 /\ ~ v2 <= v1
       /\ calculate_value_score (F:=float) (with_price unpriced 0%float)
            Examples.criteria
          = Ok 0%float
       /\ calculate_value_score (F:=float) (with_price unpriced 10%float)
            Examples.criteria
          = Ok 30%float.
Proof.
  split; [reflexivity|]. split; [unfold Qle; simpl; lia|].
  split; [unfold Qle; simpl; lia|].
  do 2 eexists.
  split; [vm_compute; reflexivity|]. split; [vm_compute; reflexivity|].
  split; [reflexivity|]. split; [reflexivity|].
  split; [unfold Qle; simpl; lia|].
  split; vm_compute; reflexivity.
Qed.

(** C4 (as amended).  The amenity block is guarded by the listing's
    amenity list: for a listing without amenities and a positive budget the
    score is computed without a fault and nothing is added for amenities,
    whatever the amenity list of the criteria, the empty one included. *)
Theorem value_score_without_listing_amenities (l : listing) (c : criteria) :
  DetailedPropertyListing.amenities l = [] ->
  0 < max_price c ->
  exists v,
    calculate_value_score l c = Ok v
    /\ amenity_points l c == 0
    /\ v == price_points l c + rating_points l + host_points l.
Proof.
  intros Hl Hm.
  destruct (value_score_decomposition l c) as (v & Hv & Hd).
  - intros _ E. rewrite E in Hm. now apply Qlt_irrefl in Hm.
  - left. exact Hl.
  - assert (Ha : amenity_points l c == 0).
    { unfold amenity_points. rewrite Hl. reflexivity. }
    exists v. repeat split; [assumption | assumption |].
    rewrite Hd, Ha. lra.
Qed.

Lemma value_score_without_listing_amenities_witness :
  DetailedPropertyListing.amenities (with_price (F:=Q) unpriced 10) = []
  /\ 0 < max_price (criteria_no_amenities (F:=Q))
  /\ exists v,
       calculate_value_score (with_price unpriced 10) criteria_no_amenities
       = Ok v
       /\ amenity_points (with_price unpriced 10) criteria_no_amenities == 0
       /\ v == price_points (with_price unpriced 10) criteria_no_amenities
               + rating_points (with_price (F:=Q) unpriced 10)
               + host_points (with_price (F:=Q) unpriced 10).
Proof.
  split; [reflexivity|]. split; [reflexivity|].
  apply (value_score_without_listing_amenities
           (with_price unpriced 10) criteria_no_amenities).
  - reflexivity.
  - reflexivity.
Defined.

(** C4 (as stated) fails: L1 lists kitchen and wifi; against criteria with
    an empty amenity list the amenity block evaluates [0 / 0] and raises
    [ZeroDivisionError], in exact arithmetic and in binary64. *)
Lemma empty_criteria_amenities_fault :
  SearchCriteria.amenities (criteria_no_amenities (F:=Q)) = []
  /\ calculate_value_score (F:=Q) L1 criteria_no_amenities
     = Raise ZeroDivisionError
  /\ calculate_value_score (F:=float) L1 criteria_no_amenities
     = Raise ZeroDivisionError.
Proof. repeat split. Qed.

End ValueScoreClaims.

(** ** Location score *)

Section LocationScoreClaims.
Local Open Scope Q_scope.

(** The three outcomes, bit for bit in binary64. *)
Lemma location_score_binary64 (l : DetailedPropertyListing.t float)
    (c : SearchCriteria.t float) :
  calculate_location_score l c
  = let place := Text.lower (DetailedPropertyListing.location l) in
    if Text.contains "bar" place then 80%float
    else if Text.contains "sutomore" place || Text.contains "petrovac" place
         then 60%float
         else 40%float.
Proof.
  unfold calculate_location_score. cbv zeta.
  destruct (Text.contains "bar" _); [reflexivity|].
  destruct (_ || _); reflexivity.
Qed.

(** C5 (as amended).  The location score is 80 when the lower-cased
    location of the listing contains "bar", 60 when it does not but
    contains "sutomore" or "petrovac", and 40 otherwise; it is always one of
    40, 60 and 80.  The tokens are fixed in the code; the criteria are not
    consulted. *)
Theorem location_score_fixed_tokens (l : DetailedPropertyListing.t Q)
    (c : SearchCriteria.t Q) :
  calculate_location_score l c
  == (let place := Text.lower (DetailedPropertyListing.location l) in
      if Text.contains "bar" place then 80
      else if Text.contains "sutomore" place || Text.contains "petrovac" place
           then 60
           else 40)
  /\ (calculate_location_score l c == 40
      \/ calculate_location_score l c == 60
      \/ calculate_location_score l c == 80).
Proof.
  unfold calculate_location_score. cbv zeta.
  destruct (Text.contains "bar" _).
  - split; [reflexivity|]. right; right; reflexivity.
  - destruct (_ || _).
    + split; [reflexivity|]. right; left; reflexivity.
    + split; [reflexivity|]. left; reflexivity.
Qed.

(** C5 (as stated) fails: for a search in "Budva, Montenegro" a listing
    located in "Budva, Montenegro" contains the primary locale token
    "budva" of the search and still scores 40, where the policy of the
    specification gives 80. *)
Lemma location_score_ignores_search_locale :
  Spec.primary_locale_token (criteria_budva (F:=Q)) = "budva"%string
  /\ Text.contains (Spec.primary_locale_token (criteria_budva (F:=Q)))
       (Text.lower (DetailedPropertyListing.location (in_budva (F:=Q))))
     = true
  /\ Spec.location_score in_budva criteria_budva == 80
  /\ calculate_location_score (F:=Q) in_budva criteria_budva == 40
  /\ ~ calculate_location_score (F:=Q) in_budva criteria_budva
       == Spec.location_score in_budva criteria_budva
  /\ calculate_location_score (F:=float) in_budva criteria_budva = 40%float.
Proof.
  repeat split; try reflexivity. intro E. discriminate E.
Qed.

End LocationScoreClaims.

(** C10.  The location score does not depend on the search criteria: any
    two criteria, whatever their locations, give a listing the same
    score. *)
Theorem location_score_independent_of_criteria {F : Type} `{PyFloat F}
    (l : DetailedPropertyListing.t F) (c1 c2 : SearchCriteria.t F) :
  calculate_location_score l c1 = calculate_location_score l c2.
Proof.
  unfold calculate_location_score. reflexivity.
Qed.

(** ** Listing normaliser *)

Section NormaliserClaims.
Context {F : Type}.

(** The inherited attributes of the result are those of the listing,
    whether the page could be read or not. *)
Lemma detailed_listing_base (page : result (DetailedInfo.t F))
    (listing : PropertyListing.t F) :
  DetailedPropertyListing.base (get_detailed_property_info page listing)
  = listing.
Proof.
  unfold get_detailed_property_info, construct_detailed.
  destruct page as [info | e]; [|reflexivity].
  cbn [bind]. destruct (DetailedInfo.host_name info); reflexivity.
Qed.


(** A dictionary that binds ['host_name'] repeats a keyword of the
    constructor call: the [TypeError] is caught and the listing is returned
    without any detailed attribute. *)
Lemma host_name_in_page_discards_details (info : DetailedInfo.t F)
    (listing : PropertyListing.t F) (name : string) :
  DetailedInfo.host_name info = Some name ->
  get_detailed_property_info (Ok info) listing
  = DetailedPropertyListing.of_base listing.
Proof.
  intro Hn. unfold get_detailed_property_info, construct_detailed.
  cbn [bind]. rewrite Hn. reflexivity.
Qed.


End NormaliserClaims.


(** ** Market aggregator *)

(** C9.  For the empty list of listings the market aggregator returns the
    empty mapping, without raising: no price distribution, no platform
    comparison and no amenity entry. *)
Theorem market_insights_of_no_listings {F : Type} `{PyFloat F}
    (np_mean np_median np_std : list F -> F) (criteria : SearchCriteria.t F) :
  generate_market_insights np_mean np_median np_std [] criteria = Ok []
  /\ Dict.get "price_distribution"
       (try_except
          (generate_market_insights np_mean np_median np_std [] criteria) [])
     = None
  /\ Dict.get "platform_comparison"
       (try_except
          (generate_market_insights np_mean np_median np_std [] criteria) [])
     = None
  /\ Dict.get "popular_amenities"
       (try_except
          (generate_market_insights np_mean np_median np_std [] criteria) [])
     = None.
Proof.
  unfold generate_market_insights. cbn [nonempty negb].
  repeat split.
Qed.

(** ** Ranking *)

Section StableSort.
Context {A : Type}.
Variable before : A -> A -> bool.

Lemma insert_stable_perm (x : A) (l : list A) :
  Permutation (x :: l) (insert_stable before x l).
Proof.
  induction l as [|y l IH]; cbn [insert_stable].
  - apply Permutation_refl.
  - destruct (before y x).
    + eapply perm_trans; [apply perm_swap|]. now apply perm_skip.
    + apply Permutation_refl.
Qed.

Lemma py_sorted_perm (l : list A) : Permutation l (py_sorted before l).
Proof.
  induction l as [|x l IH]; cbn [py_sorted fold_right].
  - apply perm_nil.
  - eapply perm_trans; [apply perm_skip, IH|]. apply insert_stable_perm.
Qed.

(** Elements of a class none of whose members must come before another
    keep their order when one of them is inserted. *)
Lemma insert_stable_filter (p : A -> bool) (x : A) (l : list A) :
  (forall a b, p a = true -> p b = true -> before b a = false) ->
  filter p (insert_stable before x l) = filter p (x :: l).
Proof.
  intro Hclass.
  induction l as [|y l IH]; cbn [insert_stable]; [reflexivity|].
  destruct (before y x) eqn:Eyx; [|reflexivity].
  cbn [filter] in *. rewrite IH.
  destruct (p x) eqn:Epx; [|reflexivity].
  destruct (p y) eqn:Epy; [|reflexivity].
  rewrite (Hclass x y Epx Epy) in Eyx. discriminate.
Qed.

Lemma py_sorted_filter (p : A -> bool) (l : list A) :
  (forall a b, p a = true -> p b = true -> before b a = false) ->
  filter p (py_sorted before l) = filter p l.
Proof.
  intro Hclass.
  induction l as [|x l IH]; [reflexivity|].
  cbn [py_sorted fold_right].
  rewrite (insert_stable_filter p x _ Hclass).
  cbn [filter]. fold (py_sorted before l). rewrite IH. reflexivity.
Qed.

End StableSort.

Section DescendingSort.
Local Open Scope Q_scope.
Context {A : Type}.
Variable key : A -> Q.

Lemma insert_descending (x : A) (l : list A) :
  StronglySorted (fun a b => key b <= key a) l ->
  StronglySorted (fun a b => key b <= key a)
    (insert_stable (descending_by key) x l).
Proof.
  induction 1 as [|y l Hs IH Hy]; cbn [insert_stable].
  - constructor; constructor.
  - destruct (descending_by key y x) eqn:E; unfold descending_by in E.
    + apply fltb_Q_true in E. constructor; [exact IH|].
      apply (Permutation_Forall (insert_stable_perm (descending_by key) x l)).
      constructor; [|exact Hy]. now apply Qlt_le_weak.
    + apply fltb_Q_false in E. constructor.
      * now constructor.
      * constructor; [exact E|].
        eapply Forall_impl; [|exact Hy].
        intros z Hz. cbv beta in *. eapply Qle_trans; eassumption.
Qed.

Lemma py_sorted_descending (l : list A) :
  StronglySorted (fun a b => key b <= key a)
    (py_sorted (descending_by key) l).
Proof.
  induction l as [|x l IH]; cbn [py_sorted fold_right].
  - constructor.
  - now apply insert_descending.
Qed.

Lemma py_sorted_ties_keep_order (k : Q) (l : list A) :
  filter (fun a => Qeq_bool (key a) k) (py_sorted (descending_by key) l)
  = filter (fun a => Qeq_bool (key a) k) l.
Proof.
  apply py_sorted_filter. intros a b Ha Hb. unfold descending_by.
  apply Qeq_bool_iff in Ha, Hb. apply fltb_Q_false.
  rewrite Ha, Hb. apply Qle_refl.
Qed.

End DescendingSort.

Section RankingClaims.
Local Open Scope Q_scope.

(** C6 (as amended).  The ranking is the stable descending sort on the
    overall score (a missing score counting as 0): the output is a
    permutation of the input, overall scores never increase along it, and
    the listings of equal overall score keep their input order.  Neither
    the price nor the source takes part in the comparison. *)
Theorem ranking_is_stable_descending
    (detailed_listings : list (DetailedPropertyListing.t Q)) :
  Permutation detailed_listings (sort_by_overall_score detailed_listings)
  /\ StronglySorted (fun a b => overall_key b <= overall_key a)
       (sort_by_overall_score detailed_listings)
  /\ forall k : Q,
       filter (fun a => Qeq_bool (overall_key a) k)
              (sort_by_overall_score detailed_listings)
       = filter (fun a => Qeq_bool (overall_key a) k) detailed_listings.
Proof.
  unfold sort_by_overall_score. split; [|split].
  - apply py_sorted_perm.
  - apply (py_sorted_descending overall_key).
  - intro k. apply (py_sorted_ties_keep_order overall_key).
Qed.

(** C6 (as stated) fails: A (overall score 90, price 30) and B (overall
    score 90, price 25), given in the order A, B, are ranked A, B: the
    cheaper B is not moved in front of A. *)
Lemma ranking_keeps_input_order_on_ties :
  DetailedPropertyListing.overall_score (A (F:=Q)) = Some 90
  /\ DetailedPropertyListing.overall_score (B (F:=Q)) = Some 90
  /\ DetailedPropertyListing.price_per_night (B (F:=Q))
     < DetailedPropertyListing.price_per_night (A (F:=Q))
  /\ sort_by_overall_score (F:=Q) [A; B] = [A; B]
  /\ sort_by_overall_score (F:=Q) [A; B] <> [B; A]
  /\ sort_by_overall_score (F:=float) [A; B] = [A; B].
Proof.
  repeat split. intro E. discriminate E.
Qed.

End RankingClaims.

(** ** Price parser *)

Section TextFacts.
Import Unicode.

Lemma remove_char_app (c : char) (a b : str) :
  Text.remove_char c (a ++ b) = Text.remove_char c a ++ Text.remove_char c b.
Proof.
  induction a as [|x a IH]; cbn; [reflexivity|].
  destruct (x =? c)%N; cbn; now rewrite IH.
Qed.

Lemma all_chars_app (p : char -> bool) (a b : str) :
  Text.all_chars p (a ++ b) = Text.all_chars p a && Text.all_chars p b.
Proof.
  induction a as [|x a IH]; cbn; [reflexivity|].
  rewrite IH. now rewrite andb_assoc.
Qed.

Lemma all_chars_impl (p q : char -> bool) (s : str) :
  (forall c, p c = true -> q c = true) ->
  Text.all_chars p s = true -> Text.all_chars q s = true.
Proof.
  intro Hpq. induction s as [|x s IH]; cbn; [reflexivity|].
  intro E. apply andb_true_iff in E as [Ex Es].
  rewrite (Hpq x Ex). now apply IH.
Qed.

Lemma all_chars_remove_char (p : char -> bool) (c : char) (s : str) :
  Text.all_chars p s = true ->
  Text.all_chars (fun x => p x && negb (x =? c)%N) (Text.remove_char c s)
  = true.
Proof.
  induction s as [|x s IH]; cbn; [reflexivity|].
  intro E. apply andb_true_iff in E as [Ex Es].
  destruct (x =? c)%N eqn:Exc; [now apply IH|].
  cbn. rewrite Ex, Exc. cbn. now apply IH.
Qed.

Lemma remove_char_absent (c : char) (s : str) :
  Text.all_chars (fun x => negb (x =? c)%N) s = true ->
  Text.remove_char c s = s.
Proof.
  induction s as [|x s IH]; cbn; [reflexivity|].
  intro E. apply andb_true_iff in E as [Ex Es].
  apply negb_true_iff in Ex. rewrite Ex. now rewrite IH.
Qed.

Lemma remove_char_clean (c : char) (s : str) :
  Text.all_chars (fun x => negb (x =? c)%N) (Text.remove_char c s) = true.
Proof.
  induction s as [|x s IH]; cbn; [reflexivity|].
  destruct (x =? c)%N eqn:E; [exact IH|]. cbn. now rewrite E.
Qed.

Lemma span_app (p : char -> bool) (a b : str) :
  Text.all_chars p a = true -> Text.starts_outside p b = true ->
  Text.span p (a ++ b) = (a, b).
Proof.
  intros Ha Hb. induction a as [|x a IH]; cbn.
  - destruct b as [|y b]; [reflexivity|].
    cbn in Hb. apply negb_true_iff in Hb. cbn. now rewrite Hb.
  - cbn in Ha. apply andb_true_iff in Ha as [Ex Ea].
    rewrite Ex, (IH Ea). reflexivity.
Qed.

Lemma span_all (p : char -> bool) (s : str) :
  Text.all_chars p s = true -> Text.span p s = (s, []).
Proof.
  intro Hs. rewrite <- (app_nil_r s) at 1. now apply span_app.
Qed.

Lemma span_outside (p : char -> bool) (s : str) :
  Text.starts_outside p s = true -> Text.span p s = ([], s).
Proof. intro Hs. now apply (span_app p [] s). Qed.

Lemma span_run (p q : char -> bool) (s : str) :
  Text.all_chars q s = true ->
  Text.all_chars (fun c => p c && q c) (fst (Text.span p s)) = true
  /\ Text.all_chars q (snd (Text.span p s)) = true.
Proof.
  induction s as [|x s IH]; cbn; [now split|].
  intro E. apply andb_true_iff in E as [Ex Es].
  destruct (p x) eqn:Epx.
  - destruct (Text.span p s) as [run rest]. cbn in *.
    rewrite Epx, Ex. cbn. now apply IH.
  - cbn. rewrite Ex. now split.
Qed.

Lemma span_satisfies (p : char -> bool) (s : str) :
  Text.all_chars p (fst (Text.span p s)) = true.
Proof.
  induction s as [|x s IH]; cbn; [reflexivity|].
  destruct (p x) eqn:Epx; [|reflexivity].
  destruct (Text.span p s) as [run rest]. cbn in *. now rewrite Epx.
Qed.

Lemma span_append (p : char -> bool) (s : str) :
  fst (Text.span p s) ++ snd (Text.span p s) = s.
Proof.
  induction s as [|x s IH]; cbn; [reflexivity|].
  destruct (p x); [|reflexivity].
  destruct (Text.span p s) as [run rest]. cbn in *. now rewrite IH.
Qed.

Lemma all_chars_starts_outside (p : char -> bool) (s : str) :
  Text.all_chars (fun c => negb (p c)) s = true -> Text.starts_outside p s = true.
Proof.
  destruct s as [|x s]; cbn; [reflexivity|].
  intro E. now apply andb_true_iff in E as [Ex _].
Qed.

Lemma nonempty_not_empty (s : str) : s <> [] -> Text.is_empty s = false.
Proof. destruct s; [contradiction | reflexivity]. Qed.

End TextFacts.

Section DigitFacts.
Import Unicode.
Context {I : Interpreter}.

(** A digit has a value between 0 and 9, in every script. *)
Lemma digit_value_range (c : char) : (0 <= Text.digit_value c <= 9)%Z.
Proof.
  unfold Text.digit_value, Text.decimal.
  destruct (c <? 128)%N.
  - destruct (between 48 57 c) eqn:E; [|lia].
    unfold between in E. apply andb_true_iff in E as [E1 E2].
    apply N.leb_le in E1, E2. lia.
  - destruct (unicode_decimal c) as [[]|]; cbn; lia.
Qed.

(** Below 128 the digits are the ten ASCII digits, whatever the
    database. *)
Lemma ascii_digit (c : char) :
  (c < 128)%N -> Text.is_digit c = between 48 57 c.
Proof.
  intro Hc. unfold Text.is_digit, Text.decimal.
  apply N.ltb_lt in Hc. rewrite Hc. now destruct (between 48 57 c).
Qed.

Lemma comma_not_digit : Text.is_digit comma = false.
Proof. reflexivity. Qed.

Lemma point_not_digit : Text.is_digit point = false.
Proof. reflexivity. Qed.

Lemma digit_is_price_char (c : char) :
  Text.is_digit c = true -> Text.price_char c = true.
Proof. intro E. unfold Text.price_char. now rewrite E. Qed.

Lemma digit_not_comma (c : char) :
  Text.is_digit c = true -> (c =? comma)%N = false.
Proof.
  intro E. destruct (c =? comma)%N eqn:Ec; [|reflexivity].
  apply N.eqb_eq in Ec. subst c. rewrite comma_not_digit in E. discriminate E.
Qed.

Lemma digit_not_point (c : char) :
  Text.is_digit c = true -> (c =? point)%N = false.
Proof.
  intro E. destruct (c =? point)%N eqn:Ec; [|reflexivity].
  apply N.eqb_eq in Ec. subst c. rewrite point_not_digit in E. discriminate E.
Qed.

Lemma digits_without_comma (s : str) :
  Text.all_chars Text.is_digit s = true ->
  Text.all_chars (fun c => negb (c =? comma)%N) s = true.
Proof.
  apply all_chars_impl. intros c E. now rewrite (digit_not_comma c E).
Qed.

(** A price character other than the comma is a digit. *)
Lemma price_chars_without_comma (s : str) :
  Text.all_chars (fun c => Text.price_char c && negb (c =? comma)%N) s = true ->
  Text.all_chars Text.is_digit s = true.
Proof.
  apply all_chars_impl. intros c E.
  apply andb_true_iff in E as [E1 E2]. unfold Text.price_char in E1.
  apply negb_true_iff in E2. now rewrite E2, orb_false_r in E1.
Qed.

End DigitFacts.

Section PriceSearch.
Import Unicode.
Context {I : Interpreter}.

(** Characters before the first digit or comma are skipped. *)
Lemma re_search_price_skip (a b : str) :
  Text.all_chars (fun c => negb (Text.price_char c)) a = true ->
  Text.re_search_price (a ++ b) = Text.re_search_price b.
Proof.
  induction a as [|x a IH]; [reflexivity|].
  cbn [Text.all_chars]. intro E. apply andb_true_iff in E as [Ex Ea].
  change ((x :: a) ++ b) with (x :: (a ++ b)).
  cbn [Text.re_search_price]. unfold Text.match_price_at.
  rewrite (span_outside Text.price_char (x :: (a ++ b)) Ex).
  cbn [Text.is_empty]. now apply IH.
Qed.

Lemma re_search_price_hit (s m : str) :
  Text.match_price_at s = Some m -> Text.re_search_price s = Some m.
Proof. intro E. destruct s; cbn [Text.re_search_price]; now rewrite E. Qed.

(** The match found at a run of digits followed by text that does not
    continue it. *)
Lemma match_price_at_run (run tail : str) :
  run <> [] ->
  Text.all_chars Text.is_digit run = true ->
  Text.starts_outside Text.price_char tail = true ->
  Text.match_price_at (run ++ tail)
  = match tail with
    | c :: rest =>
        if (c =? point)%N
        then Some (run ++ point :: fst (Text.span Text.is_digit rest))
        else Some run
    | [] => Some run
    end.
Proof.
  intros Hne Hd Ht. unfold Text.match_price_at.
  rewrite (span_app Text.price_char run tail);
    [| exact (all_chars_impl _ _ run digit_is_price_char Hd) | exact Ht].
  rewrite (nonempty_not_empty run Hne).
  destruct tail as [|c rest]; [reflexivity|].
  destruct (c =? point)%N; [|reflexivity].
  now destruct (Text.span Text.is_digit rest) as [frac rest'].
Qed.

End PriceSearch.

Section FloatOfStr.
Import Unicode.
Context {F : Type} `{PyFloat F} {I : Interpreter}.

Lemma float_of_str_digits (run : str) :
  run <> [] -> Text.all_chars Text.is_digit run = true ->
  float_of_str run = Ok (of_decimal (Text.digits_to_Z 0 run) 0).
Proof.
  intros Hne Hd. unfold float_of_str.
  rewrite (span_all Text.is_digit run Hd).
  now rewrite (nonempty_not_empty run Hne).
Qed.

Lemma float_of_str_point (run frac : str) :
  Text.all_chars Text.is_digit run = true ->
  Text.all_chars Text.is_digit frac = true ->
  Text.is_empty run && Text.is_empty frac = false ->
  float_of_str (run ++ point :: frac)
  = Ok (of_decimal (Text.digits_to_Z 0 (run ++ frac)) (List.length frac)).
Proof.
  intros Hr Hf Hne. unfold float_of_str.
  rewrite (span_app Text.is_digit run (point :: frac) Hr eq_refl).
  rewrite N.eqb_refl, Hf, Hne. reflexivity.
Qed.

(** Without commas in the text, whatever the pattern matches is a numeral
    for [float]. *)
Lemma float_of_match (t m : str) :
  Text.all_chars (fun c => negb (c =? comma)%N) t = true ->
  Text.match_price_at t = Some m ->
  exists v, float_of_str m = Ok v.
Proof.
  intros Ht. unfold Text.match_price_at.
  pose proof (span_run Text.price_char _ t Ht) as [Hrun Hrest].
  destruct (Text.span Text.price_char t) as [run rest]. cbn [fst snd] in *.
  apply price_chars_without_comma in Hrun.
  destruct (Text.is_empty run) eqn:Ee; [discriminate|].
  assert (Hne : run <> []) by (intro; subst run; discriminate).
  destruct rest as [|c rest].
  - intro E. injection E as <-. eexists. now apply float_of_str_digits.
  - destruct (c =? point)%N.
    + pose proof (span_satisfies Text.is_digit rest) as Hs.
      destruct (Text.span Text.is_digit rest) as [frac rest'].
      cbn [fst] in Hs.
      intro E. injection E as <-. eexists. apply float_of_str_point.
      * exact Hrun.
      * exact Hs.
      * now rewrite Ee.
    + intro E. injection E as <-. eexists. now apply float_of_str_digits.
Qed.

Lemma float_of_search (t m : str) :
  Text.all_chars (fun c => negb (c =? comma)%N) t = true ->
  Text.re_search_price t = Some m ->
  exists v, float_of_str m = Ok v.
Proof.
  induction t as [|c t IH]; cbn [Text.re_search_price]; intros Ht.
  - destruct (Text.match_price_at []) eqn:E; [|discriminate].
    intro E'. injection E' as <-. eapply float_of_match; eassumption.
  - destruct (Text.match_price_at (c :: t)) eqn:E.
    + intro E'. injection E' as <-. eapply float_of_match; eassumption.
    + apply IH. cbn in Ht. now apply andb_true_iff in Ht as [_ Ht].
Qed.

(** The body of the [try] block never raises. *)
Lemma extract_price_body_ok (price_text : str) :
  exists v, extract_price_body price_text = Ok v.
Proof.
  unfold extract_price_body.
  destruct (Text.re_search_price (Text.remove_char comma price_text))
    as [m|] eqn:E.
  - eapply float_of_search; [|exact E]. apply remove_char_clean.
  - eexists. reflexivity.
Qed.

End FloatOfStr.

Section NumberValue.
Import Unicode.
Context {I : Interpreter}.

Lemma digits_to_Z_app (acc : Z) (a b : str) :
  Text.digits_to_Z acc (a ++ b) = Text.digits_to_Z (Text.digits_to_Z acc a) b.
Proof.
  revert acc. induction a as [|x a IH]; intro acc; cbn; [reflexivity|].
  apply IH.
Qed.

Lemma digits_to_Z_acc (acc : Z) (s : str) :
  Text.digits_to_Z acc s
  = (acc * 10 ^ Z.of_nat (List.length s) + Text.digits_to_Z 0 s)%Z.
Proof.
  revert acc. induction s as [|x s IH]; intro acc.
  - cbn. lia.
  - cbn [Text.digits_to_Z List.length].
    rewrite (IH (10 * acc + Text.digit_value x)%Z).
    rewrite (IH (10 * 0 + Text.digit_value x)%Z).
    rewrite Nat2Z.inj_succ, Z.pow_succ_r by lia. ring.
Qed.

Lemma digits_to_Z_nonneg (acc : Z) (s : str) :
  (0 <= acc)%Z -> (0 <= Text.digits_to_Z acc s)%Z.
Proof.
  revert acc. induction s as [|c s IH]; intros acc Ha;
    cbn [Text.digits_to_Z]; [exact Ha|].
  apply IH. pose proof (digit_value_range c). lia.
Qed.

Lemma count_digits_all (s : str) :
  Text.all_chars Text.is_digit s = true -> count_digits s = List.length s.
Proof.
  induction s as [|x s IH]; cbn; [reflexivity|].
  intro E. apply andb_true_iff in E as [Ex Es]. rewrite Ex. now rewrite IH.
Qed.

Lemma integer_value_digits (s : str) :
  Text.all_chars Text.is_digit s = true ->
  integer_value s = Text.digits_to_Z 0 s.
Proof.
  induction s as [|x s IH]; cbn [Text.all_chars]; [reflexivity|].
  intro E. apply andb_true_iff in E as [Ex Es].
  cbn [integer_value Text.digits_to_Z]. rewrite Ex.
  rewrite digits_to_Z_acc, (IH Es), (count_digits_all s Es). ring.
Qed.

Lemma count_digits_remove_comma (s : str) :
  count_digits (Text.remove_char comma s) = count_digits s.
Proof.
  induction s as [|x s IH]; cbn [Text.remove_char count_digits];
    [reflexivity|].
  destruct (x =? comma)%N eqn:E.
  - apply N.eqb_eq in E. subst x. rewrite comma_not_digit. exact IH.
  - cbn [count_digits]. now rewrite IH.
Qed.

Lemma integer_value_remove_comma (s : str) :
  integer_value (Text.remove_char comma s) = integer_value s.
Proof.
  induction s as [|x s IH]; cbn [Text.remove_char integer_value];
    [reflexivity|].
  destruct (x =? comma)%N eqn:E.
  - apply N.eqb_eq in E. subst x. rewrite comma_not_digit. exact IH.
  - cbn [integer_value]. now rewrite IH, count_digits_remove_comma.
Qed.

Local Open Scope Q_scope.

Lemma inject_pow10_succ (n : nat) :
  inject_Z (10 ^ Z.of_nat (S n)) == 10 * inject_Z (10 ^ Z.of_nat n).
Proof.
  rewrite Nat2Z.inj_succ, Z.pow_succ_r by lia.
  rewrite inject_Z_mult. reflexivity.
Qed.

Lemma inject_pow10_nonzero (n : nat) : ~ inject_Z (10 ^ Z.of_nat n) == 0.
Proof.
  intro E. assert (Hpos : (0 < 10 ^ Z.of_nat n)%Z) by (apply Z.pow_pos_nonneg; lia).
  unfold Qeq in E. cbn in E. lia.
Qed.

Lemma fraction_value_digits (hi : Z) (f : str) :
  inject_Z (hi * 10 ^ Z.of_nat (List.length f) + Text.digits_to_Z 0 f)
  / inject_Z (10 ^ Z.of_nat (List.length f))
  == inject_Z hi + fraction_value f.
Proof.
  revert hi. induction f as [|x f IH]; intro hi.
  - cbn [List.length Text.digits_to_Z fraction_value].
    change (10 ^ Z.of_nat 0)%Z with 1%Z. rewrite Z.mul_1_r, Z.add_0_r.
    field.
  - cbn [Text.digits_to_Z fraction_value].
    rewrite (digits_to_Z_acc (10 * 0 + Text.digit_value x) f).
    cbn [List.length].
    specialize (IH (hi * 10 + Text.digit_value x)%Z).
    pose proof (inject_pow10_nonzero (List.length f)) as Hnz.
    pose proof (inject_pow10_succ (List.length f)) as Hs.
    rewrite Hs.
    replace (hi * 10 ^ Z.of_nat (S (List.length f))
             + ((10 * 0 + Text.digit_value x) * 10 ^ Z.of_nat (List.length f)
                + Text.digits_to_Z 0 f))%Z
      with ((hi * 10 + Text.digit_value x) * 10 ^ Z.of_nat (List.length f)
            + Text.digits_to_Z 0 f)%Z
      by (rewrite Nat2Z.inj_succ, Z.pow_succ_r by lia; ring).
    assert (E : inject_Z ((hi * 10 + Text.digit_value x) * 10 ^ Z.of_nat (List.length f) + Text.digits_to_Z 0 f)
                == (inject_Z (hi * 10 + Text.digit_value x) + fraction_value f) * inject_Z (10 ^ Z.of_nat (List.length f))).
    { rewrite <- IH. field. exact Hnz. }
    rewrite E. rewrite inject_Z_plus, inject_Z_mult. field. exact Hnz.
Qed.

(** The number as a count of units of its last decimal place, over the
    power of ten of its decimal places, is its value. *)
Lemma scaled_value_number (ip : str) (frac : option str) :
  fraction_part frac = true ->
  inject_Z (scaled_value ip frac)
  / inject_Z (10 ^ Z.of_nat (decimal_places frac))
  == number_value ip frac.
Proof.
  unfold scaled_value, decimal_places, number_value.
  destruct frac as [f|]; cbn [fraction_part]; intro Hf.
  - apply andb_true_iff in Hf as [_ Hf].
    rewrite (integer_value_digits f Hf). apply fraction_value_digits.
  - change (10 ^ Z.of_nat 0)%Z with 1%Z. field.
Qed.

End NumberValue.

Section PriceContract.
Import Unicode.
Context {I : Interpreter}.

Lemma groups_of_three_price_chars (n : nat) (s : str) :
  (List.length s <= n)%nat ->
  groups_of_three s = true -> Text.all_chars Text.price_char s = true.
Proof.
  revert s. induction n as [|n IH]; intros s Hn.
  - destruct s; [reflexivity | cbn in Hn; lia].
  - destruct s as [|sep [|a [|b [|c rest]]]]; cbn [groups_of_three];
      try reflexivity; try discriminate.
    intro E. repeat (apply andb_true_iff in E as [E ?]).
    cbn [Text.all_chars]. unfold Text.price_char at 1 2 3 4.
    repeat match goal with
           | Hx : _ = true |- _ => rewrite Hx; clear Hx
           end.
    cbn. rewrite orb_true_r. cbn. apply IH; [cbn in Hn; lia | assumption].
Qed.

Lemma integer_part_clean (ip : str) :
  integer_part ip = true ->
  Text.remove_char comma ip <> []
  /\ Text.all_chars Text.is_digit (Text.remove_char comma ip) = true.
Proof.
  unfold integer_part.
  pose proof (span_append Text.is_digit ip) as Happ.
  pose proof (span_satisfies Text.is_digit ip) as Hlead.
  destruct (Text.span Text.is_digit ip) as [lead rest]. cbn [fst snd] in *.
  intro E. apply andb_true_iff in E as [Elead Erest].
  assert (Hrest : Text.all_chars Text.price_char rest = true).
  { apply orb_true_iff in Erest as [Er | Er].
    - destruct rest; [reflexivity | discriminate].
    - apply andb_true_iff in Er as [_ Er].
      now apply (groups_of_three_price_chars (List.length rest)). }
  subst ip. split.
  - destruct lead as [|d lead]; [discriminate|].
    cbn [Text.all_chars] in Hlead. apply andb_true_iff in Hlead as [Hd _].
    cbn. rewrite (digit_not_comma d Hd). discriminate.
  - assert (Hall : Text.all_chars Text.price_char (lead ++ rest) = true).
    { rewrite all_chars_app, Hrest, andb_true_r.
      exact (all_chars_impl _ _ lead digit_is_price_char Hlead). }
    apply (all_chars_remove_char _ comma) in Hall.
    now apply price_chars_without_comma.
Qed.

Lemma no_digit_clean (s : str) :
  no_digit s = true ->
  Text.all_chars (fun c => negb (Text.price_char c))
                 (Text.remove_char comma s) = true.
Proof.
  intro Hs. apply (all_chars_remove_char _ comma) in Hs.
  eapply all_chars_impl; [|exact Hs]. cbn. intros c Ec.
  apply andb_true_iff in Ec as [E1 E2]. unfold Text.price_char.
  apply negb_true_iff in E1, E2. now rewrite E1, E2.
Qed.

Lemma outside_price_outside_digit (s : str) :
  Text.all_chars (fun c => negb (Text.price_char c)) s = true ->
  Text.starts_outside Text.is_digit s = true
  /\ Text.starts_outside Text.price_char s = true.
Proof.
  destruct s as [|c s]; cbn; [now split|].
  intro E. apply andb_true_iff in E as [E _]. split; [|exact E].
  unfold Text.price_char in E. apply negb_true_iff in E.
  apply orb_false_iff in E as [E _]. now rewrite E.
Qed.

(** The digits that [float] is given for a number: those of its integer
    part, then those of its fraction. *)
Lemma digits_of_number (ip' f : str) (n : Z) :
  Text.all_chars Text.is_digit f = true ->
  Text.digits_to_Z 0 ip' = n ->
  Text.digits_to_Z 0 (ip' ++ f)
  = (n * 10 ^ Z.of_nat (List.length f) + integer_value f)%Z.
Proof.
  intros Hf <-. rewrite digits_to_Z_app, digits_to_Z_acc.
  now rewrite (integer_value_digits f Hf).
Qed.

(** What the search finds, and what [float] makes of it, in a text whose
    only digits are those of one number. *)
Lemma search_number {F : Type} `{PyFloat F} (pre ip post : str)
    (frac : option str) :
  no_digit pre = true -> no_digit post = true ->
  well_formed_number ip frac = true ->
  exists m,
    Text.re_search_price
      (Text.remove_char comma (pre ++ number_text ip frac ++ post))
    = Some m
    /\ float_of_str (F:=F) m
       = Ok (of_decimal (scaled_value ip frac) (decimal_places frac)).
Proof.
  intros Hpre Hpost Hwf. unfold well_formed_number in Hwf.
  apply andb_true_iff in Hwf as [Hip Hfrac].
  destruct (integer_part_clean ip Hip) as [Hne Hd].
  apply no_digit_clean in Hpre, Hpost.
  rewrite !remove_char_app, (re_search_price_skip _ _ Hpre).
  set (ip' := Text.remove_char comma ip) in *.
  set (post' := Text.remove_char comma post) in *.
  assert (Hint : Text.digits_to_Z 0 ip' = integer_value ip).
  { rewrite <- (integer_value_digits ip' Hd). apply integer_value_remove_comma. }
  destruct (outside_price_outside_digit post' Hpost) as [Hpd Hpp].
  unfold scaled_value, decimal_places.
  destruct frac as [f|]; cbn [number_text].
  - cbn [fraction_part] in Hfrac. apply andb_true_iff in Hfrac as [Hfne Hf].
    rewrite remove_char_app. fold ip'. cbn [Text.remove_char].
    change (point =? comma)%N with false. cbv iota.
    rewrite (remove_char_absent comma f (digits_without_comma f Hf)).
    rewrite <- app_assoc.
    change ((point :: f) ++ post') with (point :: (f ++ post')).
    exists (ip' ++ point :: f). split.
    + apply re_search_price_hit. rewrite match_price_at_run by auto.
      rewrite N.eqb_refl.
      now rewrite (span_app Text.is_digit f post' Hf Hpd).
    + rewrite float_of_str_point; [| exact Hd | exact Hf |].
      * now rewrite (digits_of_number ip' f _ Hf Hint).
      * destruct ip'; [contradiction | reflexivity].
  - rewrite <- Hint. destruct post' as [|c rest] eqn:Ep.
    + exists ip'. split.
      * apply re_search_price_hit. now rewrite match_price_at_run.
      * now apply float_of_str_digits.
    + destruct (c =? point)%N eqn:Ec.
      * exists (ip' ++ point :: []). split.
        -- apply re_search_price_hit. rewrite match_price_at_run by auto.
           rewrite Ec.
           cbn [Text.all_chars] in Hpost.
           apply andb_true_iff in Hpost as [_ Hrest].
           destruct (outside_price_outside_digit rest Hrest) as [Hrd _].
           now rewrite (span_outside Text.is_digit rest Hrd).
        -- rewrite float_of_str_point; [| exact Hd | reflexivity |].
           ++ now rewrite app_nil_r.
           ++ destruct ip'; [contradiction | reflexivity].
      * exists ip'. split.
        -- apply re_search_price_hit. rewrite match_price_at_run by auto.
           now rewrite Ec.
        -- now apply float_of_str_digits.
Qed.

Lemma extract_price_of_number {F : Type} `{PyFloat F} (pre ip post : str)
    (frac : option str) :
  no_digit pre = true -> no_digit post = true ->
  well_formed_number ip frac = true ->
  extract_price (F:=F) (pre ++ number_text ip frac ++ post)
  = of_decimal (scaled_value ip frac) (decimal_places frac).
Proof.
  intros Hpre Hpost Hwf.
  destruct (search_number (F:=F) pre ip post frac Hpre Hpost Hwf)
    as (m & Hm & Hv).
  unfold extract_price, extract_price_body. now rewrite Hm, Hv.
Qed.

Lemma extract_price_without_digit {F : Type} `{PyFloat F} (price_text : str) :
  no_digit price_text = true -> extract_price (F:=F) price_text = dec 0 1.
Proof.
  intro Hnd.
  assert (Hs : Text.re_search_price (Text.remove_char comma price_text)
               = None).
  { rewrite <- (app_nil_r (Text.remove_char comma price_text)).
    rewrite (re_search_price_skip _ [] (no_digit_clean price_text Hnd)).
    reflexivity. }
  unfold extract_price, extract_price_body. now rewrite Hs.
Qed.

(** C7.  The price parser never raises: the body of its [try] block
    always produces a number, so the handler is not even needed.  On a text
    whose only digits are those of one number, written with an integer
    part, with or without thousands separators, with or without a
    fraction, and surrounded by text without digits (a currency symbol, a
    unit), it returns the value that the digits and the point denote: in
    exact arithmetic that value, in binary64 the double nearest to it.
    Whatever stands before the first digit is skipped, a minus sign or a
    point included.  On a text without digits it returns 0. *)
Theorem extract_price_contract :
  (forall price_text : str,
     (exists v : Q, extract_price_body price_text = Ok v)
     /\ (exists v : float, extract_price_body price_text = Ok v))
  /\ (forall (pre int_part post : str) (frac : option str),
        no_digit pre = true -> no_digit post = true ->
        well_formed_number int_part frac = true ->
        extract_price (F:=Q) (pre ++ number_text int_part frac ++ post)
        == number_value int_part frac
        /\ extract_price (F:=float) (pre ++ number_text int_part frac ++ post)
           = float_of_decimal (scaled_value int_part frac)
                              (decimal_places frac)
        /\ inject_Z (scaled_value int_part frac)
           / inject_Z (10 ^ Z.of_nat (decimal_places frac))
           == number_value int_part frac)
  /\ (forall price_text : str,
        no_digit price_text = true ->
        extract_price (F:=Q) price_text == 0
        /\ extract_price (F:=float) price_text = 0%float).
Proof.
  split; [|split].
  - intro price_text. split; apply extract_price_body_ok.
  - intros pre int_part post frac Hpre Hpost Hwf.
    assert (Hval : inject_Z (scaled_value int_part frac)
                   / inject_Z (10 ^ Z.of_nat (decimal_places frac))
                   == number_value int_part frac).
    { apply scaled_value_number. unfold well_formed_number in Hwf.
      now apply andb_true_iff in Hwf as [_ Hf]. }
    split; [|split; [|exact Hval]].
    + rewrite (extract_price_of_number (F:=Q)) by assumption. exact Hval.
    + now rewrite (extract_price_of_number (F:=float)) by assumption.
  - intros price_text Hnd.
    rewrite (extract_price_without_digit (F:=Q)),
            (extract_price_without_digit (F:=float)) by assumption.
    split; reflexivity.
Qed.

End PriceContract.

Lemma extract_price_contract_witness :
  no_digit (I := cpython_3_11) (Unicode.of_string "US$") = true
  /\ no_digit (I := cpython_3_11) (Unicode.of_string " per night") = true
  /\ well_formed_number (I := cpython_3_11) (Unicode.of_string "1,234")
       (Some (Unicode.of_string "56")) = true
  /\ extract_price (F:=Q) (I := cpython_3_11)
       (Unicode.of_string "US$"
        ++ number_text (Unicode.of_string "1,234")
             (Some (Unicode.of_string "56"))
        ++ Unicode.of_string " per night")
     == number_value (I := cpython_3_11) (Unicode.of_string "1,234")
          (Some (Unicode.of_string "56")).
Proof.
  split; [reflexivity|]. split; [reflexivity|]. split; [reflexivity|].
  apply (proj1 (proj2 (extract_price_contract (I := cpython_3_11)))
           (Unicode.of_string "US$") (Unicode.of_string "1,234")
           (Unicode.of_string " per night")
           (Some (Unicode.of_string "56"))); reflexivity.
Defined.

(** C7, the cases that refute the claim as it stands.  The text "-5.50"
    is a minus sign and the digits of 5.50: it holds the single number
    -5.50, and the parser returns 5.5.  The text "$.99" is a currency
    symbol, a point and the digits 99: it holds the single number .99, and
    the parser returns 99.  In both the digits are read from the first
    digit on, without what stands before it. *)
Lemma extract_price_misreads_sign_and_leading_point :
  Samples.signed_price
  = Unicode.minus_sign
    :: number_text (Unicode.of_string "5") (Some (Unicode.of_string "50"))
  /\ extract_price (F:=Q) (I := cpython_3_11) Samples.signed_price == 55 # 10
  /\ ~ extract_price (F:=Q) (I := cpython_3_11) Samples.signed_price
       == - (55 # 10)
  /\ extract_price (F:=float) (I := cpython_3_11) Samples.signed_price
     = 5.5%float
  /\ Samples.pointed_price
     = Unicode.of_string "$" ++ Unicode.point :: Unicode.of_string "99"
  /\ extract_price (F:=Q) (I := cpython_3_11) Samples.pointed_price == 99
  /\ ~ extract_price (F:=Q) (I := cpython_3_11) Samples.pointed_price
       == 99 # 100
  /\ extract_price (F:=float) (I := cpython_3_11) Samples.pointed_price
     = 99%float.
Proof. repeat split; vm_compute; congruence. Qed.

(** Texts in binary64: the nearest doubles, beyond [2^53] and beyond
    [2^63] too, and a price in Arabic-Indic digits. *)
Lemma extract_price_binary64_examples :
  extract_price (F:=float) (I := cpython_3_11)
    (Unicode.of_string "US$1,234.56 per night") = 1234.56%float
  /\ extract_price (F:=float) (I := cpython_3_11) (Unicode.of_string "35")
     = 35%float
  /\ extract_price (F:=float) (I := cpython_3_11)
       (Unicode.of_string "from 40. EUR") = 40%float
  /\ extract_price (F:=float) (I := cpython_3_11)
       (Unicode.of_string "price on request") = 0%float
  /\ extract_price (F:=float) (I := cpython_3_11)
       (Unicode.of_string "0.1") = 0.1%float
  /\ extract_price (F:=float) (I := cpython_3_11)
       (Unicode.of_string "9007199254740993") = 9007199254740992%float
  /\ extract_price (F:=float) (I := cpython_3_11)
       (Unicode.of_string "12345678901234567.89") = 12345678901234568%float
  /\ extract_price (F:=float) (I := cpython_3_11)
       (Unicode.of_string "18446744073709551617")
     = 18446744073709551616%float
  /\ extract_price (F:=float) (I := cpython_3_11) Samples.arabic_indic_price
     = 35%float
  /\ extract_price (F:=Q) (I := cpython_3_11) Samples.arabic_indic_price
     == 35
  /\ number_value (I := cpython_3_11) (Unicode.of_string "1,234")
       (Some (Unicode.of_string "56")) == 123456 # 100.
Proof. repeat split; vm_compute; reflexivity. Qed.

(** * Further properties *)

(** ** Value score: faults, range, saturation *)

Section ValueScoreMore.
Local Open Scope Q_scope.

Local Abbreviation listing := (DetailedPropertyListing.t Q).
Local Abbreviation criteria := (SearchCriteria.t Q).
Local Abbreviation price := DetailedPropertyListing.price_per_night.
Local Abbreviation max_price := SearchCriteria.max_price_per_night.
Local Abbreviation with_price := DetailedPropertyListing.with_price.

(** A positive price against a zero budget stops the price block. *)
Lemma value_score_budget_fault (l : listing) (c : criteria) :
  0 < price l -> max_price c == 0 ->
  calculate_value_score l c = Raise ZeroDivisionError.
Proof.
  intros Hp Hm. unfold calculate_value_score.
  apply fltb_Q_true in Hp. change (of_int 0) with (0:Q). rewrite Hp.
  unfold py_div. apply feqb_Q_true in Hm. change (of_int 0) with (0:Q).
  rewrite Hm. reflexivity.
Qed.

(** The value score raises exactly when a division has a zero divisor:
    a positive price against a budget of 0, or a listing with amenities
    against criteria without; no other exception can occur. *)
Theorem value_score_faults (l : listing) (c : criteria) :
  (calculate_value_score l c = Raise ZeroDivisionError
   <-> (0 < price l /\ max_price c == 0)
       \/ (DetailedPropertyListing.amenities l <> []
           /\ SearchCriteria.amenities c = []))
  /\ (forall e, calculate_value_score l c = Raise e -> e = ZeroDivisionError).
Proof.
  assert (Hcases :
    (0 < price l /\ max_price c == 0)
    \/ ((0 < price l -> ~ max_price c == 0)
        /\ ((DetailedPropertyListing.amenities l <> []
             /\ SearchCriteria.amenities c = [])
            \/ amenity_block_safe l c))).
  { destruct (Qlt_le_dec 0 (price l)) as [Hp | Hp].
    - destruct (Qeq_dec (max_price c) 0) as [Hm | Hm]; [left; now split|].
      right. split; [intros _; exact Hm|].
      unfold amenity_block_safe.
      destruct (DetailedPropertyListing.amenities l) as [|a la];
        [right; left; reflexivity|].
      destruct (SearchCriteria.amenities c) as [|b lc].
      + left. split; [discriminate | reflexivity].
      + right. right. discriminate.
    - right. split; [intro Hp'; exfalso; apply (Qlt_not_le _ _ Hp' Hp)|].
      unfold amenity_block_safe.
      destruct (DetailedPropertyListing.amenities l) as [|a la];
        [right; left; reflexivity|].
      destruct (SearchCriteria.amenities c) as [|b lc].
      + left. split; [discriminate | reflexivity].
      + right. right. discriminate. }
  destruct Hcases as [[Hp Hm] | [Hm [[Hl Hc] | Hsafe]]].
  - pose proof (value_score_budget_fault l c Hp Hm) as E. rewrite E. split.
    + split; [intros _; left; now split | reflexivity].
    + intros e He. now injection He as <-.
  - pose proof (value_score_amenity_fault l c Hm Hl Hc) as E. rewrite E. split.
    + split; [intros _; right; now split | reflexivity].
    + intros e He. now injection He as <-.
  - destruct (value_score_decomposition l c Hm Hsafe) as (v & Hv & _).
    rewrite Hv. split.
    + split; [discriminate|]. intros [[Hp Hz] | [Hl Hc]]; exfalso.
      * exact (Hm Hp Hz).
      * destruct Hsafe as [Hs | Hs]; [exact (Hl Hs) | exact (Hs Hc)].
    + intros e He. discriminate He.
Qed.

Lemma matching_amenities_length (wanted have : list string) :
  (len (matching_amenities wanted have) <= len wanted)%Z.
Proof.
  unfold len, matching_amenities. apply inj_le. apply filter_length_le.
Qed.

Lemma ratio_in_unit (a b : Z) :
  (0 <= a <= b)%Z -> (0 < b)%Z -> 0 <= inject_Z a / inject_Z b <= 1.
Proof.
  intros [Ha Hab] Hb.
  assert (Hb' : 0 < inject_Z b) by (unfold Qlt; cbn; lia).
  split.
  - apply Qle_shift_div_l; [exact Hb'|]. rewrite Qmult_0_l.
    unfold Qle; cbn; lia.
  - apply Qle_shift_div_r; [exact Hb'|]. rewrite Qmult_1_l.
    unfold Qle; cbn; lia.
Qed.

Lemma price_points_range (l : listing) (c : criteria) :
  0 < max_price c -> 0 <= price_points l c <= 40.
Proof.
  intro Hm. unfold price_points.
  destruct (fltb 0 (price l)) eqn:Ep; [|split; unfold Qle; cbn; lia].
  apply fltb_Q_true in Ep.
  assert (Hq : 0 <= price l / max_price c).
  { apply Qle_shift_div_l; [exact Hm|]. rewrite Qmult_0_l.
    now apply Qlt_le_weak. }
  pose proof (Q.le_max_l 0 (100 - price l / max_price c * 100)) as H0.
  assert (H1 : Qmax 0 (100 - price l / max_price c * 100) <= 100).
  { apply Q.max_lub; lra. }
  split; lra.
Qed.

Lemma amenity_points_range (l : listing) (c : criteria) :
  amenity_block_safe l c -> 0 <= amenity_points l c <= 30.
Proof.
  intro Hs. unfold amenity_points.
  destruct (nonempty (DetailedPropertyListing.amenities l)) eqn:En;
    [|split; unfold Qle; cbn; lia].
  assert (Hc : SearchCriteria.amenities c <> []).
  { destruct Hs as [Hs | Hs]; [rewrite Hs in En; discriminate | exact Hs]. }
  assert (Hlen : (0 < len (SearchCriteria.amenities c))%Z).
  { unfold len. destruct (SearchCriteria.amenities c); [contradiction|].
    cbn [List.length]. lia. }
  pose proof (matching_amenities_length (SearchCriteria.amenities c)
                (DetailedPropertyListing.amenities l)) as Hle.
  assert (H0 : (0 <= len (matching_amenities (SearchCriteria.amenities c)
                            (DetailedPropertyListing.amenities l)))%Z)
    by (unfold len; lia).
  pose proof (ratio_in_unit _ _ (conj H0 Hle) Hlen) as [Hr0 Hr1].
  split; lra.
Qed.

(** With a positive budget and ratings between 0 and 5 the value score
    lies between 0 and 100. *)
Theorem value_score_range (l : listing) (c : criteria) :
  0 < max_price c ->
  amenity_block_safe l c ->
  Listing.rating_in_range (DetailedPropertyListing.rating l) ->
  Listing.rating_in_range (DetailedPropertyListing.host_rating l) ->
  exists v, calculate_value_score l c = Ok v /\ 0 <= v <= 100.
Proof.
  intros Hm Hs Hr Hh.
  destruct (value_score_decomposition l c) as (v & Hv & Hd);
    [intros _ E; rewrite E in Hm; now apply Qlt_irrefl in Hm | exact Hs |].
  exists v. split; [exact Hv|]. rewrite Hd.
  pose proof (price_points_range l c Hm) as Hp.
  pose proof (amenity_points_range l c Hs) as Ha.
  assert (Hrp : 0 <= rating_points l <= 20).
  { unfold rating_points. unfold Listing.rating_in_range in Hr.
    destruct (DetailedPropertyListing.rating l) as [r|]; [|split; unfold Qle; cbn; lia].
    assert (E : r / 5 * 100 * (1#5) == r * 4) by field.
    rewrite E. split; lra. }
  assert (Hhp : 0 <= host_points l <= 10).
  { unfold host_points. unfold Listing.rating_in_range in Hh.
    destruct (DetailedPropertyListing.host_rating l) as [r|]; [|split; unfold Qle; cbn; lia].
    assert (E : r / 5 * 100 * (1#10) == r * 2) by field.
    rewrite E. split; lra. }
  split; lra.
Qed.

(** From the budget upwards the price adds nothing: every price at or
    above [max_price_per_night] gives the score of the amenity, rating and
    host blocks alone. *)
Theorem price_at_or_above_budget_adds_nothing (l : listing) (c : criteria) (p : Q) :
  0 < max_price c -> max_price c <= p ->
  amenity_block_safe l c ->
  exists v,
    calculate_value_score (with_price l p) c = Ok v
    /\ v == amenity_points l c + rating_points l + host_points l.
Proof.
  intros Hm Hp Hs.
  destruct (value_score_decomposition (with_price l p) c) as (v & Hv & Hd);
    [intros _ E; rewrite E in Hm; now apply Qlt_irrefl in Hm | exact Hs |].
  exists v. split; [exact Hv|]. rewrite Hd.
  change (amenity_points (with_price l p) c) with (amenity_points l c).
  change (rating_points (with_price l p)) with (rating_points l).
  change (host_points (with_price l p)) with (host_points l).
  assert (Hpp : price_points (with_price l p) c == 0).
  { unfold price_points. cbn.
    assert (H0 : 0 < p) by (eapply Qlt_le_trans; eassumption).
    apply fltb_Q_true in H0. cbn in H0. rewrite H0.
    assert (Hq : 1 <= p / max_price c).
    { apply Qle_shift_div_l; [exact Hm|]. now rewrite Qmult_1_l. }
    rewrite Q.max_l by lra. reflexivity. }
  rewrite Hpp. lra.
Qed.

Lemma value_score_range_witness :
  0 < max_price (Examples.criteria (F:=Q))
  /\ exists v, calculate_value_score (F:=Q) L1 Examples.criteria = Ok v
             /\ 0 <= v <= 100.
Proof.
  split; [reflexivity|].
  apply (value_score_range L1 Examples.criteria).
  - reflexivity.
  - right. discriminate.
  - cbn. split; unfold Qle; simpl; lia.
  - exact I.
Defined.

Lemma price_at_or_above_budget_adds_nothing_witness :
  max_price (Examples.criteria (F:=Q)) <= 50
  /\ exists v,
       calculate_value_score (with_price L1 50) Examples.criteria = Ok v
       /\ v == amenity_points L1 Examples.criteria
               + rating_points (L1 (F:=Q)) + host_points (L1 (F:=Q)).
Proof.
  split; [unfold Qle; simpl; lia|].
  apply (price_at_or_above_budget_adds_nothing L1 Examples.criteria 50).
  - reflexivity.
  - unfold Qle; simpl; lia.
  - right. discriminate.
Defined.

(** A rating of 0 is falsy: it is scored like a missing rating, the 0.2
    block being skipped in both cases. *)
Theorem zero_rating_scored_as_missing (l : listing) (c : criteria) (r : Q) :
  r == 0 ->
  calculate_value_score (Listing.with_rating l (Some r)) c
  = calculate_value_score (Listing.with_rating l None) c.
Proof.
  intro Hr. unfold calculate_value_score.
  change (DetailedPropertyListing.rating (Listing.with_rating l (Some r)))
    with (Some r).
  change (DetailedPropertyListing.rating (Listing.with_rating l None))
    with (@None Q).
  assert (Ht : truthy r = false).
  { unfold truthy. apply negb_false_iff. now apply feqb_Q_true. }
  cbv beta iota. rewrite Ht. reflexivity.
Qed.

Lemma zero_rating_scored_as_missing_witness :
  calculate_value_score (Listing.with_rating L1 (Some (0#7))) Examples.criteria
  = calculate_value_score (Listing.with_rating (F:=Q) L1 None) Examples.criteria.
Proof.
  apply (zero_rating_scored_as_missing L1 Examples.criteria (0#7)).
  reflexivity.
Defined.

End ValueScoreMore.

(** ** Location score: containment *)

Section LocationMore.
Local Open Scope string_scope.

Lemma lower_app (a b : string) :
  Text.lower (a ++ b) = Text.lower a ++ Text.lower b.
Proof. induction a as [|x a IH]; cbn; [reflexivity | now rewrite IH]. Qed.

Lemma prefix_app (n b : string) : String.prefix n (n ++ b) = true.
Proof.
  induction n as [|x n IH]; cbn; [destruct b; reflexivity|].
  destruct (ascii_dec x x) as [_ | Hx]; [exact IH | contradiction].
Qed.

Lemma contains_app (n a b : string) : Text.contains n (a ++ n ++ b) = true.
Proof.
  induction a as [|x a IH].
  - cbn [append]. destruct (n ++ b) eqn:E; cbn [Text.contains];
      rewrite <- E, prefix_app; reflexivity.
  - change (String x a ++ n ++ b) with (String x (a ++ n ++ b)).
    cbn [Text.contains]. rewrite IH. apply orb_true_r.
Qed.

(** Any location whose text has the letters b, a, r in a row, in either
    case and anywhere ("Bar", "Barcelona", "Zanzibar"), scores 80, whatever
    else it contains. *)
Theorem bar_anywhere_scores_80 (l : DetailedPropertyListing.t Q)
    (c : SearchCriteria.t Q) (a w b : string) :
  DetailedPropertyListing.location l = a ++ w ++ b ->
  Text.lower w = "bar" ->
  (calculate_location_score l c == 80)%Q.
Proof.
  intros Hl Hw. unfold calculate_location_score. cbv zeta.
  rewrite Hl, !lower_app, Hw, contains_app. reflexivity.
Qed.

Lemma bar_anywhere_scores_80_witness :
  (calculate_location_score (F:=Q)
     (Examples.listing "Airbnb" "Flat" 35%Q "Sutomore near ZanziBAR club" None [])
     Examples.criteria == 80)%Q.
Proof.
  apply (bar_anywhere_scores_80 _ Examples.criteria
           "Sutomore near Zanzi" "BAR" " club"); reflexivity.
Defined.

End LocationMore.

(** ** Ranking: composition *)

Section RankingMore.
Local Open Scope Q_scope.

Lemma py_sorted_of_sorted {A} (key : A -> Q) (l : list A) :
  StronglySorted (fun a b => key b <= key a) l ->
  py_sorted (descending_by key) l = l.
Proof.
  induction 1 as [|x l Hs IH Hx]; [reflexivity|].
  cbn [py_sorted fold_right]. fold (py_sorted (descending_by key) l).
  rewrite IH. destruct l as [|y l]; [reflexivity|].
  cbn [insert_stable]. inversion Hx as [|? ? Hy _]; subst.
  unfold descending_by. apply fltb_Q_false in Hy. now rewrite Hy.
Qed.

(** Ranking a ranked list changes nothing. *)
Theorem ranking_idempotent (ls : list (DetailedPropertyListing.t Q)) :
  sort_by_overall_score (sort_by_overall_score ls) = sort_by_overall_score ls.
Proof.
  unfold sort_by_overall_score. apply py_sorted_of_sorted.
  apply (py_sorted_descending overall_key).
Qed.



Lemma insert_ascending {A} (key : A -> Q) (x : A) (l : list A) :
  StronglySorted (fun a b => key a <= key b) l ->
  StronglySorted (fun a b => key a <= key b)
    (insert_stable (ascending_by key) x l).
Proof.
  induction 1 as [|y l Hs IH Hy]; cbn [insert_stable].
  - constructor; constructor.
  - destruct (ascending_by key y x) eqn:E; unfold ascending_by in E.
    + apply fltb_Q_true in E. constructor; [exact IH|].
      apply (Permutation_Forall (insert_stable_perm (ascending_by key) x l)).
      constructor; [|exact Hy]. now apply Qlt_le_weak.
    + apply fltb_Q_false in E. constructor.
      * now constructor.
      * constructor; [exact E|].
        eapply Forall_impl; [|exact Hy].
        intros z Hz. cbv beta in *. eapply Qle_trans; eassumption.
Qed.

Lemma py_sorted_ascending {A} (key : A -> Q) (l : list A) :
  StronglySorted (fun a b => key a <= key b) (py_sorted (ascending_by key) l).
Proof.
  induction l as [|x l IH]; cbn [py_sorted fold_right].
  - constructor.
  - now apply insert_ascending.
Qed.

Lemma sorted_app_order {A} (R : A -> A -> Prop) (l1 l2 : list A) :
  StronglySorted R (l1 ++ l2) ->
  forall a b, In a l1 -> In b l2 -> R a b.
Proof.
  induction l1 as [|x l1 IH]; intros Hs a b Ha Hb; [contradiction|].
  cbn in Hs. inversion Hs as [|? ? Hs' Hx]; subst.
  destruct Ha as [<- | Ha].
  - rewrite Forall_forall in Hx. apply Hx. apply in_or_app. now right.
  - now apply IH.
Qed.

(** The pages visited for a platform are those of its cheapest listings:
    at most five, and none dearer than a listing left out. *)
Theorem top_listings_cheapest (listings : list (PropertyListing.t Q)) :
  List.length (top_listings listings) = Nat.min 5 (List.length listings)
  /\ exists rest,
       Permutation listings (top_listings listings ++ rest)
       /\ forall a b, In a (top_listings listings) -> In b rest ->
          PropertyListing.price_per_night a <= PropertyListing.price_per_night b.
Proof.
  unfold top_listings.
  set (sorted := py_sorted (ascending_by PropertyListing.price_per_night) listings).
  assert (Hperm : Permutation listings sorted) by apply py_sorted_perm.
  split.
  - rewrite length_firstn. now rewrite (Permutation_length Hperm).
  - exists (skipn 5 sorted). split.
    + now rewrite firstn_skipn.
    + apply (sorted_app_order
               (fun a b => PropertyListing.price_per_night a
                           <= PropertyListing.price_per_night b)).
      rewrite firstn_skipn. apply py_sorted_ascending.
Qed.

(** The listings of the best-value cohort are the first five of the
    ranking, and none of them has a lower overall score than a ranked
    listing outside the cohort. *)
Theorem best_value_dominates (ls : list (DetailedPropertyListing.t Q)) :
  let ranked := sort_by_overall_score ls in
  List.length (best_value ranked) = Nat.min 5 (List.length ls)
  /\ exists rest,
       ranked = best_value ranked ++ rest
       /\ forall a b, In a (best_value ranked) -> In b rest ->
          overall_key b <= overall_key a.
Proof.
  cbv zeta. unfold best_value.
  set (ranked := sort_by_overall_score ls).
  assert (Hperm : Permutation ls ranked) by apply py_sorted_perm.
  split.
  - rewrite length_firstn. now rewrite (Permutation_length Hperm).
  - exists (skipn 5 ranked). split.
    + now rewrite firstn_skipn.
    + apply (sorted_app_order (fun a b => overall_key b <= overall_key a)).
      rewrite firstn_skipn. apply (py_sorted_descending overall_key).
Qed.

End RankingMore.

Section ScoringLoop.
Context {F : Type} `{PyFloat F}.

Lemma score_listings_inv (criteria : SearchCriteria.t F)
    (ls scored : list (DetailedPropertyListing.t F)) :
  score_listings criteria ls = Ok scored ->
  Forall2 (scored_from criteria) ls scored.
Proof.
  revert scored. induction ls as [|l ls IH]; cbn [score_listings]; intros scored.
  - intro E. injection E as <-. constructor.
  - unfold score_listing.
    destruct (calculate_value_score l criteria) as [v|e] eqn:Ev; cbn [bind];
      [|discriminate].
    destruct (score_listings criteria ls) as [others|e]; cbn [bind];
      [|discriminate].
    intro E. injection E as <-. constructor; [|now apply IH].
    exists v. split; [assumption | reflexivity].
Qed.

Lemma score_listings_total (criteria : SearchCriteria.t F)
    (ls : list (DetailedPropertyListing.t F)) :
  Forall (fun l => exists v, calculate_value_score l criteria = Ok v) ls ->
  exists scored, score_listings criteria ls = Ok scored.
Proof.
  induction 1 as [|l ls [v Hv] _ [others IH]]; cbn [score_listings].
  - eexists; reflexivity.
  - unfold score_listing. rewrite Hv. cbn [bind]. rewrite IH. cbn [bind].
    eexists; reflexivity.
Qed.

Lemma score_listings_bases (criteria : SearchCriteria.t F)
    (ls scored : list (DetailedPropertyListing.t F)) :
  score_listings criteria ls = Ok scored ->
  map DetailedPropertyListing.base scored
  = map DetailedPropertyListing.base ls.
Proof.
  intro Hs. apply score_listings_inv in Hs.
  induction Hs as [|l s ls scored (v & _ & ->) _ IH]; [reflexivity|].
  cbn [map]. now rewrite IH.
Qed.

(** The scoring loop is all or nothing: it ends normally exactly when
    every listing can be scored, and then each listing comes back in its
    place with its data untouched and its three scores set, the overall
    score being the mean of the other two. *)
Theorem score_listings_all_or_nothing (criteria : SearchCriteria.t F)
    (ls : list (DetailedPropertyListing.t F)) :
  ((exists scored, score_listings criteria ls = Ok scored)
   <-> Forall (fun l => exists v, calculate_value_score l criteria = Ok v) ls)
  /\ forall scored,
       score_listings criteria ls = Ok scored ->
       Forall2 (scored_from criteria) ls scored
       /\ map DetailedPropertyListing.base scored
          = map DetailedPropertyListing.base ls.
Proof.
  split.
  - split; [|apply score_listings_total].
    intros [scored Hs]. apply score_listings_inv in Hs.
    induction Hs as [|l s ls scored (v & Hv & _) _ IH]; constructor.
    + now exists v.
    + exact IH.
  - intros scored Hs. split.
    + now apply score_listings_inv.
    + exact (score_listings_bases criteria ls scored Hs).
Qed.

End ScoringLoop.

(** ** Market aggregator *)

Section DictFacts.
Context {V : Type}.

Lemma dict_get_set_same (k : string) (v : V) (d : list (string * V)) :
  Dict.get k (Dict.set k v d) = Some v.
Proof.
  induction d as [|[k' v'] d IH]; cbn.
  - now rewrite String.eqb_refl.
  - destruct (String.eqb k k') eqn:E; cbn.
    + now rewrite String.eqb_refl.
    + now rewrite E.
Qed.

Lemma dict_get_set_other (k k' : string) (v : V) (d : list (string * V)) :
  k <> k' -> Dict.get k' (Dict.set k v d) = Dict.get k' d.
Proof.
  intro Hk. induction d as [|[k0 v0] d IH]; cbn.
  - destruct (String.eqb k' k) eqn:E; [|reflexivity].
    apply String.eqb_eq in E. congruence.
  - destruct (String.eqb k k0) eqn:E; cbn.
    + apply String.eqb_eq in E. subst k0.
      destruct (String.eqb k' k) eqn:E'; [|reflexivity].
      apply String.eqb_eq in E'. congruence.
    + now rewrite IH.
Qed.

Lemma dict_set_keys (k : string) (v : V) (d : list (string * V)) :
  map fst (Dict.set k v d)
  = match Dict.get k d with
    | Some _ => map fst d
    | None => map fst d ++ [k]
    end.
Proof.
  induction d as [|[k0 v0] d IH]; cbn; [reflexivity|].
  destruct (String.eqb k k0) eqn:E; cbn.
  - apply String.eqb_eq in E. now subst k0.
  - rewrite IH. now destruct (Dict.get k d).
Qed.

Lemma dict_get_none_not_key (k : string) (d : list (string * V)) :
  Dict.get k d = None <-> ~ In k (map fst d).
Proof.
  induction d as [|[k0 v0] d IH]; cbn.
  - split; [intros _ [] | reflexivity].
  - destruct (String.eqb k k0) eqn:E.
    + apply String.eqb_eq in E. subst k0. split; [discriminate|].
      intro Hn. exfalso. apply Hn. now left.
    + apply String.eqb_neq in E. rewrite IH. split.
      * intros Hn [Hk | Hk]; [congruence | contradiction].
      * intros Hn Hk. apply Hn. now right.
Qed.

Lemma dict_set_nodup (k : string) (v : V) (d : list (string * V)) :
  NoDup (map fst d) -> NoDup (map fst (Dict.set k v d)).
Proof.
  intro Hd. rewrite dict_set_keys.
  destruct (Dict.get k d) eqn:E; [exact Hd|].
  apply dict_get_none_not_key in E.
  apply NoDup_app; [exact Hd | constructor; [intros [] | constructor] |].
  intros x Hx [<- | []]. contradiction.
Qed.

Lemma dict_in_get (k : string) (v : V) (d : list (string * V)) :
  NoDup (map fst d) -> In (k, v) d -> Dict.get k d = Some v.
Proof.
  induction d as [|[k0 v0] d IH]; cbn; [intros _ []|].
  intros Hd [E | Hin].
  - injection E as -> ->. now rewrite String.eqb_refl.
  - inversion Hd as [|? ? Hk Hd']; subst.
    destruct (String.eqb k k0) eqn:E.
    + apply String.eqb_eq in E. subst k0. exfalso. apply Hk.
      now apply (in_map fst) in Hin.
    + now apply IH.
Qed.

Lemma dict_get_in (k : string) (v : V) (d : list (string * V)) :
  Dict.get k d = Some v -> In (k, v) d.
Proof.
  induction d as [|[k0 v0] d IH]; cbn; [discriminate|].
  destruct (String.eqb k k0) eqn:E.
  - apply String.eqb_eq in E. subst k0. intro H. injection H as ->. now left.
  - intro H. right. now apply IH.
Qed.

End DictFacts.

Section MinMax.
Local Open Scope Q_scope.

Lemma fold_min_spec (rest : list Q) (x : Q) :
  let r := fold_left (fun m y => if fltb y m then y else m) rest x in
  In r (x :: rest) /\ forall y, In y (x :: rest) -> r <= y.
Proof.
  revert x. induction rest as [|z rest IH]; intro x; cbv zeta in *; cbn [fold_left].
  - split; [now left|]. intros y [<- | []]. apply Qle_refl.
  - destruct (fltb z x) eqn:E.
    + apply fltb_Q_true in E. destruct (IH z) as [Hin Hle]. split.
      * right. exact Hin.
      * intros y [<- | Hy]; [|now apply Hle].
        apply Qle_trans with z; [apply Hle; now left | now apply Qlt_le_weak].
    + apply fltb_Q_false in E. destruct (IH x) as [Hin Hle]. split.
      * destruct Hin as [Hin | Hin]; [now left | right; now right].
      * intros y [<- | [<- | Hy]].
        -- apply Hle. now left.
        -- apply Qle_trans with x; [apply Hle; now left | exact E].
        -- apply Hle. now right.
Qed.

Lemma fold_max_spec (rest : list Q) (x : Q) :
  let r := fold_left (fun m y => if fltb m y then y else m) rest x in
  In r (x :: rest) /\ forall y, In y (x :: rest) -> y <= r.
Proof.
  revert x. induction rest as [|z rest IH]; intro x; cbv zeta in *; cbn [fold_left].
  - split; [now left|]. intros y [<- | []]. apply Qle_refl.
  - destruct (fltb x z) eqn:E.
    + apply fltb_Q_true in E. destruct (IH z) as [Hin Hle]. split.
      * right. exact Hin.
      * intros y [<- | Hy]; [|now apply Hle].
        apply Qle_trans with z; [now apply Qlt_le_weak | apply Hle; now left].
    + apply fltb_Q_false in E. destruct (IH x) as [Hin Hle]. split.
      * destruct Hin as [Hin | Hin]; [now left | right; now right].
      * intros y [<- | [<- | Hy]].
        -- apply Hle. now left.
        -- apply Qle_trans with x; [exact E | apply Hle; now left].
        -- apply Hle. now right.
Qed.

End MinMax.

Section MarketOutcome.
Context {F : Type} `{PyFloat F}.
Variables np_mean np_median np_std : list F -> F.

Lemma market_insights_without_prices
    (listings : list (DetailedPropertyListing.t F))
    (criteria : SearchCriteria.t F) :
  listings <> [] ->
  Market.positive_prices listings = [] ->
  generate_market_insights np_mean np_median np_std listings criteria
  = Raise ValueError.
Proof.
  intros Hne Hnone. unfold generate_market_insights.
  destruct listings as [|l ls]; [contradiction|].
  cbn [nonempty negb]. fold (Market.positive_prices (l :: ls)).
  rewrite Hnone. reflexivity.
Qed.

Lemma market_insights_with_prices
    (listings : list (DetailedPropertyListing.t F))
    (criteria : SearchCriteria.t F) (p : F) (ps : list F) :
  Market.positive_prices listings = p :: ps ->
  generate_market_insights np_mean np_median np_std listings criteria
  = Ok [("price_distribution"%string,
         PriceDistribution
           (fold_left (fun m y => if fltb y m then y else m) ps p)
           (fold_left (fun m y => if fltb m y then y else m) ps p)
           (np_median (p :: ps)) (np_std (p :: ps)));
        ("platform_comparison"%string,
         PlatformComparison
           (map (set_avg_price np_mean)
                (fold_left add_platform listings [])));
        ("popular_amenities"%string,
         PopularAmenities (popular_amenities listings))].
Proof.
  intro Hsome. unfold generate_market_insights.
  destruct listings as [|l ls]; [discriminate|].
  cbn [nonempty negb]. fold (Market.positive_prices (l :: ls)).
  rewrite Hsome. reflexivity.
Qed.

(** The aggregator cannot report on listings none of which has a positive
    price: [min] of the empty price list raises [ValueError].  With at
    least one positive price it returns the three entries, in the order
    price distribution, platform comparison, popular amenities. *)
Theorem market_insights_outcome
    (listings : list (DetailedPropertyListing.t F))
    (criteria : SearchCriteria.t F) :
  listings <> [] ->
  (Market.positive_prices listings = [] ->
   generate_market_insights np_mean np_median np_std listings criteria
   = Raise ValueError)
  /\ (Market.positive_prices listings <> [] ->
      exists lowest highest,
        py_min_list (Market.positive_prices listings) = Ok lowest
        /\ py_max_list (Market.positive_prices listings) = Ok highest
        /\ generate_market_insights np_mean np_median np_std listings criteria
           = Ok [("price_distribution"%string,
                  PriceDistribution lowest highest
                    (np_median (Market.positive_prices listings))
                    (np_std (Market.positive_prices listings)));
                 ("platform_comparison"%string,
                  PlatformComparison
                    (map (set_avg_price np_mean)
                         (fold_left add_platform listings [])));
                 ("popular_amenities"%string,
                  PopularAmenities (popular_amenities listings))]).
Proof.
  intro Hne. split.
  - now apply market_insights_without_prices.
  - intro Hsome.
    destruct (Market.positive_prices listings) as [|p ps] eqn:Ep;
      [contradiction|].
    do 2 eexists. split; [reflexivity|]. split; [reflexivity|].
    rewrite <- Ep. rewrite (market_insights_with_prices listings criteria p ps Ep).
    now rewrite Ep.
Qed.

End MarketOutcome.

Lemma market_insights_outcome_witness :
  [unpriced (F:=Q)] <> []
  /\ Market.positive_prices [unpriced (F:=Q)] = []
  /\ generate_market_insights (fun _ => 0%Q) (fun _ => 0%Q) (fun _ => 0%Q)
       [unpriced] Examples.criteria
     = Raise ValueError.
Proof.
  split; [discriminate|]. split; [reflexivity|].
  apply (proj1 (market_insights_outcome (fun _ => 0%Q) (fun _ => 0%Q)
                  (fun _ => 0%Q) [unpriced] Examples.criteria
                  ltac:(discriminate))).
  reflexivity.
Defined.

Section PriceDistributionBounds.
Local Open Scope Q_scope.
Variables np_mean np_median np_std : list Q -> Q.

(** The reported extremes are prices of listings, the lowest is
    positive, and every positive price lies between them. *)
Theorem price_distribution_bounds
    (listings : list (DetailedPropertyListing.t Q))
    (criteria : SearchCriteria.t Q) (insights : list (string * insight)) :
  listings <> [] ->
  generate_market_insights np_mean np_median np_std listings criteria
  = Ok insights ->
  exists lowest highest,
    Dict.get "price_distribution" insights
    = Some (PriceDistribution lowest highest
              (np_median (Market.positive_prices listings))
              (np_std (Market.positive_prices listings)))
    /\ In lowest (Market.positive_prices listings)
    /\ In highest (Market.positive_prices listings)
    /\ 0 < lowest
    /\ forall p, In p (Market.positive_prices listings) ->
                 lowest <= p <= highest.
Proof.
  intros Hne Hok.
  destruct (Market.positive_prices listings) as [|p ps] eqn:Ep.
  - rewrite (market_insights_without_prices np_mean np_median np_std
               listings criteria Hne Ep) in Hok.
    discriminate.
  - rewrite (market_insights_with_prices np_mean np_median np_std
               listings criteria p ps Ep) in Hok.
    injection Hok as <-. do 2 eexists. split; [reflexivity|].
    destruct (fold_min_spec ps p) as [Hmin_in Hmin].
    destruct (fold_max_spec ps p) as [Hmax_in Hmax].
    cbv zeta in *.
    split; [exact Hmin_in|]. split; [exact Hmax_in|]. split.
    + assert (Hpos : forall q, In q (p :: ps) -> 0 < q).
      { intros q Hq. rewrite <- Ep in Hq. unfold Market.positive_prices in Hq.
        apply filter_In in Hq as [_ Hq]. now apply fltb_Q_true in Hq. }
      now apply Hpos.
    + intros q Hq. split; [now apply Hmin | now apply Hmax].
Qed.

End PriceDistributionBounds.

Lemma price_distribution_bounds_witness :
  exists lowest highest : Q,
    In lowest (Market.positive_prices [L1; L2])
    /\ In highest (Market.positive_prices [L1; L2])
    /\ (0 < lowest)%Q
    /\ forall p, In p (Market.positive_prices [L1; L2]) ->
                 (lowest <= p <= highest)%Q.
Proof.
  destruct (price_distribution_bounds (fun _ => 0%Q) (fun _ => 0%Q)
              (fun _ => 0%Q) [L1; L2] Examples.criteria _
              ltac:(discriminate) eq_refl)
    as (lowest & highest & _ & Hrest).
  exists lowest, highest. exact Hrest.
Defined.

Section PlatformComparison.
Context {F : Type} `{PyFloat F}.
Variable np_mean : list F -> F.

Local Abbreviation price := DetailedPropertyListing.price_per_night.

Lemma listings_of_app (p : string) (l1 l2 : list (DetailedPropertyListing.t F)) :
  Market.listings_of p (l1 ++ l2)
  = Market.listings_of p l1 ++ Market.listings_of p l2.
Proof. unfold Market.listings_of. apply filter_app. Qed.

Lemma len_app_one {A} (l : list A) (x : A) : len (l ++ [x]) = (len l + 1)%Z.
Proof. unfold len. rewrite length_app. cbn. lia. Qed.

Lemma add_platform_entry (seen : list (DetailedPropertyListing.t F))
    (stats : list (string * PlatformStats.t F))
    (l : DetailedPropertyListing.t F) :
  (forall p, Dict.get p stats = Market.platform_entry p seen (fun _ => of_int 0)) ->
  forall p, Dict.get p (add_platform stats l)
            = Market.platform_entry p (seen ++ [l]) (fun _ => of_int 0).
Proof.
  intros Hinv p. unfold add_platform, Market.platform_entry.
  rewrite listings_of_app. cbn [Market.listings_of filter].
  destruct (String.eqb p (DetailedPropertyListing.platform l)) eqn:E.
  - apply String.eqb_eq in E. subst p. rewrite dict_get_set_same.
    rewrite Hinv. unfold Market.platform_entry.
    destruct (Market.listings_of (DetailedPropertyListing.platform l) seen)
      as [|m ms]; cbn [app].
    + reflexivity.
    + cbn [PlatformStats.count PlatformStats.avg_price PlatformStats.prices].
      replace (len (m :: ms ++ [l])) with (len (m :: ms) + 1)%Z
        by (symmetry; apply (len_app_one (m :: ms) l)).
      replace (map price (m :: ms ++ [l]))
        with (map price (m :: ms) ++ [price l])
        by (change (m :: ms ++ [l]) with ((m :: ms) ++ [l]);
            now rewrite map_app).
      reflexivity.
  - apply String.eqb_neq in E.
    rewrite dict_get_set_other by congruence.
    rewrite app_nil_r. apply Hinv.
Qed.

Lemma fold_add_platform (ls seen : list (DetailedPropertyListing.t F))
    (stats : list (string * PlatformStats.t F)) :
  (forall p, Dict.get p stats = Market.platform_entry p seen (fun _ => of_int 0)) ->
  forall p, Dict.get p (fold_left add_platform ls stats)
            = Market.platform_entry p (seen ++ ls) (fun _ => of_int 0).
Proof.
  revert seen stats. induction ls as [|l ls IH]; intros seen stats Hinv p.
  - cbn. rewrite app_nil_r. apply Hinv.
  - cbn [fold_left]. rewrite (IH (seen ++ [l])).
    + now rewrite <- app_assoc.
    + now apply add_platform_entry.
Qed.

Lemma fold_add_platform_nodup (ls : list (DetailedPropertyListing.t F))
    (stats : list (string * PlatformStats.t F)) :
  NoDup (map fst stats) ->
  NoDup (map fst (fold_left add_platform ls stats)).
Proof.
  revert stats. induction ls as [|l ls IH]; intros stats Hd; [exact Hd|].
  cbn [fold_left]. apply IH. unfold add_platform. now apply dict_set_nodup.
Qed.

Lemma get_set_avg_price (p : string) (stats : list (string * PlatformStats.t F)) :
  Dict.get p (map (set_avg_price np_mean) stats)
  = option_map
      (fun e => PlatformStats.mk (PlatformStats.count e)
                  (np_mean (PlatformStats.prices e)) (PlatformStats.prices e))
      (Dict.get p stats).
Proof.
  induction stats as [|[k e] stats IH]; cbn; [reflexivity|].
  destruct (String.eqb p k); [reflexivity | exact IH].
Qed.

(** The platform comparison has one entry per platform that occurs,
    holding the number of its listings, their prices in input order (the
    prices 0 included) and the mean of these prices. *)
Theorem platform_comparison_entries
    (listings : list (DetailedPropertyListing.t F)) :
  let stats := map (set_avg_price np_mean)
                   (fold_left add_platform listings []) in
  NoDup (map fst stats)
  /\ forall platform,
       Dict.get platform stats = Market.platform_entry platform listings np_mean.
Proof.
  cbv zeta. split.
  - rewrite map_map. cbn [set_avg_price fst].
    change (fun x : string * PlatformStats.t F => fst x) with (@fst string (PlatformStats.t F)).
    apply fold_add_platform_nodup. constructor.
  - intro p. rewrite get_set_avg_price.
    rewrite (fold_add_platform listings [] []); [|reflexivity].
    cbn [app]. unfold Market.platform_entry.
    destruct (Market.listings_of p listings); reflexivity.
Qed.

End PlatformComparison.

Section PopularAmenities.
Context {F : Type}.

Lemma fold_count_amenity (xs : list string) (d : list (string * Z)) (a : string) :
  Dict.get a (fold_left count_amenity xs d)
  = if (Market.occurrences a xs =? 0)%Z then Dict.get a d
    else Some (Market.count_of a d + Market.occurrences a xs)%Z.
Proof.
  revert d. induction xs as [|x xs IH]; intro d; [reflexivity|].
  cbn [fold_left]. rewrite IH. unfold Market.occurrences, count_amenity.
  cbn [count_occ]. fold (Market.count_of x d). destruct (string_dec x a) as [-> | Hx].
  - assert (Hc : Market.count_of a (Dict.set a (Market.count_of a d + 1)%Z d)
                 = (Market.count_of a d + 1)%Z).
    { unfold Market.count_of at 1. now rewrite dict_get_set_same. }
    rewrite Hc, dict_get_set_same.
    set (n := count_occ string_dec xs a).
    replace (Z.of_nat (S n) =? 0)%Z with false
      by (symmetry; apply Z.eqb_neq; lia).
    destruct (Z.of_nat n =? 0)%Z eqn:E; f_equal; [apply Z.eqb_eq in E|]; lia.
  - assert (Hc : Market.count_of a (Dict.set x (Market.count_of x d + 1)%Z d) = Market.count_of a d).
    { unfold Market.count_of at 1 3. now rewrite dict_get_set_other. }
    rewrite Hc. now rewrite dict_get_set_other.
Qed.

Lemma fold_count_amenity_nodup (xs : list string) (d : list (string * Z)) :
  NoDup (map fst d) -> NoDup (map fst (fold_left count_amenity xs d)).
Proof.
  revert d. induction xs as [|x xs IH]; intros d Hd; [exact Hd|].
  cbn [fold_left]. apply IH. unfold count_amenity. now apply dict_set_nodup.
Qed.

Lemma fold_left_flat_map {A B C} (f : A -> B -> A) (g : C -> list B)
    (l : list C) (d : A) :
  fold_left (fun acc x => fold_left f (g x) acc) l d
  = fold_left f (flat_map g l) d.
Proof.
  revert d. induction l as [|x l IH]; intro d; [reflexivity|].
  cbn [fold_left flat_map]. now rewrite fold_left_app, IH.
Qed.

Lemma insert_descending_Z {A} (key : A -> Z) (x : A) (l : list A) :
  StronglySorted (fun a b => (key b <= key a)%Z) l ->
  StronglySorted (fun a b => (key b <= key a)%Z)
    (insert_stable (fun a b => (key b <? key a)%Z) x l).
Proof.
  induction 1 as [|y l Hs IH Hy]; cbn [insert_stable].
  - constructor; constructor.
  - destruct (key x <? key y)%Z eqn:E.
    + apply Z.ltb_lt in E. constructor; [exact IH|].
      apply (Permutation_Forall
               (insert_stable_perm (fun a b => (key b <? key a)%Z) x l)).
      constructor; [lia | exact Hy].
    + apply Z.ltb_ge in E. constructor.
      * now constructor.
      * constructor; [exact E|].
        eapply Forall_impl; [|exact Hy]. intros z Hz. cbv beta in *. lia.
Qed.

Lemma py_sorted_descending_Z {A} (key : A -> Z) (l : list A) :
  StronglySorted (fun a b => (key b <= key a)%Z)
    (py_sorted (fun a b => (key b <? key a)%Z) l).
Proof.
  induction l as [|x l IH]; cbn [py_sorted fold_right].
  - constructor.
  - now apply insert_descending_Z.
Qed.

Lemma sorted_app_l {A} (R : A -> A -> Prop) (l1 l2 : list A) :
  StronglySorted R (l1 ++ l2) -> StronglySorted R l1.
Proof.
  induction l1 as [|x l1 IH]; cbn; intro Hs; [constructor|].
  inversion Hs as [|? ? Hs' Hx]; subst. constructor; [now apply IH|].
  rewrite Forall_app in Hx. tauto.
Qed.

Lemma in_firstn {A} (n : nat) (l : list A) (x : A) :
  In x (firstn n l) -> In x l.
Proof.
  intro Hx. rewrite <- (firstn_skipn n l). apply in_or_app. now left.
Qed.

Lemma nodup_firstn {A} (n : nat) (l : list A) :
  NoDup l -> NoDup (firstn n l).
Proof.
  intro Hd. rewrite <- (firstn_skipn n l) in Hd.
  now apply NoDup_app_remove_r in Hd.
Qed.

(** The popular amenities are at most ten, each listed once with the
    number of times it occurs over all listings, and in order of falling
    count; when fewer than ten are listed, every amenity that occurs is
    among them. *)
Theorem popular_amenities_counts
    (listings : list (DetailedPropertyListing.t F)) :
  let top := popular_amenities listings in
  (List.length top <= 10)%nat
  /\ NoDup (map fst top)
  /\ StronglySorted (fun x y => (snd y <= snd x)%Z) top
  /\ (forall a n, In (a, n) top ->
        n = Market.occurrences a (Market.all_amenities listings)
        /\ (0 < n)%Z)
  /\ ((List.length top < 10)%nat ->
      forall a, In a (Market.all_amenities listings) ->
        In (a, Market.occurrences a (Market.all_amenities listings)) top).
Proof.
  cbv zeta. unfold popular_amenities. rewrite fold_left_flat_map.
  fold (Market.all_amenities listings).
  set (xs := Market.all_amenities listings).
  set (counts := fold_left count_amenity xs []).
  set (sorted := py_sorted (fun a b : string * Z => (snd b <? snd a)%Z) counts).
  assert (Hperm : Permutation counts sorted) by apply py_sorted_perm.
  assert (Hnd : NoDup (map fst counts))
    by (apply fold_count_amenity_nodup; constructor).
  assert (Hget : forall a, Dict.get a counts
                 = if (Market.occurrences a xs =? 0)%Z then None
                   else Some (Market.occurrences a xs)).
  { intro a. unfold counts. rewrite fold_count_amenity. unfold Market.count_of. cbn.
    reflexivity. }
  split; [apply firstn_le_length|]. split; [|split; [|split]].
  - rewrite <- firstn_map. apply nodup_firstn.
    eapply Permutation_NoDup; [apply Permutation_map, Hperm | exact Hnd].
  - apply (sorted_app_l _ _ (skipn 10 sorted)). rewrite firstn_skipn.
    apply (py_sorted_descending_Z snd).
  - intros a n Hin. apply in_firstn in Hin.
    apply (Permutation_in _ (Permutation_sym Hperm)) in Hin.
    apply (dict_in_get a n counts Hnd) in Hin. rewrite Hget in Hin.
    destruct (Market.occurrences a xs =? 0)%Z eqn:E; [discriminate|].
    injection Hin as <-. split; [reflexivity|].
    apply Z.eqb_neq in E. unfold Market.occurrences in *. lia.
  - intros Hlen a Ha.
    assert (Hall : firstn 10 sorted = sorted).
    { apply firstn_all2. rewrite length_firstn in Hlen. lia. }
    rewrite Hall. apply (Permutation_in _ Hperm). apply dict_get_in.
    rewrite Hget.
    assert (Hocc : (0 < Market.occurrences a xs)%Z).
    { unfold Market.occurrences.
      apply (count_occ_In string_dec) in Ha. lia. }
    destruct (Market.occurrences a xs =? 0)%Z eqn:E; [|reflexivity].
    apply Z.eqb_eq in E. lia.
Qed.

End PopularAmenities.

(** ** Price parser: sign, first number, separators *)

Section PriceParserMore.
Import Unicode.
Context {I : Interpreter}.

Lemma float_of_str_nonneg (m : str) (v : Q) :
  float_of_str m = Ok v -> (0 <= v)%Q.
Proof.
  unfold float_of_str.
  destruct (Text.span Text.is_digit m) as [ip rest].
  assert (Hdec : forall s k,
            (0 <= of_decimal (F:=Q) (Text.digits_to_Z 0 s) k)%Q).
  { intros s k. cbn [of_decimal Q_PyFloat].
    pose proof (digits_to_Z_nonneg 0 s ltac:(lia)) as Hs.
    apply Qle_shift_div_l.
    - assert (Hp : (0 < 10 ^ Z.of_nat k)%Z) by (apply Z.pow_pos_nonneg; lia).
      unfold Qlt; cbn; lia.
    - rewrite Qmult_0_l. unfold Qle; cbn; lia. }
  destruct rest as [|c frac].
  - destruct (Text.is_empty ip); [discriminate|].
    intro E. injection E as <-. exact (Hdec ip O).
  - destruct (_ && _); [|discriminate].
    intro E. injection E as <-. exact (Hdec (ip ++ frac) (List.length frac)).
Qed.

(** No text parses to a negative price: signs are never read. *)
Theorem extract_price_nonnegative (price_text : str) :
  (0 <= extract_price (F:=Q) price_text)%Q.
Proof.
  unfold extract_price, extract_price_body.
  destruct (Text.re_search_price (Text.remove_char comma price_text))
    as [m|]; [|cbn; unfold Qle; cbn; lia].
  destruct (float_of_str m) as [v|e] eqn:E; cbn [try_except].
  - now apply float_of_str_nonneg in E.
  - unfold Qle; cbn; lia.
Qed.

Lemma digit_led_clean (ip : str) :
  PriceRun.digit_led ip = true ->
  Text.remove_char comma ip <> []
  /\ Text.all_chars Text.is_digit (Text.remove_char comma ip) = true.
Proof.
  unfold PriceRun.digit_led. intro E. apply andb_true_iff in E as [Hd Hall].
  split.
  - destruct ip as [|d ip]; [discriminate|]. cbn.
    rewrite (digit_not_comma d Hd). discriminate.
  - apply (all_chars_remove_char _ comma) in Hall.
    now apply price_chars_without_comma.
Qed.

Lemma number_char_outside (post : str) :
  Text.starts_outside PriceRun.number_char post = true ->
  let post' := Text.remove_char comma post in
  Text.starts_outside Text.price_char post' = true
  /\ Text.starts_outside Text.is_digit post' = true
  /\ Text.starts_outside (fun c => (c =? point)%N) post' = true.
Proof.
  destruct post as [|c r]; cbn; [now repeat split|].
  unfold PriceRun.number_char, Text.price_char. intro E.
  apply negb_true_iff in E. apply orb_false_iff in E as [E Edot].
  apply orb_false_iff in E as [Edig Ecomma].
  rewrite Ecomma. cbn. unfold Text.price_char.
  now rewrite Edig, Ecomma, Edot.
Qed.

Lemma search_first_number (pre ip post : str) (frac : option str) :
  no_digit pre = true ->
  PriceRun.digit_led ip = true ->
  fraction_part frac = true ->
  Text.starts_outside PriceRun.number_char post = true ->
  exists m,
    Text.re_search_price
      (Text.remove_char comma (pre ++ number_text ip frac ++ post))
    = Some m
    /\ float_of_str (F:=Q) m
       = Ok (of_decimal (scaled_value ip frac) (decimal_places frac)).
Proof.
  intros Hpre Hip Hfrac Hpost.
  destruct (digit_led_clean ip Hip) as [Hne Hd].
  apply no_digit_clean in Hpre.
  destruct (number_char_outside post Hpost) as (Hpp & Hpd & Hpdot).
  cbv zeta in *.
  rewrite !remove_char_app, (re_search_price_skip _ _ Hpre).
  set (ip' := Text.remove_char comma ip) in *.
  set (post' := Text.remove_char comma post) in *.
  assert (Hint : Text.digits_to_Z 0 ip' = integer_value ip).
  { rewrite <- (integer_value_digits ip' Hd). apply integer_value_remove_comma. }
  unfold scaled_value, decimal_places.
  destruct frac as [f|]; cbn [number_text].
  - cbn [fraction_part] in Hfrac. apply andb_true_iff in Hfrac as [Hfne Hf].
    rewrite remove_char_app. fold ip'. cbn [Text.remove_char].
    change (point =? comma)%N with false. cbv iota.
    rewrite (remove_char_absent comma f (digits_without_comma f Hf)).
    rewrite <- app_assoc.
    change ((point :: f) ++ post') with (point :: (f ++ post')).
    exists (ip' ++ point :: f). split.
    + apply re_search_price_hit. rewrite match_price_at_run by auto.
      rewrite N.eqb_refl.
      now rewrite (span_app Text.is_digit f post' Hf Hpd).
    + rewrite float_of_str_point; [| exact Hd | exact Hf |].
      * now rewrite (digits_of_number ip' f _ Hf Hint).
      * destruct ip'; [contradiction | reflexivity].
  - rewrite <- Hint. exists ip'. split.
    + apply re_search_price_hit. rewrite match_price_at_run by auto.
      destruct post' as [|c r]; [reflexivity|].
      cbn [Text.starts_outside] in Hpdot. apply negb_true_iff in Hpdot.
      now rewrite Hpdot.
    + now apply float_of_str_digits.
Qed.

(** The first number of the text is the price: digits further on are not
    read, and the commas inside the number are dropped whatever the sizes
    of the groups they separate, so that "12,5" is read as 125. *)
Theorem extract_price_first_number (pre ip post : str)
    (frac : option str) :
  no_digit pre = true ->
  PriceRun.digit_led ip = true ->
  fraction_part frac = true ->
  Text.starts_outside PriceRun.number_char post = true ->
  (extract_price (F:=Q) (pre ++ number_text ip frac ++ post)
   == number_value ip frac)%Q.
Proof.
  intros Hpre Hip Hfrac Hpost.
  destruct (search_first_number pre ip post frac Hpre Hip Hfrac Hpost)
    as (m & Hm & Hv).
  unfold extract_price, extract_price_body. rewrite Hm, Hv.
  cbn [try_except of_decimal Q_PyFloat]. now apply scaled_value_number.
Qed.

End PriceParserMore.

Lemma extract_price_first_number_witness :
  (extract_price (F:=Q) (I := cpython_3_11)
     (Unicode.of_string "EUR "
      ++ number_text (Unicode.of_string "12,5") None
      ++ Unicode.of_string " for 2 nights")
   == number_value (I := cpython_3_11) (Unicode.of_string "12,5") None)%Q
  /\ (number_value (I := cpython_3_11) (Unicode.of_string "12,5") None
      == 125)%Q.
Proof.
  split; [|reflexivity].
  apply (extract_price_first_number (I := cpython_3_11)
           (Unicode.of_string "EUR ") (Unicode.of_string "12,5")
           (Unicode.of_string " for 2 nights") None);
    reflexivity.
Defined.

(** ** Scrapers *)

Section ScraperFacts.
Context {F : Type} `{PyFloat F} `{PyBuiltins F} {I : Interpreter}.

Lemma parse_card_some (platform property_type : string) (card : Card.t)
    (l : PropertyListing.t F) :
  parse_card platform property_type card = Some l ->
  exists title text place url,
    Card.title card = Some title /\ Card.price card = Some text
    /\ Card.address card = Some place /\ Card.link card = Some url
    /\ l = PropertyListing.mk platform title (extract_price text)
             (extract_price text) place
             (parse_rating (Card.review_score card)) None [] url
             property_type None false None.
Proof.
  unfold parse_card.
  destruct card as [title price address score link].
  cbn [Card.title Card.price Card.address Card.review_score Card.link].
  destruct title as [t|], price as [p|], address as [a|], link as [u|];
    cbn [find_text bind try_except]; intro E; try discriminate E.
  injection E as <-. exists t, p, a, u. repeat split.
Qed.


Lemma parse_card_scraped (platform property_type : string) (card : Card.t)
    (l : PropertyListing.t F) :
  parse_card platform property_type card = Some l ->
  PropertyListing.amenities l = []
  /\ PropertyListing.instant_book l = false
  /\ PropertyListing.host_name l = None.
Proof.
  intro E. apply parse_card_some in E.
  destruct E as (t & p & a & u & _ & _ & _ & _ & ->). repeat split.
Qed.

Lemma extract_results_length (parse : Card.t -> option (PropertyListing.t F))
    (cards : result (list Card.t)) :
  (List.length (extract_results parse cards) <= 20)%nat.
Proof.
  unfold extract_results. destruct cards as [cs|e]; cbn [bind try_except];
    [|cbn; lia].
  assert (Hlen : forall l : list Card.t,
            (List.length (flat_map (fun card => match parse card with
                                               | Some listing => [listing]
                                               | None => []
                                               end) l)
             <= List.length l)%nat).
  { induction l as [|c l IH]; cbn; [lia|].
    rewrite length_app. destruct (parse c); cbn; lia. }
  eapply Nat.le_trans; [apply Hlen|]. apply firstn_le_length.
Qed.

Lemma extract_results_in (parse : Card.t -> option (PropertyListing.t F))
    (cards : result (list Card.t)) (l : PropertyListing.t F) :
  In l (extract_results parse cards) ->
  exists cs card, cards = Ok cs /\ In card (firstn 20 cs)
                  /\ parse card = Some l.
Proof.
  unfold extract_results. destruct cards as [cs|e]; cbn [bind try_except];
    [|intros []].
  intro Hin. apply in_flat_map in Hin as (card & Hc & Hl).
  exists cs, card. split; [reflexivity|]. split; [exact Hc|].
  destruct (parse card) as [l'|]; [|destruct Hl].
  destruct Hl as [-> | []]. reflexivity.
Qed.

(** A search gives two lists, Booking.com first, of at most twenty
    listings each; a platform whose search fails has the empty list.  No
    listing has amenities, a host name or instant booking. *)
Theorem search_accommodations_results (booking airbnb : result (list Card.t)) :
  let results := search_accommodations booking airbnb in
  map fst results = ["booking_com"; "airbnb"]%string
  /\ Forall (fun entry =>
               (List.length (snd entry) <= 20)%nat
               /\ Forall (fun l => PropertyListing.amenities l = []
                                   /\ PropertyListing.instant_book l = false
                                   /\ PropertyListing.host_name l = None)
                         (snd entry))
            results
  /\ (forall e, booking = Raise e -> Dict.get "booking_com" results = Some [])
  /\ (forall e, airbnb = Raise e -> Dict.get "airbnb" results = Some []).
Proof.
  cbv zeta. unfold search_accommodations. cbn [Dict.set String.eqb Ascii.eqb Bool.eqb].
  cbn. split; [reflexivity|]. split; [|split].
  - assert (Hentry : forall (parse : Card.t -> option (PropertyListing.t F))
                            name cards,
              (forall card l, parse card = Some l ->
                 PropertyListing.amenities l = []
                 /\ PropertyListing.instant_book l = false
                 /\ PropertyListing.host_name l = None) ->
              (List.length (snd (name, extract_results parse cards)) <= 20)%nat
              /\ Forall (fun l => PropertyListing.amenities l = []
                                  /\ PropertyListing.instant_book l = false
                                  /\ PropertyListing.host_name l = None)
                        (snd (name : string, extract_results parse cards))).
    { intros parse name cards Hparse. cbn [snd].
      split; [apply extract_results_length|].
      apply Forall_forall. intros l Hl.
      apply extract_results_in in Hl as (cs & card & _ & _ & Hp).
      exact (Hparse card l Hp). }
    constructor; [|constructor; [|constructor]];
      apply Hentry; intros card l; apply parse_card_scraped.
  - intros e ->. reflexivity.
  - intros e ->. reflexivity.
Qed.

End ScraperFacts.

(** ** Property pages *)

Section PageFacts.
Context {F : Type} `{PyFloat F} `{PyBuiltins F} {I : Interpreter}.

Lemma page_host_keys (page : PropertyPage.t) :
  DetailedInfo.host_name (extract_detailed_property_info page) = None ->
  DetailedInfo.host_rating (extract_detailed_property_info page) = None
  /\ DetailedInfo.host_response_time (extract_detailed_property_info page)
     = None.
Proof.
  unfold extract_detailed_property_info.
  destruct (read_details _ _) as [[b1 b2] b3].
  destruct (read_fees _ _) as [[[f1 f2] f3] f4].
  unfold read_host.
  destruct (PropertyPage.host_profile page) as [host|];
    [destruct (HostProfile.name host) as [name|]|];
    cbn; intro E; try discriminate E; now split.
Qed.

(** The dictionary read from a page always binds the description, the
    features and the house rules, and binds the host's rating or response
    time only together with the host's name. *)
Theorem page_dictionary_keys (page : PropertyPage.t) :
  let info := extract_detailed_property_info page in
  DetailedInfo.description info <> None
  /\ DetailedInfo.property_features info <> None
  /\ DetailedInfo.house_rules info <> None
  /\ (DetailedInfo.host_name info = None ->
      DetailedInfo.host_rating info = None
      /\ DetailedInfo.host_response_time info = None).
Proof.
  cbv zeta. split; [|split; [|split]]; [| | |apply page_host_keys].
  all: unfold extract_detailed_property_info;
    destruct (read_details _ _) as [[b1 b2] b3];
    destruct (read_fees _ _) as [[[f1 f2] f3] f4];
    destruct (read_host _) as [[h1 h2] h3]; discriminate.
Qed.

Lemma visited_host_rating_none (page : result PropertyPage.t)
    (listing : PropertyListing.t F) :
  DetailedPropertyListing.host_rating
    (get_detailed_property_info (visit page) listing)
  = None.
Proof.
  unfold get_detailed_property_info, visit, construct_detailed.
  destruct page as [p|e]; [|reflexivity]. cbn [bind].
  pose proof (page_host_keys p) as Hhost.
  destruct (DetailedInfo.host_name (extract_detailed_property_info p)) eqn:E;
    [reflexivity|].
  cbn [bind try_except DetailedPropertyListing.host_rating].
  now destruct (Hhost eq_refl) as [-> _].
Qed.

(** Whatever the page shows, the detailed listing made from it has no host
    rating: the rating is only read together with the host's name, and a
    dictionary with the host's name is rejected by the constructor, after
    which the listing is returned without any detail. *)
Theorem visited_listing_has_no_host_rating (page : result PropertyPage.t)
    (listing : PropertyListing.t F) :
  let detailed := get_detailed_property_info (visit page) listing in
  DetailedPropertyListing.host_rating detailed = None
  /\ DetailedPropertyListing.host_response_time detailed = None
  /\ DetailedPropertyListing.base detailed = listing
  /\ (forall p name,
        page = Ok p ->
        DetailedInfo.host_name (extract_detailed_property_info p) = Some name ->
        detailed = DetailedPropertyListing.of_base listing).
Proof.
  cbv zeta. split; [|split; [|split]].
  - apply visited_host_rating_none.
  - unfold get_detailed_property_info, visit, construct_detailed.
    destruct page as [p|e]; [|reflexivity]. cbn [bind].
    pose proof (page_host_keys p) as Hhost.
    destruct (DetailedInfo.host_name (extract_detailed_property_info p)) eqn:E;
      [reflexivity|].
    cbn [bind try_except DetailedPropertyListing.host_response_time].
    now destruct (Hhost eq_refl) as [_ ->].
  - apply detailed_listing_base.
  - intros p name -> Hn. unfold visit.
    now apply (host_name_in_page_discards_details _ _ name).
Qed.

End PageFacts.

(** ** From the scrapers to the scores *)

Section PipelineScores.
Context `{PyBuiltins Q} {I : Interpreter}.
Local Open Scope Q_scope.

(** For a listing that comes from a result card, detailed by a visit of
    its page, only the price and the rating are scored: the amenity block
    and the host block are never entered, so that the criteria's amenity
    list, empty or not, plays no role, and the score is at most 60 for a
    rating of at most 5. *)
Theorem scraped_listing_value_score (platform property_type : string)
    (card : Card.t) (l : PropertyListing.t Q) (page : result PropertyPage.t)
    (c : SearchCriteria.t Q) :
  parse_card platform property_type card = Some l ->
  0 < SearchCriteria.max_price_per_night c ->
  let d := get_detailed_property_info (visit page) l in
  exists v,
    calculate_value_score d c = Ok v
    /\ v == price_points d c + rating_points d
    /\ (Listing.rating_in_range (DetailedPropertyListing.rating d) ->
        0 <= v <= 60).
Proof.
  intros Hparse Hm. cbv zeta.
  set (d := get_detailed_property_info (visit page) l).
  pose proof (visited_host_rating_none page l) as Hhost.
  pose proof (detailed_listing_base (visit page) l) as Hbase.
  fold d in Hhost, Hbase.
  destruct (parse_card_scraped _ _ _ _ Hparse) as (Ham & _ & _).
  assert (Hd : DetailedPropertyListing.amenities d = []).
  { unfold DetailedPropertyListing.amenities. now rewrite Hbase. }
  destruct (value_score_decomposition d c) as (v & Hv & Hdec).
  - intros _ E. rewrite E in Hm. now apply Qlt_irrefl in Hm.
  - left. exact Hd.
  - assert (Ha0 : amenity_points d c == 0).
    { unfold amenity_points. rewrite Hd. reflexivity. }
    assert (Hh0 : host_points d == 0).
    { unfold host_points. rewrite Hhost. reflexivity. }
    exists v. split; [exact Hv|]. split.
    + rewrite Hdec, Ha0, Hh0. lra.
    + intro Hr. rewrite Hdec, Ha0, Hh0.
      pose proof (price_points_range d c Hm) as Hp.
      assert (Hrp : 0 <= rating_points d <= 20).
      { unfold rating_points. unfold Listing.rating_in_range in Hr.
        destruct (DetailedPropertyListing.rating d) as [r|];
          [|split; unfold Qle; cbn; lia].
        assert (E : r / 5 * 100 * (1#5) == r * 4) by field.
        rewrite E. split; lra. }
      split; lra.
Qed.

End PipelineScores.

(** ** Recommendations *)

Section BestValue.
Local Open Scope Q_scope.

Lemma py_max_by_cons {A} (key : A -> Q) (b y : A) (rest : list A) :
  py_max_by key b (y :: rest)
  = py_max_by key (if fltb (key b) (key y) then y else b) rest.
Proof. reflexivity. Qed.

Lemma py_max_by_fold {A} (key : A -> Q) (rest pre mid : list A) (b : A) :
  (forall y, In y pre -> key y < key b) ->
  (forall y, In y mid -> key y <= key b) ->
  exists pre' post',
    (pre ++ b :: mid ++ rest)%list
    = (pre' ++ py_max_by key b rest :: post')%list
    /\ (forall y, In y pre' -> key y < key (py_max_by key b rest))
    /\ (forall y, In y post' -> key y <= key (py_max_by key b rest)).
Proof.
  revert pre mid b. induction rest as [|y rest IH]; intros pre mid b Hpre Hmid.
  - exists pre, mid. rewrite app_nil_r. now repeat split.
  - rewrite py_max_by_cons.
    destruct (fltb (key b) (key y)) eqn:E.
    + apply fltb_Q_true in E.
      destruct (IH (pre ++ b :: mid)%list [] y) as (pre' & post' & Heq & H1 & H2).
      * intros z Hz. apply in_app_or in Hz as [Hz | [<- | Hz]].
        -- eapply Qlt_trans; [now apply Hpre | exact E].
        -- exact E.
        -- eapply Qle_lt_trans; [now apply Hmid | exact E].
      * intros z [].
      * exists pre', post'. split; [|now split].
        rewrite <- Heq. cbn [app]. rewrite <- app_assoc. reflexivity.
    + apply fltb_Q_false in E.
      destruct (IH pre (mid ++ [y])%list b) as (pre' & post' & Heq & H1 & H2).
      * exact Hpre.
      * intros z Hz. apply in_app_or in Hz as [Hz | [<- | []]];
          [now apply Hmid | exact E].
      * exists pre', post'. split; [|now split].
        rewrite <- Heq. rewrite <- app_assoc. reflexivity.
Qed.

Section RecommendationFacts.
Context `{PyBuiltins Q}.
Variable np_mean : list Q -> Q.

(** For a non-empty list there are between one and four recommendations,
    and one of them names the best value: the first listing among those
    with the greatest value score, a missing score counting as 0. *)
Theorem recommendations_best_value
    (listings : list (DetailedPropertyListing.t Q))
    (criteria : SearchCriteria.t Q) :
  listings <> [] ->
  let recommendations := generate_recommendations np_mean listings criteria in
  (1 <= List.length recommendations <= 4)%nat
  /\ exists pre best post,
       listings = (pre ++ best :: post)%list
       /\ (forall y, In y pre -> value_key y < value_key best)
       /\ (forall y, In y post -> value_key y <= value_key best)
       /\ In (best_value_message best) recommendations.
Proof.
  intro Hne. cbv zeta. destruct listings as [|first others]; [contradiction|].
  destruct (py_max_by_fold value_key others [] [] first)
    as (pre & post & Heq & Hpre & Hpost); [intros y [] | intros y [] |].
  cbn [app] in Heq.
  unfold generate_recommendations.
  set (best := py_max_by value_key first others) in *.
  set (above := if fltb _ _ then [above_budget_message _] else []).
  assert (Habove : (List.length above <= 1)%nat)
    by (unfold above; destruct (fltb _ _); cbn; lia).
  split.
  - destruct (nonempty (filter _ (first :: others)));
      destruct (nonempty (filter _ (first :: others)));
      rewrite ?length_app; cbn [List.length]; lia.
  - exists pre, best, post. split; [exact Heq|]. split; [exact Hpre|].
    split; [exact Hpost|].
    assert (Hin : In (best_value_message best)
                     (above ++ [best_value_message best])%list)
      by (apply in_or_app; right; now left).
    destruct (nonempty (filter _ (first :: others)));
      destruct (nonempty (filter _ (first :: others)));
      repeat first [exact Hin | apply in_or_app; left].
Qed.

End RecommendationFacts.

End BestValue.

(** ** The analysis as a whole *)

Section CollectFacts.
Context {F : Type} `{PyFloat F}.
Variable pages : PropertyListing.t F -> result (DetailedInfo.t F).

Lemma top_listings_in (listings : list (PropertyListing.t F))
    (l : PropertyListing.t F) :
  In l (top_listings listings) -> In l listings.
Proof.
  unfold top_listings. intro Hin. apply in_firstn in Hin.
  eapply Permutation_in; [apply Permutation_sym, py_sorted_perm | exact Hin].
Qed.

Lemma top_listings_length (listings : list (PropertyListing.t F)) :
  List.length (top_listings listings) = Nat.min 5 (List.length listings).
Proof.
  unfold top_listings. rewrite length_firstn.
  now rewrite <- (Permutation_length (py_sorted_perm _ listings)).
Qed.

Lemma collect_detailed_in (results : list (string * list (PropertyListing.t F)))
    (d : DetailedPropertyListing.t F) :
  In d (collect_detailed pages results) ->
  exists entry, In entry results
                /\ In (DetailedPropertyListing.base d) (snd entry).
Proof.
  unfold collect_detailed. intro Hin.
  apply in_flat_map in Hin as (entry & He & Hd).
  apply in_map_iff in Hd as (l & <- & Hl).
  exists entry. split; [exact He|].
  rewrite detailed_listing_base. now apply top_listings_in.
Qed.

Lemma collect_detailed_length
    (results : list (string * list (PropertyListing.t F))) :
  (List.length (collect_detailed pages results) <= 5 * List.length results)%nat.
Proof.
  unfold collect_detailed. induction results as [|entry results IH];
    [cbn; lia|].
  cbn [flat_map]. rewrite length_app, length_map, top_listings_length.
  cbn [List.length]. lia.
Qed.

Lemma collect_detailed_base_in
    (results : list (string * list (PropertyListing.t F)))
    (d : DetailedPropertyListing.t F) :
  In d (collect_detailed pages results) ->
  In (DetailedPropertyListing.base d) (flat_map snd results).
Proof.
  intro Hd. apply collect_detailed_in in Hd as (entry & He & Hb).
  apply in_flat_map. now exists entry.
Qed.

(** The detailed listings are, platform by platform in the order of the
    results, the listings visited for that platform: at most five of them,
    as many as the platform has when it has fewer, each with the data of a
    listing of that same platform. *)
Theorem collect_detailed_bounded
    (results : list (string * list (PropertyListing.t F))) :
  exists visits : list (list (DetailedPropertyListing.t F)),
    collect_detailed pages results = List.concat visits
    /\ Forall2
         (fun entry visited =>
            (List.length visited <= 5)%nat
            /\ List.length visited = Nat.min 5 (List.length (snd entry))
            /\ forall d, In d visited ->
                 In (DetailedPropertyListing.base d) (snd entry))
         results visits.
Proof.
  unfold collect_detailed.
  induction results as [|entry results (visits & Hc & Hv)].
  - exists []. split; [reflexivity | constructor].
  - exists (map (fun listing =>
                   get_detailed_property_info (pages listing) listing)
                (top_listings (snd entry)) :: visits).
    split; [cbn [flat_map List.concat]; now rewrite Hc|].
    constructor; [|exact Hv].
    rewrite length_map, top_listings_length.
    split; [lia|]. split; [reflexivity|].
    intros d Hd. apply in_map_iff in Hd as (l & <- & Hl).
    rewrite detailed_listing_base. now apply top_listings_in.
Qed.

Lemma collect_detailed_nonempty
    (results : list (string * list (PropertyListing.t F)))
    (platform : string) (l : PropertyListing.t F)
    (ls : list (PropertyListing.t F)) :
  In (platform, l :: ls) results -> collect_detailed pages results <> [].
Proof.
  intros Hin Hnil.
  assert (Hlen : List.length (top_listings (l :: ls)) <> O).
  { rewrite top_listings_length. cbn [List.length]. lia. }
  destruct (top_listings (l :: ls)) as [|x xs] eqn:E; [now apply Hlen|].
  assert (Hx : In (get_detailed_property_info (pages x) x)
                  (collect_detailed pages results)).
  { unfold collect_detailed. apply in_flat_map.
    exists (platform, l :: ls). split; [exact Hin|].
    cbn [snd]. rewrite E. now left. }
  rewrite Hnil in Hx. destruct Hx.
Qed.

Lemma collect_detailed_empty
    (results : list (string * list (PropertyListing.t F))) :
  (forall entry, In entry results -> snd entry = []) ->
  collect_detailed pages results = [] /\ flat_map snd results = [].
Proof.
  intro Hall. unfold collect_detailed.
  induction results as [|entry results IH]; [now split|].
  cbn [flat_map]. rewrite (Hall entry (or_introl eq_refl)).
  cbn [top_listings py_sorted fold_right firstn map app].
  apply IH. intros e He. apply Hall. now right.
Qed.

End CollectFacts.

Section AnalysisFacts.
Context {F : Type} `{PyFloat F} `{PyBuiltins F}.
Variables np_mean np_median np_std : list F -> F.
Variable pages : PropertyListing.t F -> result (DetailedInfo.t F).

Local Abbreviation analyze :=
  (analyze_search_results np_mean np_median np_std pages).

(** A listing without a positive price and without amenities is scored
    without a division. *)
Lemma unpriced_listing_scores (d : DetailedPropertyListing.t F)
    (c : SearchCriteria.t F) :
  fltb (of_int 0) (DetailedPropertyListing.price_per_night d) = false ->
  DetailedPropertyListing.amenities d = [] ->
  exists v, calculate_value_score d c = Ok v.
Proof.
  intros Hp Ha. unfold calculate_value_score. rewrite Hp, Ha.
  cbn [bind nonempty]. eexists. reflexivity.
Qed.

Lemma filter_none {A} (p : A -> bool) (l : list A) :
  (forall x, In x l -> p x = false) -> filter p l = [].
Proof.
  induction l as [|x l IH]; intro Hall; [reflexivity|].
  cbn. rewrite (Hall x (or_introl eq_refl)). apply IH.
  intros y Hy. apply Hall. now right.
Qed.

(** When listings were found but none has a positive price (no price text
    could be read), the analysis does not return: after the ranking, the
    market aggregator raises [ValueError]. *)
Theorem analysis_fails_without_prices
    (results : list (string * list (PropertyListing.t F)))
    (criteria : SearchCriteria.t F) :
  (exists platform l ls, In (platform, l :: ls) results) ->
  (forall l, In l (flat_map snd results) ->
     fltb (of_int 0) (PropertyListing.price_per_night l) = false
     /\ PropertyListing.amenities l = []) ->
  analyze results criteria = Raise ValueError.
Proof.
  intros (platform & l & ls & Hin) Hall.
  unfold analyze_search_results.
  set (detailed := collect_detailed pages results).
  assert (Hdet : forall d, In d detailed ->
            fltb (of_int 0) (DetailedPropertyListing.price_per_night d) = false
            /\ DetailedPropertyListing.amenities d = []).
  { intros d Hd. apply (collect_detailed_base_in pages results) in Hd.
    exact (Hall _ Hd). }
  destruct (score_listings_total criteria detailed) as [scored Hscored].
  { apply Forall_forall. intros d Hd. destruct (Hdet d Hd) as [Hp Ha].
    now apply unpriced_listing_scores. }
  rewrite Hscored. cbn [bind].
  pose proof (score_listings_bases criteria detailed scored Hscored) as Hbase.
  set (ranked := sort_by_overall_score scored).
  assert (Hperm : Permutation scored ranked) by apply py_sorted_perm.
  assert (Hprices : filter (fun p => fltb (of_int 0) p)
                      (map PropertyListing.price_per_night
                           (flat_map snd results)) = []).
  { apply filter_none. intros p Hp. apply in_map_iff in Hp as (x & <- & Hx).
    exact (proj1 (Hall x Hx)). }
  rewrite Hprices. cbn [nonempty bind].
  assert (Hranked_ne : ranked <> []).
  { intro E. apply (collect_detailed_nonempty pages results platform l ls Hin).
    fold detailed. apply length_zero_iff_nil.
    rewrite <- (length_map DetailedPropertyListing.base detailed), <- Hbase,
      length_map, (Permutation_length Hperm), E. reflexivity. }
  assert (Hnone : Market.positive_prices ranked = []).
  { unfold Market.positive_prices. apply filter_none.
    intros p Hp. apply in_map_iff in Hp as (s & <- & Hs).
    apply (Permutation_in _ (Permutation_sym Hperm)) in Hs.
    apply (in_map DetailedPropertyListing.base) in Hs. rewrite Hbase in Hs.
    apply in_map_iff in Hs as (d & Hd & Hin_d).
    unfold DetailedPropertyListing.price_per_night. rewrite <- Hd.
    exact (proj1 (Hdet d Hin_d)). }
  rewrite (market_insights_without_prices np_mean np_median np_std ranked
             criteria Hranked_ne Hnone).
  reflexivity.
Qed.

(** With no listing at all the analysis returns: nothing found, average 0,
    range (0, 0), empty cohorts, the one message that nothing was found and
    no market insight. *)
Theorem analysis_of_no_listings
    (results : list (string * list (PropertyListing.t F)))
    (criteria : SearchCriteria.t F) :
  (forall entry, In entry results -> snd entry = []) ->
  analyze results criteria
  = Ok (SearchAnalysis.mk 0 (of_int 0) (of_int 0, of_int 0) [] [] []
          [no_properties_message] []).
Proof.
  intro Hall. unfold analyze_search_results.
  destruct (collect_detailed_empty pages results Hall) as [-> ->].
  reflexivity.
Qed.

(** When the analysis returns, it counts every listing found, its
    best-value cohort has at most five listings, every listing of a cohort
    is one of the listings found and carries its three scores, and there is
    at least one recommendation. *)
Theorem analysis_result_sound
    (results : list (string * list (PropertyListing.t F)))
    (criteria : SearchCriteria.t F)
    (analysis : SearchAnalysis.t F insight) :
  analyze results criteria = Ok analysis ->
  SearchAnalysis.total_properties_found analysis
  = len (flat_map snd results)
  /\ (List.length (SearchAnalysis.best_value_properties analysis) <= 5)%nat
  /\ SearchAnalysis.recommendations analysis <> []
  /\ forall d,
       In d (SearchAnalysis.best_value_properties analysis)
       \/ In d (SearchAnalysis.budget_options analysis)
       \/ In d (SearchAnalysis.premium_options analysis) ->
       In (DetailedPropertyListing.base d) (flat_map snd results)
       /\ exists d0 : DetailedPropertyListing.t F, scored_from criteria d0 d.
Proof.
  unfold analyze_search_results.
  set (detailed := collect_detailed pages results).
  destruct (score_listings criteria detailed) as [scored|e] eqn:Hscored;
    cbn [bind]; [|discriminate].
  set (ranked := sort_by_overall_score scored).
  destruct (if nonempty _ then _ else _) as [range|e]; cbn [bind];
    [|discriminate].
  destruct (generate_market_insights _ _ _ ranked criteria) as [mi|e];
    cbn [bind]; [|discriminate].
  intro E. injection E as <-.
  cbn [SearchAnalysis.total_properties_found
       SearchAnalysis.best_value_properties SearchAnalysis.budget_options
       SearchAnalysis.premium_options SearchAnalysis.recommendations].
  pose proof (score_listings_inv criteria detailed scored Hscored) as Hfrom.
  pose proof (score_listings_bases criteria detailed scored Hscored) as Hbase.
  assert (Hperm : Permutation scored ranked) by apply py_sorted_perm.
  assert (Hranked : forall d, In d ranked ->
            In (DetailedPropertyListing.base d) (flat_map snd results)
            /\ exists d0, scored_from criteria d0 d).
  { intros d Hd. apply (Permutation_in _ (Permutation_sym Hperm)) in Hd.
    split.
    - apply (in_map DetailedPropertyListing.base) in Hd. rewrite Hbase in Hd.
      apply in_map_iff in Hd as (d0 & <- & Hd0).
      exact (collect_detailed_base_in pages results d0 Hd0).
    - clear -Hfrom Hd. induction Hfrom as [|l s ls ss Hls _ IH];
        [destruct Hd|].
      destruct Hd as [<- | Hd]; [now exists l | now apply IH]. }
  split; [reflexivity|]. split; [apply firstn_le_length|]. split.
  - unfold generate_recommendations. destruct ranked as [|r rs];
      [discriminate|].
    cbv zeta.
    destruct (nonempty (filter _ (r :: rs)));
      destruct (nonempty (filter _ (r :: rs)));
      destruct (fltb _ _); discriminate.
  - intros d [Hd | [Hd | Hd]]; apply Hranked.
    + unfold best_value in Hd. now apply in_firstn in Hd.
    + unfold budget_options in Hd. now apply filter_In in Hd as [Hd _].
    + unfold premium_options in Hd. now apply filter_In in Hd as [Hd _].
Qed.

End AnalysisFacts.

(** ** Instances at sample inputs *)

Section SampleInstances.
Local Open Scope Q_scope.
Local Existing Instance cpython_3_11.

Lemma scraped_listing_value_score_witness :
  parse_airbnb_card (H0 := Samples.builtins) Samples.card
  = Some (Samples.listing_of Samples.card)
  /\ exists v,
       calculate_value_score
         (get_detailed_property_info
            (visit (H0 := Samples.builtins) (Ok Samples.page))
            (Samples.listing_of Samples.card))
         Examples.criteria_no_amenities
       = Ok v
       /\ 0 <= v <= 60.
Proof.
  split; [reflexivity|].
  destruct (scraped_listing_value_score (H := Samples.builtins)
              "Airbnb" "entire_place" Samples.card
              (Samples.listing_of Samples.card) (Ok Samples.page)
              Examples.criteria_no_amenities ltac:(reflexivity)
              ltac:(reflexivity))
    as (v & Hv & _ & Hrange).
  exists v. split; [exact Hv|]. apply Hrange.
  cbn. split; unfold Qle; simpl; lia.
Defined.

Lemma recommendations_best_value_witness :
  exists pre best post,
    [Examples.A (F:=Q); Examples.B] = (pre ++ best :: post)%list
    /\ (forall y, In y pre -> value_key y < value_key best)
    /\ (forall y, In y post -> value_key y <= value_key best)
    /\ In (best_value_message (H0 := Samples.builtins) best)
          (generate_recommendations (H0 := Samples.builtins) Samples.np_zero
             [Examples.A; Examples.B] Examples.criteria).
Proof.
  exact (proj2 (recommendations_best_value (H := Samples.builtins)
                  Samples.np_zero [Examples.A; Examples.B] Examples.criteria
                  ltac:(discriminate))).
Defined.

Lemma analysis_fails_without_prices_witness :
  analyze_search_results (H0 := Samples.builtins)
    Samples.np_zero Samples.np_zero Samples.np_zero
    (fun _ => Raise WebDriverException)
    [("booking_com"%string, []);
     ("airbnb"%string, [Samples.listing_of Samples.card_without_price])]
    Examples.criteria
  = Raise ValueError.
Proof.
  apply (analysis_fails_without_prices (H0 := Samples.builtins)).
  - exists "airbnb"%string, (Samples.listing_of Samples.card_without_price), [].
    right. left. reflexivity.
  - intros l [<- | []]. split; reflexivity.
Defined.

Lemma analysis_of_no_listings_witness :
  analyze_search_results (H0 := Samples.builtins)
    Samples.np_zero Samples.np_zero Samples.np_zero
    (fun _ => Raise WebDriverException)
    (search_accommodations (H0 := Samples.builtins)
       (Raise WebDriverException) (Ok []))
    Examples.criteria
  = Ok (SearchAnalysis.mk 0 0 (0, 0) [] [] []
          [no_properties_message] []).
Proof.
  exact (analysis_of_no_listings (H0 := Samples.builtins)
           Samples.np_zero Samples.np_zero Samples.np_zero
           (fun _ => Raise WebDriverException)
           (search_accommodations (H0 := Samples.builtins)
              (Raise WebDriverException) (Ok []))
           Examples.criteria
           ltac:(intros entry [<- | [<- | []]]; reflexivity)).
Defined.

Lemma analysis_result_sound_witness :
  exists analysis,
    analyze_search_results (H0 := Samples.builtins)
      Samples.np_zero Samples.np_zero Samples.np_zero
      (fun _ => visit (H0 := Samples.builtins) (Ok Samples.page))
      [("airbnb"%string, [Samples.listing_of Samples.card])]
      Examples.criteria
    = Ok analysis
    /\ SearchAnalysis.total_properties_found analysis = 1%Z
    /\ SearchAnalysis.recommendations analysis <> [].
Proof.
  eexists. split; [vm_compute; reflexivity|].
  match goal with
  | |- SearchAnalysis.total_properties_found ?a = _ /\ _ =>
      destruct (analysis_result_sound (H0 := Samples.builtins)
                  Samples.np_zero Samples.np_zero Samples.np_zero
                  (fun _ => visit (H0 := Samples.builtins) (Ok Samples.page))
                  [("airbnb"%string, [Samples.listing_of Samples.card])]
                  Examples.criteria a)
        as (Htotal & _ & Hrec & _)
  end.
  - vm_compute. reflexivity.
  - split; [exact Htotal | exact Hrec].
Defined.

End SampleInstances.

(** ** Command line *)

Section CliFacts.
Context {I : Interpreter}.



Lemma select_amenities_nonempty (line : Unicode.str) :
  Cli.select_amenities line <> [].
Proof.
  unfold Cli.select_amenities.
  destruct (Text.is_empty (Scan.strip line)); [discriminate|].
  destruct (Cli.selected_indices _) as [indices|e]; cbn [bind try_except];
    [|discriminate].
  destruct (Cli.amenities_at indices); cbn [nonempty]; discriminate.
Qed.


Local Open Scope Q_scope.

(** Criteria whose amenities come from the command line never stop the
    amenity block: under a positive budget every listing is scored. *)
Theorem cli_criteria_always_score (line : Unicode.str)
    (location check_in check_out : string)
    (guests : Z) (max_price : Q) (property_type : option string)
    (l : DetailedPropertyListing.t Q) :
  0 < max_price ->
  exists v,
    calculate_value_score l
      (SearchCriteria.init location check_in check_out guests max_price
         property_type (Some (Cli.select_amenities line)))
    = Ok v.
Proof.
  intro Hm.
  destruct (value_score_decomposition l
              (SearchCriteria.init location check_in check_out guests
                 max_price property_type (Some (Cli.select_amenities line))))
    as (v & Hv & _).
  - intros _ E. cbn in E. rewrite E in Hm. now apply Qlt_irrefl in Hm.
  - right. cbn. apply select_amenities_nonempty.
  - now exists v.
Qed.

End CliFacts.

Lemma cli_criteria_always_score_witness :
  exists v,
    calculate_value_score (F:=Q) L1
      (SearchCriteria.init "Bar" "2024-09-01" "2024-09-15" 2 40 None
         (Some (Cli.select_amenities (I := cpython_3_11)
                  (Unicode.of_string "x, 99"))))
    = Ok v.
Proof.
  apply (cli_criteria_always_score (I := cpython_3_11)
           (Unicode.of_string "x, 99") "Bar"%string
           "2024-09-01"%string "2024-09-15"%string 2 40 None L1).
  reflexivity.
Defined.

(** ** Booking assistant *)

Section AssistantFacts.
Context {F : Type} `{PyFloat F} `{PyBuiltins F} {I : Type}.

Lemma alternative_lines_length (start : nat)
    (options : list (DetailedPropertyListing.t F)) :
  List.length (alternative_lines start options) = List.length options.
Proof.
  revert start. induction options as [|o options IH]; intro start;
    [reflexivity|].
  cbn [alternative_lines List.length]. now rewrite IH.
Qed.


(** The assistant always ends with the five lines of booking tips.
    Without a best-value listing within the budget it says nothing else;
    with [n] of them it first gives the six lines of the top
    recommendation, the first such listing, and, when [n > 1], a heading
    and at most three alternatives. *)
Theorem booking_assistant_lines (analysis : SearchAnalysis.t F I)
    (criteria : SearchCriteria.t F) :
  let options :=
    within_budget criteria (SearchAnalysis.best_value_properties analysis) in
  let lines := automated_booking_assistant analysis criteria in
  exists before, lines = (before ++ booking_tips)%list
  /\ match options with
     | [] => before = []
     | top_choice :: others =>
         firstn 6 before = top_recommendation top_choice
         /\ List.length before
            = (6 + match others with
                   | [] => 0
                   | _ :: _ => 1 + Nat.min 3 (List.length others)
                   end)%nat
     end.
Proof.
  cbv zeta. unfold automated_booking_assistant.
  destruct (within_budget criteria _) as [|top others]; cbn [app].
  - exists []. split; reflexivity.
  - destruct others as [|o others'].
    + cbn [List.length Nat.ltb Nat.leb]. eexists. split; [reflexivity|].
      split; reflexivity.
    + cbn [List.length Nat.ltb Nat.leb skipn]. eexists.
      split; [reflexivity|]. split; [reflexivity|].
      rewrite length_app. cbn [List.length top_recommendation].
      rewrite alternative_lines_length, length_firstn. cbn [List.length]. lia.
Qed.

End AssistantFacts.

Section AssistantChoice.
Context `{PyBuiltins Q}.
Variables np_mean np_median np_std : list Q -> Q.
Variable pages : PropertyListing.t Q -> result (DetailedInfo.t Q).
Local Open Scope Q_scope.




End AssistantChoice.

